(** * Dependency-graph viewer: the graph builder, the layout wrapper and the
      view state of [src/app/page.tsx]

    The page builds a node map and an edge list from the raw Cytoscape
    elements, augments them with Docker capability nodes taken from the Docker
    analysis map, lays the result out with dagre, and derives the displayed
    nodes from the search, filter and highlight state.

    JavaScript strings are sequences of UTF-16 code units; they are modelled
    as [list N], and an ASCII literal of the source is written [lit "..."]. *)

From Stdlib Require Import List NArith ZArith QArith Bool Arith Lia.
From Stdlib Require Import Strings.String Strings.Ascii.
From Stdlib Require Import Numbers.DecimalString Numbers.DecimalNat.
From Stdlib Require Decimal.
Import ListNotations.

Close Scope Q_scope.
Local Open Scope list_scope.
Local Open Scope bool_scope.

(** ** JavaScript values used by the page *)

Module JS.

Definition jsstring := list N.

(** The code units of an ASCII literal. *)
Definition lit (s : string) : jsstring :=
  map N_of_ascii (list_ascii_of_string s).

(** [a === b] on strings. *)
Fixpoint streq (a b : jsstring) : bool :=
  match a, b with
  | [], [] => true
  | x :: a', y :: b' => N.eqb x y && streq a' b'
  | _, _ => false
  end.

(** [s.startsWith(p)] *)
Fixpoint startsWith (p s : jsstring) : bool :=
  match p, s with
  | [], _ => true
  | x :: p', y :: s' => N.eqb x y && startsWith p' s'
  | _ :: _, [] => false
  end.

(** [s.includes(p)] *)
Fixpoint includes (p s : jsstring) : bool :=
  startsWith p s ||
  match s with
  | [] => false
  | _ :: s' => includes p s'
  end.

(** [s.replace(p, r)] with a string pattern: only the first occurrence of [p]
    is replaced. *)
Fixpoint replace (p r s : jsstring) : jsstring :=
  if startsWith p s then r ++ skipn (List.length p) s
  else match s with
       | [] => []
       | c :: s' => c :: replace p r s'
       end.

Fixpoint takeWhile {A} (f : A -> bool) (l : list A) : list A :=
  match l with
  | [] => []
  | x :: l' => if f x then x :: takeWhile f l' else []
  end.

Fixpoint dropWhile {A} (f : A -> bool) (l : list A) : list A :=
  match l with
  | [] => []
  | x :: l' => if f x then dropWhile f l' else l
  end.

(** [s.split(sep).pop()] for a one-unit separator: what follows the last
    separator, the whole string when there is none. *)
Definition splitPop (sep : N) (s : jsstring) : jsstring :=
  rev (takeWhile (fun c => negb (N.eqb c sep)) (rev s)).

(** WhiteSpace and LineTerminator code units of ECMAScript, the ones
    [String.prototype.trim] removes. *)
Definition isWhiteSpace (c : N) : bool :=
  existsb (N.eqb c)
    [9; 10; 11; 12; 13; 32; 160; 5760; 8232; 8233; 8239; 8287; 12288; 65279]%N
  || (N.leb 8192 c && N.leb c 8202).

(** [s.trim()] *)
Definition trim (s : jsstring) : jsstring :=
  rev (dropWhile isWhiteSpace (rev (dropWhile isWhiteSpace s))).

(** Truthiness of a string and of an optional string ([undefined] and the
    empty string are falsy). *)
Definition truthy (s : jsstring) : bool :=
  match s with [] => false | _ :: _ => true end.

Definition truthyOpt (o : option jsstring) : bool :=
  match o with Some s => truthy s | None => false end.

(** [a || b] where [a] may be undefined. *)
Definition orElse (a : option jsstring) (b : jsstring) : jsstring :=
  match a with
  | Some (c :: s) => c :: s
  | _ => b
  end.

(** A number in a template literal: the decimal digits of an array index. *)
Definition ofNat (n : nat) : jsstring :=
  lit (NilEmpty.string_of_uint (Nat.to_uint n)).

(** The code units of a code point (a surrogate pair above the BMP). *)
Definition utf16 (cp : N) : jsstring :=
  if N.ltb cp 65536 then [cp]
  else [55296 + (cp - 65536) / 1024; 56320 + (cp - 65536) mod 1024]%N.

(** The property names every object literal inherits from
    [Object.prototype]: [k in obj] and [obj[k]] see them too. *)
Definition objectPrototypeKeys : list jsstring :=
  map lit
    [ "constructor"; "hasOwnProperty"; "isPrototypeOf"; "propertyIsEnumerable";
      "toLocaleString"; "toString"; "valueOf"; "__proto__";
      "__defineGetter__"; "__defineSetter__"; "__lookupGetter__";
      "__lookupSetter__" ]%string.

Definition inherited (k : jsstring) : bool :=
  existsb (streq k) objectPrototypeKeys.

(** *** [Map<string, V>]: keys in insertion order; [set] on a present key
    replaces the value in place. *)
Definition Map (V : Type) := list (jsstring * V).

Fixpoint mapSet {V} (k : jsstring) (v : V) (m : Map V) : Map V :=
  match m with
  | [] => [(k, v)]
  | (k', v') :: m' =>
      if streq k' k then (k, v) :: m' else (k', v') :: mapSet k v m'
  end.

Fixpoint mapGet {V} (k : jsstring) (m : Map V) : option V :=
  match m with
  | [] => None
  | (k', v') :: m' => if streq k' k then Some v' else mapGet k m'
  end.

Definition mapValues {V} (m : Map V) : list V := map snd m.
Definition mapKeys {V} (m : Map V) : list jsstring := map fst m.

(** *** [Set<string>]: members in insertion order. *)
Definition JSSet := list jsstring.

Definition setHas (x : jsstring) (s : JSSet) : bool := existsb (streq x) s.
Definition setAdd (x : jsstring) (s : JSSet) : JSSet :=
  if setHas x s then s else s ++ [x].
Definition setDelete (x : jsstring) (s : JSSet) : JSSet :=
  filter (fun y => negb (streq y x)) s.
Definition setSize (s : JSSet) : nat := List.length s.

(** [arr.forEach((x, index) => ...)] threading a state. *)
Fixpoint forEachFrom {A St} (f : St -> A -> nat -> St) (i : nat)
    (l : list A) (st : St) : St :=
  match l with
  | [] => st
  | x :: l' => forEachFrom f (S i) l' (f st x i)
  end.

Definition forEachIndexed {A St} (f : St -> A -> nat -> St) (l : list A)
    (st : St) : St :=
  forEachFrom f 0 l st.

End JS.

Import JS.

(** ** Data of the page *)

(** The raw elements of [cytoscape-elements.json], as [loadData] tells them
    apart: an element whose data carries an [id] is a node descriptor, of
    which it reads [id], [type], [label] and [sourceFile]; one without [id]
    that carries [source] and [target] is an edge descriptor; any other
    element is passed over and is left out of the list. *)
Inductive CytoscapeElement :=
| NodeElement (id : jsstring) (type label sourceFile : option jsstring)
| EdgeElement (source target : jsstring) (type : option jsstring).

Module DockerAPI.
Record t := mk {
  name : option jsstring;
  apiType : option jsstring;
  description : jsstring;
  line : option Z;
  codeSnippet : option jsstring }.
End DockerAPI.

Module DockerAnalysisResult.
Record t := mk {
  hasDockerIntegration : bool;
  dockerTools : option (list jsstring);
  dockerApis : option (list DockerAPI.t);
  summary : jsstring }.
End DockerAnalysisResult.

(** [Record<string, DockerAnalysisResult>], as [Object.entries] enumerates
    it; a well-formed one has no two entries with the same key. *)
Definition DockerData := list (jsstring * DockerAnalysisResult.t).

(** [arr || []] *)
Definition orEmpty {A} (o : option (list A)) : list A :=
  match o with Some l => l | None => [] end.

Module FileType.
Record t := mk {
  color : jsstring;
  icon : jsstring;
  label : jsstring;
  textColor : jsstring }.
End FileType.

Definition white : jsstring := lit "#ffffff".

Definition FILE_TYPES : Map FileType.t :=
  [ (lit "pages", FileType.mk (lit "#16a34a") (utf16 0x1f4c4) (lit "Pages") white);
    (lit "components",
      FileType.mk (lit "#2563eb") (utf16 0x1f9e9) (lit "Components") white);
    (lit "utils", FileType.mk (lit "#64748b") (utf16 0x1f527) (lit "Utils") white);
    (lit "lib", FileType.mk (lit "#7c3aed") (utf16 0x1f4da) (lit "Libraries") white);
    (lit "hooks", FileType.mk (lit "#dc2626") (utf16 0x1fa9d) (lit "Hooks") white);
    (lit "types", FileType.mk (lit "#ea580c") (utf16 0x1f4dd) (lit "Types") white);
    (lit "api", FileType.mk (lit "#059669") (utf16 0x1f310) (lit "API") white);
    (lit "default", FileType.mk (lit "#1f2937") (utf16 0x1f4c1) (lit "Other") white);
    (lit "docker_api",
      FileType.mk (lit "#1e40af") (utf16 0x1f50c) (lit "Docker API") white);
    (lit "docker_tool",
      FileType.mk (lit "#059669") (utf16 0x1f6e0 ++ utf16 0xfe0f)
        (lit "Docker Tool") white);
    (lit "docker_config",
      FileType.mk (lit "#d97706") (utf16 0x2699 ++ utf16 0xfe0f)
        (lit "Docker Config") white);
    (lit "docker_service",
      FileType.mk (lit "#7c3aed") (utf16 0x1f680) (lit "Docker Service") white) ].

(** [k in FILE_TYPES]: an own key of the literal or a name inherited from
    [Object.prototype]. *)
Definition inFileTypes (k : jsstring) : bool :=
  existsb (streq k) (mapKeys FILE_TYPES) || inherited k.

Definition nodeWidth : Z := 200.
Definition nodeHeight : Z := 50.

(** What [nameMap[name] || name] evaluates to: a string, or the member of
    [Object.prototype] that the lookup of an inherited name finds. *)
Inductive Friendly :=
| FriendlyText (s : jsstring)
| FriendlyProto (key : jsstring).

Definition nameMap : Map jsstring :=
  [ (lit "DockerAIEditorManager",
      lit "Docker AI " ++ [32232; 36655; 22120; 31649; 29702; 22120]%N);
    (lit "createDockerToolkit",
      [24314; 31435]%N ++ lit " Docker " ++ [24037; 20855; 21253]%N);
    (lit "dockerConfigManager.autoDetectDockerContext",
      lit "Docker " ++ [37197; 32622; 33258; 21205; 27298; 28204]%N);
    (lit "DockerToolkit", lit "Docker " ++ [24037; 20855; 21253]%N);
    (lit "DockerContext", lit "Docker " ++ [19978; 19979; 25991]%N);
    (lit "dockerReadFile", lit "Docker " ++ [35712; 21462; 27284; 26696]%N);
    (lit "dockerWriteFile", lit "Docker " ++ [23531; 20837; 27284; 26696]%N);
    (lit "dockerListDirectory", lit "Docker " ++ [21015; 20986; 30446; 37636]%N);
    (lit "dockerFindFiles", lit "Docker " ++ [25628; 23563; 27284; 26696]%N);
    (lit "dockerCheckPathExists",
      lit "Docker " ++ [27298; 26597; 36335; 24465]%N);
    (lit "dockerGetProjectInfo",
      lit "Docker " ++ [21462; 24471; 23560; 26696; 36039; 35338]%N);
    (lit "securityValidator", [23433; 20840; 24615; 39511; 35657; 22120]%N);
    (lit "docker_start_dev_server",
      lit "Docker " ++ [21855; 21205; 38283; 30332; 20282; 26381; 22120]%N);
    (lit "docker_restart_dev_server",
      lit "Docker " ++ [37325; 21855; 38283; 30332; 20282; 26381; 22120]%N);
    (lit "docker_read_log_tail",
      lit "Docker " ++ [35712; 21462; 26085; 35468]%N);
    (lit "docker_check_health",
      lit "Docker " ++ [20581; 24247; 27298; 26597]%N) ].

Definition getFriendlyDockerName (name : jsstring) : Friendly :=
  match mapGet name nameMap with
  | Some friendly => FriendlyText friendly
  | None => if inherited name then FriendlyProto name else FriendlyText name
  end.

(** The file-node rules of [getNodeType], tried from top to bottom. *)
Definition pathType (id : jsstring) : jsstring :=
  if includes (lit "pages/") id || includes (lit "app/") id then lit "pages"
  else if includes (lit "components/") id then lit "components"
  else if includes (lit "utils/") id then lit "utils"
  else if includes (lit "lib/") id then lit "lib"
  else if includes (lit "hooks/") id || includes (lit "use") id then lit "hooks"
  else if includes (lit "types/") id || includes (lit ".d.ts") id
       then lit "types"
  else if includes (lit "api/") id then lit "api"
  else lit "default".

(** [getNodeType]: the explicit type is returned when
    [nodeType && nodeType in FILE_TYPES] holds. *)
Definition getNodeType (id : jsstring) (nodeType : option jsstring) : jsstring :=
  match nodeType with
  | Some t => if truthy t && inFileTypes t then t else pathType id
  | None => pathType id
  end.

Module Style.
Record t := mk {
  background : option jsstring;
  color : option jsstring;
  fontSize : Z;
  fontWeight : Z;
  padding : Z;
  borderRadius : Z;
  border : jsstring;
  opacity : Q;
  boxShadow : jsstring;
  transition : jsstring;
  backdropFilter : jsstring;
  width : option Z;
  height : option Z }.
End Style.

(** [FILE_TYPES[type]] is one of the twelve records, or a member of
    [Object.prototype], which has no [color], [icon] or [textColor]. *)
Definition getNodeStyle (id : jsstring) (nodeType : option jsstring)
    (isHighlighted isFiltered : bool) : Style.t :=
  let type := getNodeType id nodeType in
  let config := mapGet type FILE_TYPES in
  {| Style.background :=
       if isHighlighted then Some (lit "#fbbf24")
       else option_map FileType.color config;
     Style.color :=
       if isHighlighted then Some (lit "#000000")
       else option_map FileType.textColor config;
     Style.fontSize := 12;
     Style.fontWeight := 600;
     Style.padding := 10;
     Style.borderRadius := 8;
     Style.border :=
       if isHighlighted then lit "3px solid #f59e0b"
       else lit "2px solid rgba(255,255,255,0.3)";
     Style.opacity := if isFiltered then 3 # 10 else 1;
     Style.boxShadow :=
       if isHighlighted then lit "0 0 20px rgba(245, 158, 11, 0.6)"
       else lit "0 4px 8px rgba(0,0,0,0.15)";
     Style.transition := lit "all 0.3s ease";
     Style.backdropFilter := lit "blur(1px)";
     Style.width := None;
     Style.height := None |}.

Inductive Position := Left | Right | Top | Bottom.

Module DockerInfo.
Record t := mk {
  apiName : option jsstring;
  tool : option jsstring;
  friendlyName : Friendly;
  description : option jsstring;
  sourceFile : jsstring;
  originalApi : option DockerAPI.t }.
End DockerInfo.

Module NodeData.
Record t := mk {
  label : jsstring;
  fullPath : jsstring;
  fileType : jsstring;
  nodeType : option jsstring;
  sourceFile : option jsstring;
  dockerInfo : option DockerInfo.t }.
End NodeData.

Module Node.
Record t := mk {
  id : jsstring;
  data : NodeData.t;
  position : Q * Q;
  sourcePosition : Position;
  targetPosition : Position;
  style : Style.t }.
End Node.

Module EdgeStyle.
Record t := mk {
  stroke : jsstring;
  strokeWidth : Z;
  strokeDasharray : option jsstring }.
End EdgeStyle.

Module Edge.
Record t := mk {
  id : jsstring;
  source : jsstring;
  target : jsstring;
  animated : bool;
  style : EdgeStyle.t;
  dataType : option jsstring }.
End Edge.

(** [analysis.dockerApis || []] and [analysis.dockerTools || []] *)
Definition apisOf (analysis : DockerAnalysisResult.t) : list DockerAPI.t :=
  orEmpty (DockerAnalysisResult.dockerApis analysis).

Definition toolsOf (analysis : DockerAnalysisResult.t) : list jsstring :=
  orEmpty (DockerAnalysisResult.dockerTools analysis).

(** The graph object of graphlib that dagre lays out, as far as the page
    uses it: the graph label, the node labels in insertion order (a node
    that only [setEdge] created has no label) and the directed edges. *)
Module Dagre.

Record GraphLabel := mkLabel {
  rankdir : jsstring;
  nodesep : Z;
  ranksep : Z }.

Record Graph := mk {
  label : option GraphLabel;
  nodes : Map (option (Z * Z));
  edges : list (jsstring * jsstring) }.

(** [new dagre.graphlib.Graph()] *)
Definition empty : Graph := mk None [] [].

Definition setGraph (l : GraphLabel) (g : Graph) : Graph :=
  mk (Some l) (nodes g) (edges g).

(** [g.setNode(v, {width, height})] *)
Definition setNode (v : jsstring) (size : Z * Z) (g : Graph) : Graph :=
  mk (label g) (mapSet v (Some size) (nodes g)) (edges g).

(** [g.setNode(v)] without a label, which leaves a present node alone. *)
Definition ensureNode (v : jsstring) (g : Graph) : Graph :=
  match mapGet v (nodes g) with
  | Some _ => g
  | None => mk (label g) (nodes g ++ [(v, None)]) (edges g)
  end.

Definition hasEdge (v w : jsstring) (g : Graph) : bool :=
  existsb (fun e => streq (fst e) v && streq (snd e) w) (edges g).

(** [g.setEdge(v, w)]: a present edge is left alone, a new one also creates
    its missing endpoints. *)
Definition setEdge (v w : jsstring) (g : Graph) : Graph :=
  if hasEdge v w g then g
  else
    let g' := ensureNode w (ensureNode v g) in
    mk (label g') (nodes g') (edges g' ++ [(v, w)]).

End Dagre.

(** State of the first [App] component of the page. *)
Module App.
Record t := mk {
  nodes : list Node.t;
  edges : list Edge.t;
  originalNodes : list Node.t;
  selectedNode : option Node.t;
  searchTerm : jsstring;
  highlightedNode : option jsstring;
  activeFilters : JSSet;
  fuse : option (list Node.t);
  dockerAnalysis : DockerData;
  searchResults : list Node.t;
  showSearchResults : bool }.
End App.

(** [edgeList.find(edge => edge.id === edgeId)] finds an edge. *)
Definition findEdge (edgeId : jsstring) (edgeList : list Edge.t) : bool :=
  existsb (fun edge => streq (Edge.id edge) edgeId) edgeList.

(** [node.id === highlightedNode] *)
Definition isHighlightedNode (id : jsstring) (highlightedNode : option jsstring)
    : bool :=
  match highlightedNode with
  | Some h => streq id h
  | None => false
  end.

Definition withStyle (node : Node.t) (style : Style.t) : Node.t :=
  Node.mk (Node.id node) (Node.data node) (Node.position node)
    (Node.sourcePosition node) (Node.targetPosition node) style.

Section Page.

(** What the engine prints for a member of [Object.prototype] in a template
    literal. *)
Variable protoText : jsstring -> jsstring.

(** [dagre.layout(g)]: the centre it assigns to each node of [g]. *)
Variable dagreLayout : Dagre.Graph -> jsstring -> Q * Q.

(** [fuse.search(term).map(result => result.item)] on the index built from a
    node list. *)
Variable fuseSearch : list Node.t -> jsstring -> list Node.t.

(** Whether [dagre.layout(g)] throws on the graph it is handed, as it does
    for a graph with a node named by the empty string. *)
Variable layoutThrows : Dagre.Graph -> bool.

Definition friendlyText (f : Friendly) : jsstring :=
  match f with
  | FriendlyText s => s
  | FriendlyProto key => protoText key
  end.

(** [`${config.icon}`] *)
Definition iconText (config : option FileType.t) : jsstring :=
  match config with
  | Some c => FileType.icon c
  | None => lit "undefined"
  end.

Definition fileNode (id : jsstring) (nodeType providedLabel sourceFile
    : option jsstring) : Node.t :=
  let type := getNodeType id nodeType in
  let config := mapGet type FILE_TYPES in
  let label :=
    orElse providedLabel
      (iconText config ++ lit " " ++ orElse (Some (splitPop 47 id)) id) in
  Node.mk id
    (NodeData.mk label id type nodeType sourceFile None)
    (0, 0)%Q Right Left (getNodeStyle id nodeType false false).

Definition dependencyEdge (source target : jsstring) (type : option jsstring)
    : Edge.t :=
  let isDocker :=
    match type with
    | Some t => streq t (lit "docker_integration")
    | None => false
    end in
  Edge.mk (source ++ lit "->" ++ target) source target isDocker
    (if isDocker
     then EdgeStyle.mk (lit "#3b82f6") 3 (Some (lit "5,5"))
     else EdgeStyle.mk (lit "#94a3b8") 2 None)
    type.

Definition BuildState : Type := Map Node.t * list Edge.t.

(** [fileKey.replace('github:', '')] *)
Definition fileNameOf (fileKey : jsstring) : jsstring :=
  replace (lit "github:") [] fileKey.

(** One step of [data.forEach] in [loadData]. *)
Definition addElement (st : BuildState) (el : CytoscapeElement) : BuildState :=
  match el with
  | NodeElement id nodeType providedLabel sourceFile =>
      (mapSet id (fileNode id nodeType providedLabel sourceFile) (fst st),
       snd st)
  | EdgeElement source target type =>
      let edgeId := source ++ lit "->" ++ target in
      if findEdge edgeId (snd st) then st
      else (fst st, snd st ++ [dependencyEdge source target type])
  end.

Definition apiNameOf (api : DockerAPI.t) (index : nat) : jsstring :=
  orElse (DockerAPI.name api)
    (orElse (DockerAPI.apiType api) (lit "api_" ++ ofNat index)).

Definition dockerApiId (fileName : jsstring) (api : DockerAPI.t) (index : nat)
    : jsstring :=
  lit "docker_api_" ++ fileName ++ lit "_" ++ apiNameOf api index ++ lit "_"
    ++ ofNat index.

Definition dockerToolId (fileName tool : jsstring) (index : nat) : jsstring :=
  lit "docker_tool_" ++ fileName ++ lit "_" ++ tool ++ lit "_" ++ ofNat index.

Definition dockerApiNode (fileName : jsstring) (api : DockerAPI.t)
    (index : nat) : Node.t :=
  let apiName := apiNameOf api index in
  let friendlyName := getFriendlyDockerName apiName in
  let id := dockerApiId fileName api index in
  Node.mk id
    (NodeData.mk (utf16 0x1f50c ++ lit " " ++ friendlyText friendlyName) id
       (lit "docker_api") (Some (lit "docker_api")) (Some fileName)
       (Some (DockerInfo.mk (Some apiName) None friendlyName
                (Some (DockerAPI.description api)) fileName (Some api))))
    (0, 0)%Q Right Left (getNodeStyle id (Some (lit "docker_api")) false false).

Definition dockerApiEdge (fileName : jsstring) (api : DockerAPI.t)
    (index : nat) : Edge.t :=
  let id := dockerApiId fileName api index in
  Edge.mk (fileName ++ lit "->" ++ id) fileName id true
    (EdgeStyle.mk (lit "#1e40af") 2 (Some (lit "3,3")))
    (Some (lit "docker_api_usage")).

Definition dockerToolNode (fileName tool : jsstring) (index : nat) : Node.t :=
  let friendlyName := getFriendlyDockerName tool in
  let id := dockerToolId fileName tool index in
  Node.mk id
    (NodeData.mk
       (utf16 0x1f6e0 ++ utf16 0xfe0f ++ lit " " ++ friendlyText friendlyName)
       id (lit "docker_tool") (Some (lit "docker_tool")) (Some fileName)
       (Some (DockerInfo.mk None (Some tool) friendlyName None fileName None)))
    (0, 0)%Q Right Left (getNodeStyle id (Some (lit "docker_tool")) false false).

Definition dockerToolEdge (fileName tool : jsstring) (index : nat) : Edge.t :=
  let id := dockerToolId fileName tool index in
  Edge.mk (fileName ++ lit "->" ++ id) fileName id true
    (EdgeStyle.mk (lit "#059669") 2 (Some (lit "3,3")))
    (Some (lit "docker_tool_usage")).

(** [nodeMap.set(id, node)] followed by the guarded [edgeList.push(edge)]. *)
Definition addCapability (node : Node.t) (edge : Edge.t) (st : BuildState)
    : BuildState :=
  (mapSet (Node.id node) node (fst st),
   if findEdge (Edge.id edge) (snd st) then snd st else snd st ++ [edge]).

Definition addDockerApi (fileName : jsstring) (st : BuildState)
    (api : DockerAPI.t) (index : nat) : BuildState :=
  addCapability (dockerApiNode fileName api index)
    (dockerApiEdge fileName api index) st.

Definition addDockerTool (fileName : jsstring) (st : BuildState)
    (tool : jsstring) (index : nat) : BuildState :=
  addCapability (dockerToolNode fileName tool index)
    (dockerToolEdge fileName tool index) st.

(** One step of [Object.entries(dockerData).forEach] in [loadData]. *)
Definition addDockerEntry (st : BuildState)
    (entry : jsstring * DockerAnalysisResult.t) : BuildState :=
  let (fileKey, analysis) := entry in
  if DockerAnalysisResult.hasDockerIntegration analysis then
    let fileName := fileNameOf fileKey in
    forEachIndexed (addDockerTool fileName) (toolsOf analysis)
      (forEachIndexed (addDockerApi fileName) (apisOf analysis) st)
  else st.

(** The node map and the edge list [loadData] has built when it reaches the
    layout. *)
Definition buildGraph (data : list CytoscapeElement) (dockerData : DockerData)
    : BuildState :=
  fold_left addDockerEntry dockerData (fold_left addElement data ([], [])).

(** [Array.from(nodeMap.values())] and [edgeList] *)
Definition initialNodes (data : list CytoscapeElement) (dockerData : DockerData)
    : list Node.t :=
  mapValues (fst (buildGraph data dockerData)).

Definition edgeList (data : list CytoscapeElement) (dockerData : DockerData)
    : list Edge.t :=
  snd (buildGraph data dockerData).

(** [getLayoutedElements], with the module-level [dagreGraph] it works on as
    an explicit state: the graph before the call comes in, the graph after
    it goes out. *)
Definition layoutGraph (dagreGraph : Dagre.Graph) (nodes : list Node.t)
    (edges : list Edge.t) : Dagre.Graph :=
  fold_left (fun g edge => Dagre.setEdge (Edge.source edge) (Edge.target edge) g)
    edges
    (fold_left
       (fun g node => Dagre.setNode (Node.id node) (nodeWidth, nodeHeight) g)
       nodes
       (Dagre.setGraph (Dagre.mkLabel (lit "LR") 30 300) dagreGraph)).

Definition layoutNode (g : Dagre.Graph) (node : Node.t) : Node.t :=
  let pos := dagreLayout g (Node.id node) in
  let style := Node.style node in
  Node.mk (Node.id node) (Node.data node)
    (fst pos - inject_Z nodeWidth / 2, snd pos - inject_Z nodeHeight / 2)%Q
    (Node.sourcePosition node) (Node.targetPosition node)
    (Style.mk (Style.background style) (Style.color style)
       (Style.fontSize style) (Style.fontWeight style) (Style.padding style)
       (Style.borderRadius style) (Style.border style) (Style.opacity style)
       (Style.boxShadow style) (Style.transition style)
       (Style.backdropFilter style) (Some nodeWidth) (Some nodeHeight)).

Definition getLayoutedElements (dagreGraph : Dagre.Graph) (nodes : list Node.t)
    (edges : list Edge.t) : (list Node.t * list Edge.t) * Dagre.Graph :=
  let g := layoutGraph dagreGraph nodes edges in
  ((map (layoutNode g) nodes, edges), g).

(** [handleSearch] of the first component. *)
Definition handleSearch (term : jsstring) (st : App.t) : App.t :=
  match trim term, App.fuse st with
  | _ :: _, Some index =>
      let foundNodes := fuseSearch index term in
      App.mk (App.nodes st) (App.edges st) (App.originalNodes st)
        (App.selectedNode st) term
        (match foundNodes with
         | first :: _ => Some (Node.id first)
         | [] => App.highlightedNode st
         end)
        (App.activeFilters st) (App.fuse st) (App.dockerAnalysis st)
        foundNodes
        (match foundNodes with _ :: _ => true | [] => false end)
  | _, _ =>
      App.mk (App.nodes st) (App.edges st) (App.originalNodes st)
        (App.selectedNode st) term None
        (App.activeFilters st) (App.fuse st) (App.dockerAnalysis st)
        [] false
  end.

(** [loadData] once both fetches have settled and the load was not
    cancelled: what the fetch of the Docker analysis and the fetch of the raw
    elements returned ([None] when one failed), the dagre graph and the state
    before, the state and the dagre graph after. The build, the layout and
    the construction of the search index run inside one [try]: when
    [dagre.layout] throws, the [catch] empties the nodes, the edges and the
    original nodes as it does when the fetch fails, the search index is not
    set, and the dagre graph already holds the nodes and edges of the
    request. [getLayoutedElements] above is the call that returns. Both
    bodies are of their declared types; what the Docker pass does on a body
    that is not is [Raw.buildGraph] below. *)
Definition loadData (dockerFetch : option DockerData)
    (dataFetch : option (list CytoscapeElement)) (dagreGraph : Dagre.Graph)
    (st : App.t) : App.t * Dagre.Graph :=
  let dockerData := match dockerFetch with Some d => d | None => [] end in
  let dockerAnalysis :=
    match dockerFetch with Some d => d | None => App.dockerAnalysis st end in
  let failed :=
    App.mk [] [] [] (App.selectedNode st) (App.searchTerm st)
      (App.highlightedNode st) (App.activeFilters st) (App.fuse st)
      dockerAnalysis (App.searchResults st) (App.showSearchResults st) in
  match dataFetch with
  | Some data =>
      let nodes0 := initialNodes data dockerData in
      let edges0 := edgeList data dockerData in
      if layoutThrows (layoutGraph dagreGraph nodes0 edges0)
      then (failed, layoutGraph dagreGraph nodes0 edges0)
      else
        let layouted := getLayoutedElements dagreGraph nodes0 edges0 in
        (App.mk (fst (fst layouted)) (snd (fst layouted)) nodes0
           (App.selectedNode st) (App.searchTerm st) (App.highlightedNode st)
           (App.activeFilters st) (Some nodes0) dockerAnalysis
           (App.searchResults st) (App.showSearchResults st),
         snd layouted)
  | None => (failed, dagreGraph)
  end.

End Page.

(** [toggleFilter]: the new filter set. *)
Definition toggleFilter (fileType : jsstring) (activeFilters : JSSet) : JSSet :=
  if setHas fileType activeFilters then setDelete fileType activeFilters
  else setAdd fileType activeFilters.

(** The restyling step of [displayNodes]. *)
Definition restyle (highlightedNode : option jsstring) (activeFilters : JSSet)
    (node : Node.t) : Node.t :=
  withStyle node
    (getNodeStyle (Node.id node) (NodeData.nodeType (Node.data node))
       (isHighlightedNode (Node.id node) highlightedNode)
       (Nat.ltb 0 (setSize activeFilters)
        && negb (setHas
                   (getNodeType (Node.id node)
                      (NodeData.nodeType (Node.data node)))
                   activeFilters))).

(** [displayNodes] of the first component. *)
Definition displayNodes (nodes : list Node.t)
    (highlightedNode : option jsstring) (activeFilters : JSSet) : list Node.t :=
  map (restyle highlightedNode activeFilters) nodes.

(** The second [App] component of the page, the one with the Docker
    filters: its view derivation and what it hands to the rendering
    surface. *)
Module DockerView.

(** [node.data.nodeType?.startsWith('docker_')] *)
Definition isDockerNode (node : Node.t) : bool :=
  match NodeData.nodeType (Node.data node) with
  | Some t => startsWith (lit "docker_") t
  | None => false
  end.

(** [(dockerAnalysis[`github:${nodeId}`] || dockerAnalysis[nodeId])
    ?.hasDockerIntegration]; a name found on [Object.prototype] only has no
    such field. *)
Definition hasDockerIntegration (dockerAnalysis : DockerData)
    (nodeId : jsstring) : bool :=
  match mapGet (lit "github:" ++ nodeId) dockerAnalysis with
  | Some dockerData => DockerAnalysisResult.hasDockerIntegration dockerData
  | None =>
      match mapGet nodeId dockerAnalysis with
      | Some dockerData => DockerAnalysisResult.hasDockerIntegration dockerData
      | None => false
      end
  end.

(** The predicate of [nodes.filter] in [displayNodes]. *)
Definition keepNode (showDockerOnly showDockerNodes : bool)
    (dockerAnalysis : DockerData) (node : Node.t) : bool :=
  if showDockerOnly && negb (isDockerNode node)
     && negb (hasDockerIntegration dockerAnalysis (Node.id node))
  then false
  else if isDockerNode node && negb showDockerNodes then false
  else true.

Record View := mkView {
  nodes : list Node.t;
  edges : list Edge.t;
  highlightedNode : option jsstring;
  activeFilters : JSSet;
  showDockerOnly : bool;
  showDockerNodes : bool;
  dockerAnalysis : DockerData }.

Definition displayNodes (v : View) : list Node.t :=
  map (restyle (highlightedNode v) (activeFilters v))
    (filter (keepNode (showDockerOnly v) (showDockerNodes v) (dockerAnalysis v))
       (nodes v)).

(** The [nodes] and [edges] props of [ReactFlowDynamic]. *)
Definition displayed (v : View) : list Node.t * list Edge.t :=
  (displayNodes v, edges v).

(** [setActiveFilters(newFilters)] *)
Definition setActiveFilters (newFilters : JSSet) (v : View) : View :=
  mkView (nodes v) (edges v) (highlightedNode v) newFilters
    (showDockerOnly v) (showDockerNodes v) (dockerAnalysis v).

Inductive DockerFilter := files | nodes_.

Definition toggleDockerFilter (type : DockerFilter) (v : View) : View :=
  match type with
  | files =>
      mkView (nodes v) (edges v) (highlightedNode v) (activeFilters v)
        (negb (showDockerOnly v)) (showDockerNodes v) (dockerAnalysis v)
  | nodes_ =>
      mkView (nodes v) (edges v) (highlightedNode v) (activeFilters v)
        (showDockerOnly v) (negb (showDockerNodes v)) (dockerAnalysis v)
  end.

End DockerView.

(** A concrete engine for the examples: how V8 prints the members of
    [Object.prototype]. *)
Definition v8ProtoText (key : jsstring) : jsstring :=
  if streq key (lit "__proto__") then lit "[object Object]"
  else lit "function "
       ++ (if streq key (lit "constructor") then lit "Object" else key)
       ++ lit "() { [native code] }".

Arguments lit : simpl never.
Arguments ofNat : simpl never.
Arguments utf16 : simpl never.

(** ** The specification's reading of the category inference

    The ordered rule table as the specification words it: a rule names a
    category and the patterns that select it; the rules are tried from the
    top and the first that matches decides. A directory pattern is a
    path-segment substring, the directory name with its separator. The hook
    rule also takes the prefix "use" of a path segment, and the type rule
    the suffix ".d" of the file name before its extension. *)

Inductive Pattern :=
| Directory (segment : jsstring)
| SegmentPrefix (prefix : jsstring)
| StemSuffix (suffix : jsstring).

(** [s.endsWith(p)] *)
Definition endsWith (p s : jsstring) : bool := startsWith (rev p) (rev s).

(** A name without its extension, the part from the last dot on. *)
Definition stem (name : jsstring) : jsstring :=
  match dropWhile (fun c => negb (N.eqb c 46)) (rev name) with
  | [] => name
  | _ :: rest => rev rest
  end.

Definition matchesPattern (id : jsstring) (p : Pattern) : bool :=
  match p with
  | Directory segment => includes segment id
  | SegmentPrefix prefix =>
      startsWith prefix id || includes (lit "/" ++ prefix) id
  | StemSuffix suffix => endsWith suffix (stem (splitPop 47 id))
  end.

Definition categoryRules : list (list Pattern * jsstring) :=
  [ ([Directory (lit "pages/"); Directory (lit "app/")], lit "pages");
    ([Directory (lit "components/")], lit "components");
    ([Directory (lit "utils/")], lit "utils");
    ([Directory (lit "lib/")], lit "lib");
    ([Directory (lit "hooks/"); SegmentPrefix (lit "use")], lit "hooks");
    ([Directory (lit "types/"); StemSuffix (lit ".d")], lit "types");
    ([Directory (lit "api/")], lit "api") ].

Definition ruleMatches (id : jsstring) (rule : list Pattern * jsstring) : bool :=
  existsb (matchesPattern id) (fst rule).

Definition inferCategory (id : jsstring) : jsstring :=
  match find (ruleMatches id) categoryRules with
  | Some rule => snd rule
  | None => lit "default"
  end.

(** A valid explicit category: one of the categories of [FILE_TYPES]. *)
Definition validCategory (nodeType : option jsstring) : bool :=
  match nodeType with
  | Some t => existsb (streq t) (mapKeys FILE_TYPES)
  | None => false
  end.

(** An explicit type that names a member of [Object.prototype]. *)
Definition prototypeName (nodeType : option jsstring) : bool :=
  match nodeType with
  | Some t => inherited t
  | None => false
  end.

(** The rule table the code applies: every pattern is a substring, looked
    for anywhere in the identifier. *)
Definition substringRules : list (list jsstring * jsstring) :=
  [ ([lit "pages/"; lit "app/"], lit "pages");
    ([lit "components/"], lit "components");
    ([lit "utils/"], lit "utils");
    ([lit "lib/"], lit "lib");
    ([lit "hooks/"; lit "use"], lit "hooks");
    ([lit "types/"; lit ".d.ts"], lit "types");
    ([lit "api/"], lit "api") ].

Definition substringMatches (id : jsstring) (rule : list jsstring * jsstring)
    : bool :=
  existsb (fun pattern => includes pattern id) (fst rule).

(** The display label of a category. *)
Definition categoryLabel (type : jsstring) : option jsstring :=
  option_map FileType.label (mapGet type FILE_TYPES).

(** ** Where the nodes and edges of the built graph come from *)

(** The identifiers of a node list and of an edge list. *)
Definition nodeIds (nodes : list Node.t) : list jsstring := map Node.id nodes.
Definition edgeIds (edges : list Edge.t) : list jsstring := map Edge.id edges.

(** The identifier is declared by a node descriptor of the raw elements. *)
Definition declared (data : list CytoscapeElement) (id : jsstring) : Prop :=
  exists type label sourceFile, In (NodeElement id type label sourceFile) data.

(** The node comes from a node descriptor of the raw elements. *)
Definition nodeOfDescriptor (data : list CytoscapeElement) (n : Node.t) : Prop :=
  exists id type label sourceFile,
    In (NodeElement id type label sourceFile) data
    /\ n = fileNode id type label sourceFile.

(** The edge comes from an edge descriptor of the raw elements. *)
Definition edgeOfDescriptor (data : list CytoscapeElement) (e : Edge.t) : Prop :=
  exists source target type,
    In (EdgeElement source target type) data
    /\ e = dependencyEdge source target type.

(** The node is the capability node of an entry of [dockerApis] or
    [dockerTools] of the analysis stored under [fileKey]. *)
Definition nodeOfEntry (protoText : jsstring -> jsstring) (fileKey : jsstring)
    (analysis : DockerAnalysisResult.t) (n : Node.t) : Prop :=
  (exists index api,
      nth_error (apisOf analysis) index = Some api
      /\ n = dockerApiNode protoText (fileNameOf fileKey) api index)
  \/ (exists index tool,
        nth_error (toolsOf analysis) index = Some tool
        /\ n = dockerToolNode protoText (fileNameOf fileKey) tool index).

(** The edge is the capability edge of such an entry. *)
Definition edgeOfEntry (fileKey : jsstring) (analysis : DockerAnalysisResult.t)
    (e : Edge.t) : Prop :=
  (exists index api,
      nth_error (apisOf analysis) index = Some api
      /\ e = dockerApiEdge (fileNameOf fileKey) api index)
  \/ (exists index tool,
        nth_error (toolsOf analysis) index = Some tool
        /\ e = dockerToolEdge (fileNameOf fileKey) tool index).

(** The entries of the analysis map that [loadData] augments the graph
    with. *)
Definition integrated (dockerData : DockerData) (fileKey : jsstring)
    (analysis : DockerAnalysisResult.t) : Prop :=
  In (fileKey, analysis) dockerData
  /\ DockerAnalysisResult.hasDockerIntegration analysis = true.

(** The descriptors an identifier selects: the last node descriptor with the
    identifier, and the first edge descriptor whose [source->target] is the
    identifier. *)
Fixpoint lastNodeDescriptor (id : jsstring) (data : list CytoscapeElement)
    : option Node.t :=
  match data with
  | [] => None
  | el :: rest =>
      match lastNodeDescriptor id rest with
      | Some n => Some n
      | None =>
          match el with
          | NodeElement id' type label sourceFile =>
              if streq id' id then Some (fileNode id' type label sourceFile)
              else None
          | EdgeElement _ _ _ => None
          end
      end
  end.

Fixpoint firstEdgeDescriptor (edgeId : jsstring) (data : list CytoscapeElement)
    : option Edge.t :=
  match data with
  | [] => None
  | NodeElement _ _ _ _ :: rest => firstEdgeDescriptor edgeId rest
  | EdgeElement source target type :: rest =>
      if streq (source ++ lit "->" ++ target) edgeId
      then Some (dependencyEdge source target type)
      else firstEdgeDescriptor edgeId rest
  end.

(** Every edge descriptor has its endpoints declared, and so has every file
    with Docker integration. *)
Definition endpointsDeclared (data : list CytoscapeElement)
    (dockerData : DockerData) : Prop :=
  (forall source target type,
      In (EdgeElement source target type) data ->
      declared data source /\ declared data target)
  /\ (forall fileKey analysis,
        integrated dockerData fileKey analysis ->
        declared data (fileNameOf fileKey)).

(** ** Invariants of the build state *)

(** Every node is stored under its own identifier. *)
Definition keyed (m : Map Node.t) : Prop :=
  forall k n, In (k, n) m -> Node.id n = k.

(** The node map is keyed by the node identifiers, which are distinct, and
    the edge identifiers are distinct. *)
Definition wellFormed (st : BuildState) : Prop :=
  keyed (fst st) /\ NoDup (mapKeys (fst st)) /\ NoDup (edgeIds (snd st)).

(** Node identifiers and edges are only ever added. *)
Definition grows (st st' : BuildState) : Prop :=
  incl (mapKeys (fst st)) (mapKeys (fst st'))
  /\ incl (snd st) (snd st').

(** ** Capability nodes and edges of one analysis entry *)

(** The two kinds of synthesized capability nodes. *)
Definition isApiNode (n : Node.t) : Prop :=
  NodeData.nodeType (Node.data n) = Some (lit "docker_api").

Definition isToolNode (n : Node.t) : Prop :=
  NodeData.nodeType (Node.data n) = Some (lit "docker_tool").

(** [l.map((x, index) => f(index, x))], counting from [i]. *)
Fixpoint mapiFrom {A B} (f : nat -> A -> B) (i : nat) (l : list A) : list B :=
  match l with
  | [] => []
  | x :: l' => f i x :: mapiFrom f (S i) l'
  end.

(** The capability nodes and edges [loadData] synthesizes for the analysis
    stored under [fileKey], in the order of the two loops. *)
Definition entryNodes (protoText : jsstring -> jsstring) (fileKey : jsstring)
    (analysis : DockerAnalysisResult.t) : list Node.t :=
  mapiFrom (fun i api => dockerApiNode protoText (fileNameOf fileKey) api i) 0
    (apisOf analysis)
  ++ mapiFrom (fun i tool => dockerToolNode protoText (fileNameOf fileKey) tool i)
       0 (toolsOf analysis).

Definition entryEdges (fileKey : jsstring) (analysis : DockerAnalysisResult.t)
    : list Edge.t :=
  mapiFrom (fun i api => dockerApiEdge (fileNameOf fileKey) api i) 0
    (apisOf analysis)
  ++ mapiFrom (fun i tool => dockerToolEdge (fileNameOf fileKey) tool i) 0
       (toolsOf analysis).

(** [o === s] for a field that may be undefined. *)
Definition optionIs (o : option jsstring) (s : jsstring) : bool :=
  match o with
  | Some x => streq x s
  | None => false
  end.

(** A Docker capability node owned by the file: its node type starts with
    [docker_] and its [sourceFile] is the file. *)
Definition ownedCapability (fileName : jsstring) (n : Node.t) : bool :=
  DockerView.isDockerNode n
  && optionIs (NodeData.sourceFile (Node.data n)) fileName.

(** The same, of the given kind ([docker_api] or [docker_tool]). *)
Definition ownedKind (fileName kind : jsstring) (n : Node.t) : bool :=
  optionIs (NodeData.nodeType (Node.data n)) kind && ownedCapability fileName n.

(** A capability edge whose source is the file: an edge marked
    [docker_api_usage] or [docker_tool_usage]. *)
Definition capabilityEdgeFrom (fileName : jsstring) (e : Edge.t) : bool :=
  streq (Edge.source e) fileName
  && (optionIs (Edge.dataType e) (lit "docker_api_usage")
      || optionIs (Edge.dataType e) (lit "docker_tool_usage")).

(** No other integrated entry of the analysis map is about the same file or
    synthesizes one of the identifiers of this entry. *)
Definition othersApart (protoText : jsstring -> jsstring) (fileKey : jsstring)
    (analysis : DockerAnalysisResult.t) (others : DockerData) : Prop :=
  forall fileKey' analysis',
    integrated others fileKey' analysis' ->
    fileNameOf fileKey' <> fileNameOf fileKey
    /\ (forall n n',
          In n (entryNodes protoText fileKey analysis) ->
          In n' (entryNodes protoText fileKey' analysis') ->
          Node.id n <> Node.id n')
    /\ (forall e e',
          In e (entryEdges fileKey analysis) ->
          In e' (entryEdges fileKey' analysis') ->
          Edge.id e <> Edge.id e').

(** No raw element is a capability node or edge of the file, or carries one
    of the identifiers of this entry. *)
Definition rawApart (protoText : jsstring -> jsstring)
    (data : list CytoscapeElement) (fileKey : jsstring)
    (analysis : DockerAnalysisResult.t) : Prop :=
  (forall id type label sourceFile,
      In (NodeElement id type label sourceFile) data ->
      ~ In id (nodeIds (entryNodes protoText fileKey analysis))
      /\ ownedCapability (fileNameOf fileKey)
           (fileNode id type label sourceFile) = false)
  /\ (forall source target type,
        In (EdgeElement source target type) data ->
        ~ In (source ++ lit "->" ++ target)
            (edgeIds (entryEdges fileKey analysis))
        /\ capabilityEdgeFrom (fileNameOf fileKey)
             (dependencyEdge source target type) = false).

(** ** The shared dagre graph *)

(** The dagre graph already holds the layout request: the graph label, the
    nodes with the fixed footprint and the edges. *)
Definition holdsRequest (g : Dagre.Graph) (nodes : list Node.t)
    (edges : list Edge.t) : Prop :=
  Dagre.label g = Some (Dagre.mkLabel (lit "LR") 30 300)
  /\ (forall node,
        In node nodes ->
        mapGet (Node.id node) (Dagre.nodes g) = Some (Some (nodeWidth, nodeHeight)))
  /\ (forall edge,
        In edge edges ->
        Dagre.hasEdge (Edge.source edge) (Edge.target edge) g = true).

(** The top-left corner the page derives from the centre dagre assigns. *)
Definition cornerOf (centre : Q * Q) : Q * Q :=
  (fst centre - inject_Z nodeWidth / 2, snd centre - inject_Z nodeHeight / 2)%Q.

(** ** Sample inputs *)

(** Scenarios A, B and C of the specification. *)

Definition scenarioA : list CytoscapeElement :=
  [ NodeElement (lit "a.ts") None None None;
    NodeElement (lit "b.ts") None None None;
    EdgeElement (lit "a.ts") (lit "b.ts") None ].

Definition exampleAnalysis (flag : bool) (apis : list DockerAPI.t)
    (tools : list jsstring) : DockerAnalysisResult.t :=
  DockerAnalysisResult.mk flag (Some tools) (Some apis) (lit "s").

Definition namedApi (name : jsstring) : DockerAPI.t :=
  DockerAPI.mk (Some name) None (lit "x") None None.

Definition scenarioB_data : list CytoscapeElement :=
  [ NodeElement (lit "a.ts") None None None ].

Definition scenarioB_analysis : DockerAnalysisResult.t :=
  exampleAnalysis true [DockerAPI.mk None (Some (lit "read")) (lit "x") None None]
    [lit "compose"].

Definition scenarioB_docker : DockerData :=
  [ (lit "github:a.ts", scenarioB_analysis) ].

Definition scenarioC : list CytoscapeElement :=
  [ EdgeElement (lit "a") (lit "b") None;
    EdgeElement (lit "a") (lit "b") None ].

(** A state of the first component after a search that found both nodes of
    Scenario A. *)

Definition exampleApp : App.t :=
  let nodes := initialNodes v8ProtoText scenarioA [] in
  App.mk nodes (edgeList v8ProtoText scenarioA []) nodes None (lit "a")
    (Some (lit "a.ts")) [] (Some nodes) [] nodes true.

(** Scenario B in the second component: the Docker-only filter and the
    Docker-node switch as given. *)
Definition scenarioBView (showDockerOnly showDockerNodes : bool)
    : DockerView.View :=
  DockerView.mkView (initialNodes v8ProtoText scenarioB_data scenarioB_docker)
    (edgeList v8ProtoText scenarioB_data scenarioB_docker) None []
    showDockerOnly showDockerNodes scenarioB_docker.

(** Scenario A in the second component with the Docker-only filter on and
    no Docker analysis. *)
Definition scenarioAView : DockerView.View :=
  DockerView.mkView (initialNodes v8ProtoText scenarioA [])
    (edgeList v8ProtoText scenarioA []) None [] true true [].

(** Raw elements with an edge to a file outside the scan, and raw elements
    that repeat a node identifier. *)

Definition danglingData : list CytoscapeElement :=
  [ NodeElement (lit "a.ts") None None None;
    EdgeElement (lit "a.ts") (lit "lib/outside.ts") None ].

Definition repeatedNodeData : list CytoscapeElement :=
  [ NodeElement (lit "a") None (Some (lit "first")) None;
    NodeElement (lit "a") None (Some (lit "second")) None ].

(** An entry of the analysis map that has no Docker integration but lists an
    API and a tool. *)
Definition unflaggedEntry : jsstring * DockerAnalysisResult.t :=
  (lit "b.ts", exampleAnalysis false [namedApi (lit "dockerReadFile")] [lit "compose"]).

(** An analysis map with two keys for the same file, one per source. *)
Definition twoSources : DockerData :=
  [ (lit "github:a.ts", exampleAnalysis true [namedApi (lit "dockerReadFile")] []);
    (lit "a.ts", exampleAnalysis true [namedApi (lit "dockerWriteFile")] []) ].

(** An analysis whose only API entry has neither [name] nor [apiType]. *)

Definition namelessApi : DockerAPI.t :=
  DockerAPI.mk None None (lit "x") None None.

Definition namelessAnalysis : DockerAnalysisResult.t :=
  exampleAnalysis true [namelessApi] [lit "compose"].

Definition namelessDocker : DockerData :=
  [ (lit "github:a.ts", namelessAnalysis) ].

(** Two layout requests: the graph x.ts -> a.ts, and the single node a.ts. *)

Definition nodeX : Node.t := fileNode (lit "x.ts") None None None.
Definition nodeA : Node.t := fileNode (lit "a.ts") None None None.
Definition edgeXA : Edge.t := dependencyEdge (lit "x.ts") (lit "a.ts") None.

Definition layoutLabel : Dagre.GraphLabel := Dagre.mkLabel (lit "LR") 30 300.

(** The dagre graph that holds only a.ts, and the one that still holds x.ts
    and the edge from it. *)
Definition freshGraph : Dagre.Graph :=
  Dagre.mk (Some layoutLabel) [(lit "a.ts", Some (nodeWidth, nodeHeight))] [].

Definition staleGraph : Dagre.Graph :=
  Dagre.mk (Some layoutLabel)
    [ (lit "x.ts", Some (nodeWidth, nodeHeight));
      (lit "a.ts", Some (nodeWidth, nodeHeight)) ]
    [ (lit "x.ts", lit "a.ts") ].

(** A stand-in layout engine for the examples: every node sits one column
    further right per edge that enters it. *)
Definition columnLayout (g : Dagre.Graph) (v : jsstring) : Q * Q :=
  (inject_Z
     (100 + 500 * Z.of_nat
                    (List.length (filter (fun e => streq (snd e) v) (Dagre.edges g)))),
   inject_Z 25).

(** ** The handlers, counters and panels around the graph *)

(** The call [reactFlowInstance.current.setCenter(x, y, { zoom, duration })]. *)
Module Camera.
Record t := mk {
  x : Q;
  y : Q;
  zoom : Q;
  duration : Z }.
End Camera.

(** [selectNodeAndMove]: the state after it and the camera move it asks for,
    none while the flow instance is not set. *)
Definition selectNodeAndMove (hasInstance : bool) (node : Node.t) (st : App.t)
    : App.t * option Camera.t :=
  (App.mk (App.nodes st) (App.edges st) (App.originalNodes st) (Some node)
     (App.searchTerm st) (Some (Node.id node)) (App.activeFilters st)
     (App.fuse st) (App.dockerAnalysis st) (App.searchResults st)
     (App.showSearchResults st),
   if hasInstance then
     Some (Camera.mk
             (fst (Node.position node) + inject_Z nodeWidth / 2)%Q
             (snd (Node.position node) + inject_Z nodeHeight / 2)%Q
             (12 # 10)%Q 800)
   else None).

(** [selectSearchResult] *)
Definition selectSearchResult (hasInstance : bool) (node : Node.t) (st : App.t)
    : App.t * option Camera.t :=
  let moved := selectNodeAndMove hasInstance node st in
  (App.mk (App.nodes (fst moved)) (App.edges (fst moved))
     (App.originalNodes (fst moved)) (Some node) (App.searchTerm (fst moved))
     (App.highlightedNode (fst moved)) (App.activeFilters (fst moved))
     (App.fuse (fst moved)) (App.dockerAnalysis (fst moved))
     (App.searchResults (fst moved)) false,
   snd moved).

(** [onNodeClick] *)
Definition onNodeClick (node : Node.t) (st : App.t) : App.t :=
  App.mk (App.nodes st) (App.edges st) (App.originalNodes st) (Some node)
    (App.searchTerm st) (Some (Node.id node)) (App.activeFilters st)
    (App.fuse st) (App.dockerAnalysis st) (App.searchResults st)
    (App.showSearchResults st).

(** The predicate of [nodes.find] in [navigateToHomePage]. *)
Definition isHomePage (node : Node.t) : bool :=
  includes (lit "page.tsx") (Node.id node)
  || includes (lit "src/app/page.tsx") (Node.id node)
  || includes (lit "page.tsx") (NodeData.fullPath (Node.data node)).

Definition navigateToHomePage (hasInstance : bool) (st : App.t)
    : App.t * option Camera.t :=
  match find isHomePage (App.nodes st) with
  | Some homePageNode => selectNodeAndMove hasInstance homePageNode st
  | None => (st, None)
  end.

(** *** The information panel of the selected node *)

(** [dependencies]: the incoming and the outgoing count. *)
Definition dependencies (edges : list Edge.t) (selectedId : jsstring)
    : nat * nat :=
  (List.length (filter (fun edge => streq (Edge.target edge) selectedId) edges),
   List.length (filter (fun edge => streq (Edge.source edge) selectedId) edges)).

Module Related.
Record t := mk {
  relatedId : jsstring;
  isOutgoing : bool;
  uniqueKey : jsstring }.
End Related.

(** The predicate of [edges.filter] in [relatedFiles]. *)
Definition touches (selectedId : jsstring) (edge : Edge.t) : bool :=
  streq (Edge.source edge) selectedId || streq (Edge.target edge) selectedId.

Definition relatedFile (selectedId : jsstring) (index : nat) (edge : Edge.t)
    : Related.t :=
  let isOutgoing := streq (Edge.source edge) selectedId in
  let relatedId := if isOutgoing then Edge.target edge else Edge.source edge in
  Related.mk relatedId isOutgoing
    (selectedId ++ lit "-" ++ relatedId ++ lit "-" ++ ofNat index ++ lit "-"
       ++ (if isOutgoing then lit "out" else lit "in")).

Definition relatedFiles (edges : list Edge.t) (selectedId : jsstring)
    : list Related.t :=
  mapiFrom (relatedFile selectedId) 0
    (firstn 5 (filter (touches selectedId) edges)).

(** The click on a related file in [NodeRelatedFiles]: the node it looks up,
    and what the click does. *)
Definition findRelatedNode (nodes : list Node.t) (relatedId : jsstring)
    : option Node.t :=
  find (fun n => streq (Node.id n) relatedId) nodes.

Definition clickRelatedFile (hasInstance : bool) (relatedId : jsstring)
    (st : App.t) : App.t * option Camera.t :=
  match findRelatedNode (App.nodes st) relatedId with
  | Some relatedNode => selectNodeAndMove hasInstance relatedNode st
  | None => (st, None)
  end.

(** *** The category counters *)

(** A value of the [stats] object: a count, or the text that [+ 1] makes of
    a member of [Object.prototype]. *)
Inductive StatValue :=
| StatCount (n : nat)
| StatText (s : jsstring).

(** The buttons [FileTypeFilters] renders. *)
Module FilterButton.
Record t := mk {
  key : jsstring;
  config : FileType.t;
  count : StatValue;
  isActive : bool }.
End FilterButton.

(** [stats[key] || 0] for a key of [FILE_TYPES], none of which names a
    member of [Object.prototype]. *)
Definition statOf (stats : Map StatValue) (key : jsstring) : StatValue :=
  match mapGet key stats with
  | Some (StatCount n) => StatCount n
  | Some (StatText s) => if truthy s then StatText s else StatCount 0
  | None => StatCount 0
  end.

(** One entry of [Object.entries(FILE_TYPES).map]: [null] when the count is
    0. *)
Definition filterButton (stats : Map StatValue) (activeFilters : JSSet)
    (entry : jsstring * FileType.t) : option FilterButton.t :=
  match statOf stats (fst entry) with
  | StatCount 0 => None
  | count =>
      Some (FilterButton.mk (fst entry) (snd entry) count
              (setHas (fst entry) activeFilters))
  end.

Fixpoint filterMap {A B} (f : A -> option B) (l : list A) : list B :=
  match l with
  | [] => []
  | x :: l' =>
      match f x with
      | Some y => y :: filterMap f l'
      | None => filterMap f l'
      end
  end.

Definition FileTypeFilters (stats : Map StatValue) (activeFilters : JSSet)
    : list FilterButton.t :=
  filterMap (filterButton stats activeFilters) FILE_TYPES.

(** *** The counters of [DockerFilters] *)

(** [arr?.length || 0] *)
Definition lengthOr0 {A} (o : option (list A)) : nat :=
  match o with
  | Some l => List.length l
  | None => 0
  end.

Definition dockerFileCount (dockerAnalysis : DockerData) : nat :=
  List.length
    (filter DockerAnalysisResult.hasDockerIntegration (map snd dockerAnalysis)).

Definition dockerNodeCount (dockerAnalysis : DockerData) : nat :=
  fold_left
    (fun count analysis =>
       count + lengthOr0 (DockerAnalysisResult.dockerTools analysis)
       + lengthOr0 (DockerAnalysisResult.dockerApis analysis))
    (map snd dockerAnalysis) 0.

Section Panels.

Variable protoText : jsstring -> jsstring.
Variable dagreLayout : Dagre.Graph -> jsstring -> Q * Q.

(** Whether [dagre.layout(g)] throws on the graph it is handed. *)
Variable layoutThrows : Dagre.Graph -> bool.

(** [handleRelayout], with the dagre graph before and after. The handler has
    no [try]: when [dagre.layout] throws, [setNodes] is not reached and the
    state stays as it was, the dagre graph holding the request. *)
Definition handleRelayout (dagreGraph : Dagre.Graph) (st : App.t)
    : App.t * Dagre.Graph :=
  if layoutThrows (layoutGraph dagreGraph (App.nodes st) (App.edges st))
  then (st, layoutGraph dagreGraph (App.nodes st) (App.edges st))
  else
    let layouted :=
      getLayoutedElements dagreLayout dagreGraph (App.nodes st) (App.edges st)
    in
    (App.mk (fst (fst layouted)) (App.edges st) (App.originalNodes st)
       (App.selectedNode st) (App.searchTerm st) (App.highlightedNode st)
       (App.activeFilters st) (App.fuse st) (App.dockerAnalysis st)
       (App.searchResults st) (App.showSearchResults st),
     snd layouted).

(** One step of [originalNodes.reduce] in [stats]:
    [acc[type] = (acc[type] || 0) + 1]. A name that [acc] only inherits reads
    as the member of [Object.prototype], and the sum is a text; the
    assignment to [__proto__] of a text is ignored. *)
Definition countType (acc : Map StatValue) (type : jsstring) : Map StatValue :=
  let next :=
    match mapGet type acc with
    | Some (StatCount n) => StatCount (n + 1)
    | Some (StatText s) =>
        if truthy s then StatText (s ++ lit "1") else StatCount 1
    | None =>
        if inherited type then StatText (protoText type ++ lit "1")
        else StatCount 1
    end in
  if streq type (lit "__proto__") then acc else mapSet type next acc.

Definition stats (originalNodes : list Node.t) : Map StatValue :=
  fold_left
    (fun acc node =>
       countType acc
         (getNodeType (Node.id node) (NodeData.nodeType (Node.data node))))
    originalNodes [].

End Panels.

(** The nodes of a category, and what a button counts. *)
Definition ofCategory (key : jsstring) (node : Node.t) : bool :=
  streq (getNodeType (Node.id node) (NodeData.nodeType (Node.data node))) key.

Definition shownCount (b : FilterButton.t) : nat :=
  match FilterButton.count b with
  | StatCount n => n
  | StatText _ => 0
  end.

(** The node was synthesized for a Docker capability. *)
Definition isSynthesized (node : Node.t) : bool :=
  match NodeData.dockerInfo (Node.data node) with
  | Some _ => true
  | None => false
  end.

(** ** The API configuration *)

Module API_CONFIG.

(** [getApiBaseUrl]: [envUrl] is [process.env.NEXT_PUBLIC_API_URL];
    [location] is the protocol and the host of [window.location], absent
    while rendering on the server. *)
Definition getApiBaseUrl (envUrl : option jsstring)
    (location : option (jsstring * jsstring)) : jsstring :=
  if truthyOpt envUrl then orElse envUrl []
  else
    match location with
    | Some (protocol, host) => protocol ++ lit "//" ++ host
    | None => lit "http://localhost:3000"
    end.

Definition getApiUrl (envUrl : option jsstring)
    (location : option (jsstring * jsstring)) (endpoint : jsstring) : jsstring :=
  getApiBaseUrl envUrl location
  ++ (if startsWith (lit "/") endpoint then endpoint else lit "/" ++ endpoint).

End API_CONFIG.

Definition API_ENDPOINTS : list jsstring :=
  [ lit "/api/summaries"; lit "/api/docker-analysis"; lit "/api/analysis-stats" ].

(** ** The summary server *)

(** The key of both caches:
    [source === "github" ? `github:${file}` : file]. *)
Definition cacheKey (source file : jsstring) : jsstring :=
  if streq source (lit "github") then lit "github:" ++ file else file.

Module AnalysisStats.

Record IntegrationFile := mkFile {
  file : jsstring;
  dockerTools : option (list jsstring);
  apiCount : nat }.

Record t := mk {
  totalSummaries : nat;
  totalDockerAnalysis : nat;
  dockerIntegrationCount : nat;
  dockerIntegrationFiles : list IntegrationFile }.

End AnalysisStats.

(** [arr.map(f)] for an [f] that can throw: the first exception ends the
    whole call. *)
Fixpoint mapThrowing {A B} (f : A -> option B) (l : list A) : option (list B) :=
  match l with
  | [] => Some []
  | x :: l' =>
      match f x with
      | Some y =>
          match mapThrowing f l' with
          | Some ys => Some (y :: ys)
          | None => None
          end
      | None => None
      end
  end.

(** One entry of [dockerIntegrationFiles]; [analysis.dockerApis.length]
    throws when the entry has no [dockerApis]. *)
Definition integrationFile (entry : jsstring * DockerAnalysisResult.t)
    : option AnalysisStats.IntegrationFile :=
  match DockerAnalysisResult.dockerApis (snd entry) with
  | Some apis =>
      Some (AnalysisStats.mkFile (fst entry)
              (DockerAnalysisResult.dockerTools (snd entry)) (List.length apis))
  | None => None
  end.

(** The body [GET /api/analysis-stats] answers with; [None] when the
    handler throws. *)
Definition analysisStats (summaries : Map jsstring)
    (dockerAnalysis : DockerData) : option AnalysisStats.t :=
  let summaryCount := List.length (mapKeys summaries) in
  let dockerCount := List.length (mapKeys dockerAnalysis) in
  let dockerWithIntegration :=
    List.length
      (filter DockerAnalysisResult.hasDockerIntegration
         (mapValues dockerAnalysis)) in
  match
    mapThrowing integrationFile
      (filter
         (fun entry => DockerAnalysisResult.hasDockerIntegration (snd entry))
         dockerAnalysis)
  with
  | Some files =>
      Some (AnalysisStats.mk summaryCount dockerCount dockerWithIntegration
              files)
  | None => None
  end.

(** ** The generator of the raw elements

    The command-line tool that writes [public/cytoscape-elements.json] from
    the modules dependency-cruiser reports. *)

Module Cruise.

Record Dependency := mkDependency {
  resolved : jsstring;
  dependencyTypes : list jsstring }.

Record Module_ := mkModule {
  source : jsstring;
  dependencies : list Dependency }.

(** The [data] of a generated element. *)
Inductive Element :=
| ElNode (id label type : jsstring)
| ElEdge (id source target type : jsstring).

Definition getFileType (filePath : jsstring) : jsstring :=
  if includes (lit "/pages/") filePath || includes (lit "/app/") filePath
  then lit "pages"
  else if includes (lit "/components/") filePath then lit "components"
  else if includes (lit "/utils/") filePath then lit "utils"
  else if includes (lit "/lib/") filePath then lit "lib"
  else if includes (lit "/hooks/") filePath || includes (lit "use") filePath
       then lit "hooks"
  else if includes (lit "/types/") filePath || includes (lit ".d.ts") filePath
       then lit "types"
  else if includes (lit "/api/") filePath then lit "api"
  else lit "default".

Definition getDependencyType (dependencyTypes : list jsstring) : jsstring :=
  if existsb (streq (lit "dynamic")) dependencyTypes then lit "dynamic"
  else if existsb (streq (lit "import")) dependencyTypes then lit "import"
  else if existsb (streq (lit "require")) dependencyTypes then lit "require"
  else lit "unknown".

(** [s.replace(/[^a-zA-Z0-9]/g, "_")] of [generateDotFile] *)
Definition isAlphanumeric (c : N) : bool :=
  (N.leb 97 c && N.leb c 122) || (N.leb 65 c && N.leb c 90)
  || (N.leb 48 c && N.leb c 57).

Definition safeName (s : jsstring) : jsstring :=
  map (fun c => if isAlphanumeric c then c else 95%N) s.

Section Convert.

(** [path.basename] and [path.dirname] of Node.js. *)
Variable basename : jsstring -> jsstring.
Variable dirname : jsstring -> jsstring.

Definition getFileDisplayName (filePath : jsstring) : jsstring :=
  let fileName := basename filePath in
  if startsWith (lit "index.") fileName
  then basename (dirname filePath) ++ lit "/" ++ fileName
  else fileName.

(** The element list and the [processedNodes] set. *)
Definition ConvertState : Type := list Element * JSSet.

(** The guarded push of a node element. *)
Definition addNode (id : jsstring) (st : ConvertState) : ConvertState :=
  if setHas id (snd st) then st
  else (fst st ++ [ElNode id (getFileDisplayName id) (getFileType id)],
        setAdd id (snd st)).

(** One step of [module.dependencies.forEach]. *)
Definition addDependency (moduleId : jsstring) (st : ConvertState)
    (dep : Dependency) : ConvertState :=
  let targetId := resolved dep in
  let st1 := addNode targetId st in
  (fst st1
   ++ [ElEdge (moduleId ++ lit "->" ++ targetId) moduleId targetId
         (getDependencyType (dependencyTypes dep))],
   snd st1).

(** One step of [depCruiserData.modules.forEach]. *)
Definition addModule (st : ConvertState) (module : Module_) : ConvertState :=
  fold_left (addDependency (source module)) (dependencies module)
    (addNode (source module) st).

Definition convertToCytoscapeFormat (modules : list Module_) : list Element :=
  fst (fold_left addModule modules ([], [])).

End Convert.

(** [stats.totalDependencies] of [run] *)
Definition totalDependencies (modules : list Module_) : nat :=
  fold_left (fun sum mod_ => sum + List.length (dependencies mod_)) modules 0.

(** The two counts [run] prints for the generated elements: the elements
    whose [data.source] is falsy, and those whose [data.source] is truthy. *)
Definition hasSource (el : Element) : bool :=
  match el with
  | ElNode _ _ _ => false
  | ElEdge _ source _ _ => truthy source
  end.

Definition printedCounts (elements : list Element) : nat * nat :=
  (List.length (filter (fun el => negb (hasSource el)) elements),
   List.length (filter hasSource elements)).

(** The identifiers of the node elements, and the edge elements. *)
Definition nodeElementIds (elements : list Element) : list jsstring :=
  flat_map
    (fun el => match el with ElNode id _ _ => [id] | ElEdge _ _ _ _ => [] end)
    elements.

Definition isEdgeElement (el : Element) : bool :=
  match el with
  | ElNode _ _ _ => false
  | ElEdge _ _ _ _ => true
  end.

End Cruise.

(** What [loadData] of the page reads in a generated element once it has
    gone through the JSON file: both kinds carry an [id]. *)
Definition asRawElement (el : Cruise.Element) : CytoscapeElement :=
  match el with
  | Cruise.ElNode id label type => NodeElement id (Some type) (Some label) None
  | Cruise.ElEdge id _ _ type => NodeElement id (Some type) None None
  end.

(** Every edge element of a generated list has the identifier
    [source->target] and comes after the node elements of its two
    endpoints. *)
Definition edgesFollowNodes (elements : list Cruise.Element) : Prop :=
  forall before id source target type after,
    elements = before ++ Cruise.ElEdge id source target type :: after ->
    id = source ++ lit "->" ++ target
    /\ In source (Cruise.nodeElementIds before)
    /\ In target (Cruise.nodeElementIds before).

(** The invariant of the conversion loops: [processedNodes] lists the
    identifiers of the node elements pushed so far, once each. *)
Definition convertInvariant (st : Cruise.ConvertState) : Prop :=
  snd st = Cruise.nodeElementIds (fst st)
  /\ NoDup (snd st)
  /\ edgesFollowNodes (fst st).

(** Modules as dependency-cruiser reports them for two files, one importing
    the other. *)
Definition twoModules : list Cruise.Module_ :=
  [ Cruise.mkModule (lit "src/a.ts")
      [Cruise.mkDependency (lit "src/b.ts") [lit "import"]];
    Cruise.mkModule (lit "src/b.ts") [] ].

(** Splits the conjunctions of the goal, without unfolding. *)
Ltac conjs := repeat match goal with |- _ /\ _ => split end.

(** What [stats] holds for a category that [c] nodes fall into: no entry
    when there is none. *)
Definition tally (c : nat) : option StatValue :=
  match c with
  | 0 => None
  | S _ => Some (StatCount c)
  end.

(** The category [stats] counts a node under. *)
Definition categoryOf (node : Node.t) : jsstring :=
  getNodeType (Node.id node) (NodeData.nodeType (Node.data node)).

(** *** The summary and the Docker analysis of the selected node *)

(** A truthy [obj[key]] of a table of texts: a text of the table, or the
    member of [Object.prototype] that an inherited name finds. *)
Inductive Looked :=
| OwnText (s : jsstring)
| ProtoMember (key : jsstring).

(** [summaries[key]] when it is truthy *)
Definition lookupSummary (summaries : Map jsstring) (key : jsstring)
    : option Looked :=
  match mapGet key summaries with
  | Some s => if truthy s then Some (OwnText s) else None
  | None => if inherited key then Some (ProtoMember key) else None
  end.

(** [[id, `github:${id}`, fullPath, sourceFile].filter(Boolean)] *)
Definition possibleKeys (selectedNode : Node.t) : list jsstring :=
  filter truthy
    ([ Node.id selectedNode;
       lit "github:" ++ Node.id selectedNode;
       NodeData.fullPath (Node.data selectedNode) ]
     ++ match NodeData.sourceFile (Node.data selectedNode) with
        | Some sourceFile => [sourceFile]
        | None => []
        end).

(** The loop over [possibleKeys]: the first truthy summary. *)
Fixpoint firstSummary (summaries : Map jsstring) (keys : list jsstring)
    : option Looked :=
  match keys with
  | [] => None
  | key :: rest =>
      match lookupSummary summaries key with
      | Some summary => Some summary
      | None => firstSummary summaries rest
      end
  end.

Module SummaryPanel.
Record t := mk {
  summary : Looked;
  isDockerSummary : bool }.
End SummaryPanel.

(** What a component renders: nothing, an exception, or its content. *)
Inductive Rendered (A : Type) :=
| RenderNull
| RenderThrows
| RenderShown (content : A).

Arguments RenderNull {A}.
Arguments RenderThrows {A}.
Arguments RenderShown {A} content.

(** The content of [NodeDockerAnalysis]: the badge, and for an analysis with
    Docker integration the tools, the API entries and the summary (a list is
    shown when it is not empty). *)
Module DockerPanel.
Inductive t :=
| NoIntegration
| Integration (tools : list jsstring) (apis : list DockerAPI.t)
    (summary : jsstring).
End DockerPanel.

Definition NodeDockerAnalysis (selectedId : jsstring)
    (dockerAnalysis : DockerData) : Rendered DockerPanel.t :=
  match mapGet (lit "github:" ++ selectedId) dockerAnalysis with
  | None => RenderNull
  | Some analysis =>
      if DockerAnalysisResult.hasDockerIntegration analysis then
        match DockerAnalysisResult.dockerTools analysis,
              DockerAnalysisResult.dockerApis analysis with
        | Some tools, Some apis =>
            RenderShown
              (DockerPanel.Integration tools apis
                 (DockerAnalysisResult.summary analysis))
        | _, _ => RenderThrows
        end
      else RenderShown DockerPanel.NoIntegration
  end.

Section Summary.

Variable protoText : jsstring -> jsstring.

(** The two texts of [NodeSummary] for a Docker node. *)
Definition toolSummary (info : DockerInfo.t) : jsstring :=
  [36889; 26159; 19968; 20491]%N ++ lit " Docker "
  ++ [24037; 20855; 31680; 40670; 65292; 20195; 34920]%N ++ lit " " ++ [34]%N
  ++ friendlyText protoText (DockerInfo.friendlyName info)
  ++ [34]%N ++ lit " "
  ++ [24037; 20855; 12290; 27492; 24037; 20855; 29992; 26044; 23481; 22120;
      21270; 38283; 30332; 29872; 22659; 30340; 31649; 29702; 21644; 25805;
      20316; 65292; 20358; 28304; 26044]%N
  ++ lit " " ++ DockerInfo.sourceFile info ++ lit " " ++ [27284; 26696; 12290]%N.

Definition apiSummary (info : DockerInfo.t) : jsstring :=
  [36889; 26159; 19968; 20491]%N ++ lit " Docker API "
  ++ [31680; 40670; 65292; 20195; 34920]%N ++ lit " " ++ [34]%N
  ++ friendlyText protoText (DockerInfo.friendlyName info)
  ++ [34]%N ++ lit " " ++ [21151; 33021; 12290]%N
  ++ orElse (DockerInfo.description info)
       ([27492]%N ++ lit " API " ++ [29992; 26044; 33287]%N ++ lit " Docker "
        ++ [23481; 22120; 36914; 34892; 20114; 21205]%N)
  ++ [12290; 20358; 28304; 26044]%N ++ lit " " ++ DockerInfo.sourceFile info
  ++ lit " " ++ [27284; 26696; 12290]%N.

(** [NodeSummary]: [None] when it renders nothing. *)
Definition NodeSummary (selectedNode : Node.t) (summaries : Map jsstring)
    (dockerAnalysis : DockerData) : option SummaryPanel.t :=
  if DockerView.isDockerNode selectedNode then
    let summary :=
      match NodeData.dockerInfo (Node.data selectedNode) with
      | Some info =>
          if truthyOpt (DockerInfo.tool info) then toolSummary info
          else if truthyOpt (DockerInfo.apiName info) then apiSummary info
          else []
      | None => []
      end in
    if truthy summary then Some (SummaryPanel.mk (OwnText summary) true)
    else None
  else
    let dockerKey := lit "github:" ++ Node.id selectedNode in
    if match mapGet dockerKey dockerAnalysis with
       | Some analysis => DockerAnalysisResult.hasDockerIntegration analysis
       | None => false
       end
    then
      match mapGet dockerKey dockerAnalysis with
      | Some analysis =>
          if truthy (DockerAnalysisResult.summary analysis)
          then Some (SummaryPanel.mk
                       (OwnText (DockerAnalysisResult.summary analysis)) true)
          else None
      | None => None
      end
    else
      match firstSummary summaries (possibleKeys selectedNode) with
      | Some summary => Some (SummaryPanel.mk summary false)
      | None => None
      end.

End Summary.

(** *** The search of the second component and the rows of the results
    panel *)

Module Second.

(** [handleSearch] of the second component, which keeps no result list: a
    hit is selected at once. *)
Definition handleSearch (fuseSearch : list Node.t -> jsstring -> list Node.t)
    (hasInstance : bool) (term : jsstring) (st : App.t)
    : App.t * option Camera.t :=
  match trim term, App.fuse st with
  | _ :: _, Some index =>
      let searched :=
        App.mk (App.nodes st) (App.edges st) (App.originalNodes st)
          (App.selectedNode st) term (App.highlightedNode st)
          (App.activeFilters st) (App.fuse st) (App.dockerAnalysis st)
          (App.searchResults st) (App.showSearchResults st) in
      match fuseSearch index term with
      | foundNode :: _ => selectNodeAndMove hasInstance foundNode searched
      | [] => (searched, None)
      end
  | _, _ =>
      (App.mk (App.nodes st) (App.edges st) (App.originalNodes st)
         (App.selectedNode st) term None (App.activeFilters st) (App.fuse st)
         (App.dockerAnalysis st) (App.searchResults st)
         (App.showSearchResults st),
       None)
  end.

End Second.

(** The keys of the rows of [SearchResultsPanel]: [`${node.id}-${index}`]. *)
Definition searchResultKeys (searchResults : list Node.t) : list jsstring :=
  mapiFrom (fun index node => Node.id node ++ lit "-" ++ ofNat index) 0
    searchResults.

(** An analysis map with a flagged and an unflagged analysis, and original
    nodes of two categories. *)
Definition mixedAnalyses : DockerData :=
  [ (lit "github:a.ts", scenarioB_analysis); unflaggedEntry ].

Definition categorizedNodes : list Node.t :=
  [ fileNode (lit "src/app/page.tsx") None None None;
    fileNode (lit "src/lib/db.ts") None None None;
    fileNode (lit "src/app/layout.tsx") None None None ].

(** A stand-in for the examples: the layout throws on a graph that has a
    node named by the empty string. *)
Definition emptyNameThrows (g : Dagre.Graph) : bool :=
  existsb (fun entry => negb (truthy (fst entry))) (Dagre.nodes g).

(** Raw elements with a node named by the empty string. *)
Definition emptyNameData : list CytoscapeElement :=
  [ NodeElement [] None None None;
    NodeElement (lit "src/app/page.tsx") None None None ].

(** ** The Docker pass on the parsed response

    [dockerData] is the body of [/api/docker-analysis] as [res.json()] hands
    it over: it is cast to [Record<string, DockerAnalysisResult>] and not
    checked. Where the declared type has an analysis or an API entry the
    body may hold [null], and reading a property of [null] throws. Where it
    has a list there may be nothing (or another falsy value), an array, or a
    truthy value that has no [forEach], and calling that throws. A record
    may lack any of its fields: reading a missing field gives [undefined]
    and throws nothing. [None] is the exception; it ends the build, and the
    [catch] of [loadData] empties the graph. *)
Module Raw.

Inductive ApiEntry :=
| NullEntry
| Entry (api : DockerAPI.t).

Inductive JsonList (A : Type) :=
| Absent
| Array (items : list A)
| NotArray.

Arguments Absent {A}.
Arguments Array {A} items.
Arguments NotArray {A}.

Record Analysis := mkAnalysis {
  hasDockerIntegration : bool;
  dockerTools : JsonList jsstring;
  dockerApis : JsonList ApiEntry;
  summary : jsstring }.

Inductive AnalysisValue :=
| NullAnalysis
| AnalysisRecord (analysis : Analysis).

Definition Data := list (jsstring * AnalysisValue).

(** The items [(list || []).forEach] visits. *)
Definition itemsOf {A} (l : JsonList A) : option (list A) :=
  match l with
  | Absent => Some []
  | Array items => Some items
  | NotArray => None
  end.

(** [arr.forEach((x, index) => ...)] for a body that can throw. *)
Fixpoint forEachThrowing {A St} (f : St -> A -> nat -> option St) (i : nat)
    (l : list A) (st : St) : option St :=
  match l with
  | [] => Some st
  | x :: l' =>
      match f st x i with
      | Some st' => forEachThrowing f (S i) l' st'
      | None => None
      end
  end.

Fixpoint foldThrowing {A St} (f : St -> A -> option St) (l : list A) (st : St)
    : option St :=
  match l with
  | [] => Some st
  | x :: l' =>
      match f st x with
      | Some st' => foldThrowing f l' st'
      | None => None
      end
  end.

Section Build.

Variable protoText : jsstring -> jsstring.

(** One step of [(analysis.dockerApis || []).forEach]: [api.name] throws on
    [null]. *)
Definition addApiEntry (fileName : jsstring) (st : BuildState)
    (entry : ApiEntry) (index : nat) : option BuildState :=
  match entry with
  | NullEntry => None
  | Entry api => Some (addDockerApi protoText fileName st api index)
  end.

(** One step of [Object.entries(dockerData || {}).forEach]:
    [analysis.hasDockerIntegration] throws on [null]. *)
Definition addAnalysis (st : BuildState) (entry : jsstring * AnalysisValue)
    : option BuildState :=
  match snd entry with
  | NullAnalysis => None
  | AnalysisRecord analysis =>
      if hasDockerIntegration analysis then
        let fileName := fileNameOf (fst entry) in
        match itemsOf (dockerApis analysis) with
        | Some apis =>
            match forEachThrowing (addApiEntry fileName) 0 apis st with
            | Some st1 =>
                match itemsOf (dockerTools analysis) with
                | Some tools =>
                    Some (forEachIndexed (addDockerTool protoText fileName)
                            tools st1)
                | None => None
                end
            | None => None
            end
        | None => None
        end
      else Some st
  end.

Definition buildGraph (data : list CytoscapeElement) (dockerData : Data)
    : option BuildState :=
  foldThrowing addAnalysis dockerData (fold_left addElement data ([], [])).

End Build.

(** The values of the body on which the pass throws. *)
Definition isNull (entry : ApiEntry) : bool :=
  match entry with
  | NullEntry => true
  | Entry _ => false
  end.

Definition listThrows {A} (isBad : A -> bool) (l : JsonList A) : bool :=
  match l with
  | Absent => false
  | Array items => existsb isBad items
  | NotArray => true
  end.

Definition throwsOn (value : AnalysisValue) : bool :=
  match value with
  | NullAnalysis => true
  | AnalysisRecord analysis =>
      hasDockerIntegration analysis
      && (listThrows isNull (dockerApis analysis)
          || listThrows (fun _ => false) (dockerTools analysis))
  end.

(** A body of the declared type, as the parsed value it is. *)
Definition ofList {A B} (f : A -> B) (o : option (list A)) : JsonList B :=
  match o with
  | Some l => Array (map f l)
  | None => Absent
  end.

Definition ofAnalysis (analysis : DockerAnalysisResult.t) : Analysis :=
  mkAnalysis (DockerAnalysisResult.hasDockerIntegration analysis)
    (ofList (fun tool => tool) (DockerAnalysisResult.dockerTools analysis))
    (ofList Entry (DockerAnalysisResult.dockerApis analysis))
    (DockerAnalysisResult.summary analysis).

Definition ofData (dockerData : DockerData) : Data :=
  map (fun entry => (fst entry, AnalysisRecord (ofAnalysis (snd entry))))
    dockerData.

End Raw.

(** The API entry with its [name] written out, and the analysis with another
    list of API entries. *)
Definition withName (name : jsstring) (api : DockerAPI.t) : DockerAPI.t :=
  DockerAPI.mk (Some name) (DockerAPI.apiType api) (DockerAPI.description api)
    (DockerAPI.line api) (DockerAPI.codeSnippet api).

Definition withApis (apis : list DockerAPI.t)
    (analysis : DockerAnalysisResult.t) : DockerAnalysisResult.t :=
  DockerAnalysisResult.mk (DockerAnalysisResult.hasDockerIntegration analysis)
    (DockerAnalysisResult.dockerTools analysis) (Some apis)
    (DockerAnalysisResult.summary analysis).

(** A node without the [originalApi] of its [dockerInfo], the copy of the API
    entry that nothing in the page reads. *)
Definition withoutOriginalApi (node : Node.t) : Node.t :=
  Node.mk (Node.id node)
    (NodeData.mk (NodeData.label (Node.data node))
       (NodeData.fullPath (Node.data node))
       (NodeData.fileType (Node.data node))
       (NodeData.nodeType (Node.data node))
       (NodeData.sourceFile (Node.data node))
       (option_map
          (fun info =>
             DockerInfo.mk (DockerInfo.apiName info) (DockerInfo.tool info)
               (DockerInfo.friendlyName info) (DockerInfo.description info)
               (DockerInfo.sourceFile info) None)
          (NodeData.dockerInfo (Node.data node))))
    (Node.position node) (Node.sourcePosition node) (Node.targetPosition node)
    (Node.style node).

Definition forgetState (st : BuildState) : BuildState :=
  (map (fun entry => (fst entry, withoutOriginalApi (snd entry))) (fst st),
   snd st).

(** The node [loadData] stores for an API entry at [index] that has neither
    [name] nor [apiType]. *)
Definition fallbackNode (fileName : jsstring) (api : DockerAPI.t) (index : nat)
    : Node.t :=
  let apiName := lit "api_" ++ ofNat index in
  let id :=
    lit "docker_api_" ++ fileName ++ lit "_" ++ apiName ++ lit "_"
    ++ ofNat index in
  Node.mk id
    (NodeData.mk (utf16 0x1f50c ++ lit " " ++ apiName) id (lit "docker_api")
       (Some (lit "docker_api")) (Some fileName)
       (Some (DockerInfo.mk (Some apiName) None (FriendlyText apiName)
                (Some (DockerAPI.description api)) fileName (Some api))))
    (0, 0)%Q Right Left (getNodeStyle id (Some (lit "docker_api")) false false).

(** A body whose only API entry is [null] in place of a record. *)
Definition nullEntryBody : Raw.Data :=
  [ (lit "github:a.ts",
     Raw.AnalysisRecord
       (Raw.mkAnalysis true (Raw.Array [lit "compose"])
          (Raw.Array [Raw.NullEntry]) (lit "s"))) ].

(** An analysis with a named entry before and after a nameless one, and the
    analysis map that holds it between two others. *)
Definition threeApis : DockerAnalysisResult.t :=
  exampleAnalysis true
    [namedApi (lit "dockerReadFile"); namelessApi; namedApi (lit "dockerWriteFile")]
    [lit "compose"].

Definition threeEntries : DockerData :=
  [ (lit "b.ts", exampleAnalysis true [namedApi (lit "dockerFindFiles")] []);
    (lit "github:a.ts", threeApis);
    unflaggedEntry ].

(** ** Strings, maps and loops: basic facts *)

Lemma streq_refl (a : jsstring) : streq a a = true.
Proof.
  induction a as [|x a IH]; simpl; [reflexivity|].
  now rewrite N.eqb_refl, IH.
Qed.

Lemma streq_eq (a b : jsstring) : streq a b = true <-> a = b.
Proof.
  split.
  - revert b; induction a as [|x a IH]; intros [|y b]; simpl; try discriminate.
    + reflexivity.
    + intros H. apply andb_true_iff in H as [Hx Hab].
      apply N.eqb_eq in Hx. now rewrite Hx, (IH b Hab).
  - intros ->. apply streq_refl.
Qed.

Lemma streq_neq (a b : jsstring) : streq a b = false <-> a <> b.
Proof.
  rewrite <- streq_eq. destruct (streq a b); split; congruence.
Qed.

Lemma streq_sym (a b : jsstring) : streq a b = streq b a.
Proof.
  destruct (streq a b) eqn:E.
  - apply streq_eq in E. subst. now rewrite streq_refl.
  - symmetry. apply streq_neq. apply streq_neq in E. congruence.
Qed.

Lemma existsb_streq_In (x : jsstring) (l : list jsstring) :
  existsb (streq x) l = true <-> In x l.
Proof.
  rewrite existsb_exists. split.
  - intros [y [Hy E]]. apply streq_eq in E. now subst.
  - intros H. exists x. split; [assumption | apply streq_refl].
Qed.

Lemma findEdge_true (edgeId : jsstring) (l : list Edge.t) :
  findEdge edgeId l = true <-> In edgeId (map Edge.id l).
Proof.
  unfold findEdge. rewrite existsb_exists, in_map_iff. split.
  - intros [e [He E]]. apply streq_eq in E. now exists e.
  - intros [e [E He]]. exists e. split; [assumption|].
    rewrite E. apply streq_refl.
Qed.

Lemma findEdge_false (edgeId : jsstring) (l : list Edge.t) :
  findEdge edgeId l = false <-> ~ In edgeId (map Edge.id l).
Proof.
  rewrite <- findEdge_true. destruct (findEdge edgeId l); split; congruence.
Qed.

Section MapFacts.

Context {V : Type}.
Implicit Types (m : Map V) (k : jsstring) (v : V).

Lemma mapKeys_mapSet_In k v m :
  In k (mapKeys m) -> mapKeys (mapSet k v m) = mapKeys m.
Proof.
  induction m as [|[k' v'] m IH]; simpl; [tauto|].
  intros H. destruct (streq k' k) eqn:E.
  - apply streq_eq in E. now subst.
  - simpl. f_equal. apply IH. destruct H as [H|H]; [|assumption].
    subst. now rewrite streq_refl in E.
Qed.

Lemma mapKeys_mapSet_fresh k v m :
  ~ In k (mapKeys m) -> mapKeys (mapSet k v m) = mapKeys m ++ [k].
Proof.
  induction m as [|[k' v'] m IH]; simpl; [reflexivity|].
  intros H. destruct (streq k' k) eqn:E.
  - apply streq_eq in E. subst. tauto.
  - simpl. f_equal. apply IH. tauto.
Qed.

Lemma in_mapKeys_mapSet k k' v m :
  In k' (mapKeys (mapSet k v m)) <-> k' = k \/ In k' (mapKeys m).
Proof.
  destruct (in_dec (list_eq_dec N.eq_dec) k (mapKeys m)) as [H|H].
  - rewrite mapKeys_mapSet_In by assumption. split; [tauto|].
    intros [->|]; assumption.
  - rewrite mapKeys_mapSet_fresh by assumption. rewrite in_app_iff. simpl.
    split; intros [?|?]; try tauto.
    + destruct H0; [left; congruence | tauto].
    + right. left. congruence.
Qed.

Lemma NoDup_mapKeys_mapSet k v m :
  NoDup (mapKeys m) -> NoDup (mapKeys (mapSet k v m)).
Proof.
  intros Hm.
  destruct (in_dec (list_eq_dec N.eq_dec) k (mapKeys m)) as [H|H].
  - now rewrite mapKeys_mapSet_In.
  - rewrite mapKeys_mapSet_fresh by assumption.
    apply NoDup_app; [assumption | repeat constructor; simpl; tauto |].
    intros x Hx [<-|[]]. tauto.
Qed.

Lemma mapGet_mapSet_same k v m : mapGet k (mapSet k v m) = Some v.
Proof.
  induction m as [|[k' v'] m IH]; simpl.
  - now rewrite streq_refl.
  - destruct (streq k' k) eqn:E; simpl.
    + now rewrite streq_refl.
    + now rewrite E.
Qed.

Lemma mapGet_mapSet_other k k' v m :
  k' <> k -> mapGet k' (mapSet k v m) = mapGet k' m.
Proof.
  intros Hne. induction m as [|[k0 v0] m IH]; simpl.
  - assert (E : streq k k' = false) by (apply streq_neq; congruence).
    now rewrite E.
  - destruct (streq k0 k) eqn:E; simpl.
    + apply streq_eq in E. subst k0.
      assert (E : streq k k' = false) by (apply streq_neq; congruence).
      now rewrite E.
    + now rewrite IH.
Qed.

Lemma mapGet_Some_In k v m : mapGet k m = Some v -> In v (mapValues m).
Proof.
  induction m as [|[k' v'] m IH]; simpl; [discriminate|].
  destruct (streq k' k); [intros [= ->]; tauto | auto].
Qed.

Lemma mapGet_Some_pair k v m : mapGet k m = Some v -> In (k, v) m.
Proof.
  induction m as [|[k' v'] m IH]; simpl; [discriminate|].
  destruct (streq k' k) eqn:E; [|auto].
  apply streq_eq in E. intros [= ->]. subst. now left.
Qed.

Lemma mapGet_Some_key k v m : mapGet k m = Some v -> In k (mapKeys m).
Proof.
  induction m as [|[k' v'] m IH]; simpl; [discriminate|].
  destruct (streq k' k) eqn:E; [|auto].
  apply streq_eq in E. tauto.
Qed.


Lemma in_mapValues_mapSet k v v0 m :
  In v0 (mapValues (mapSet k v m)) -> v0 = v \/ In v0 (mapValues m).
Proof.
  induction m as [|[k' v'] m IH]; simpl.
  - intros [<-|[]]. now left.
  - destruct (streq k' k); simpl.
    + intros [<-|H]; tauto.
    + intros [<-|H]; [tauto|]. destruct (IH H); tauto.
Qed.


End MapFacts.

Section LoopFacts.

Context {A St : Type}.

(** An invariant of a [forEach]. *)
Lemma fold_left_invariant (P : St -> Prop) (f : St -> A -> St) (l : list A)
    (st : St) :
  P st -> (forall s x, In x l -> P s -> P (f s x)) -> P (fold_left f l st).
Proof.
  revert st. induction l as [|x l IH]; simpl; intros st H0 Hstep; [assumption|].
  apply IH; [apply Hstep; auto | intros; apply Hstep; auto].
Qed.

Lemma forEachFrom_invariant (P : St -> Prop) (f : St -> A -> nat -> St)
    (l : list A) (i : nat) (st : St) :
  P st ->
  (forall s x j, nth_error l j = Some x -> P s -> P (f s x (i + j))) ->
  P (forEachFrom f i l st).
Proof.
  revert i st. induction l as [|x l IH]; simpl; intros i st H0 Hstep.
  - assumption.
  - apply IH.
    + specialize (Hstep st x 0 eq_refl H0). now rewrite Nat.add_0_r in Hstep.
    + intros s y j Hj Hs. specialize (Hstep s y (S j) Hj Hs).
      now rewrite Nat.add_succ_r in Hstep.
Qed.

Lemma forEachIndexed_invariant (P : St -> Prop) (f : St -> A -> nat -> St)
    (l : list A) (st : St) :
  P st ->
  (forall s x j, nth_error l j = Some x -> P s -> P (f s x j)) ->
  P (forEachIndexed f l st).
Proof.
  intros H0 Hstep. unfold forEachIndexed.
  apply forEachFrom_invariant; [assumption|]. intros. now apply Hstep.
Qed.

End LoopFacts.

(** ** Category filters *)

Lemma setHas_app (x : jsstring) (s1 s2 : JSSet) :
  setHas x (s1 ++ s2) = setHas x s1 || setHas x s2.
Proof. unfold setHas. apply existsb_app. Qed.

Lemma setHas_setDelete (x t : jsstring) (s : JSSet) :
  setHas x (setDelete t s) = setHas x s && negb (streq x t).
Proof.
  unfold setHas, setDelete. induction s as [|y s IH]; simpl; [reflexivity|].
  destruct (streq y t) eqn:Eyt; simpl.
  - rewrite IH. apply streq_eq in Eyt. subst y.
    destruct (streq x t); simpl; [now rewrite andb_false_r | reflexivity].
  - rewrite IH. destruct (streq x y) eqn:Exy; simpl; [|reflexivity].
    apply streq_eq in Exy. subst y. now rewrite Eyt.
Qed.

Lemma setDelete_absent (t : jsstring) (s : JSSet) :
  setHas t s = false -> setDelete t s = s.
Proof.
  unfold setHas, setDelete. induction s as [|y s IH]; simpl; [reflexivity|].
  intros H. apply orb_false_iff in H as [Hty Hs].
  rewrite streq_sym, Hty. simpl. now rewrite IH.
Qed.

Lemma setDelete_app (t : jsstring) (s1 s2 : JSSet) :
  setDelete t (s1 ++ s2) = setDelete t s1 ++ setDelete t s2.
Proof. apply filter_app. Qed.

Lemma toggleFilter_twice_has (t x : jsstring) (s : JSSet) :
  setHas x (toggleFilter t (toggleFilter t s)) = setHas x s.
Proof.
  unfold toggleFilter at 2. destruct (setHas t s) eqn:Ht.
  - unfold toggleFilter. rewrite setHas_setDelete, Ht, streq_refl. simpl.
    unfold setAdd. rewrite setHas_setDelete, Ht, streq_refl. simpl.
    rewrite setHas_app, setHas_setDelete. simpl. rewrite orb_false_r.
    destruct (streq x t) eqn:E; simpl.
    + apply streq_eq in E. subst x. now rewrite Ht.
    + now rewrite andb_true_r, orb_false_r.
  - unfold setAdd. rewrite Ht. unfold toggleFilter.
    rewrite setHas_app. simpl. rewrite streq_refl, orb_true_r.
    rewrite setDelete_app, setDelete_absent by assumption. simpl.
    rewrite streq_refl. simpl. now rewrite app_nil_r.
Qed.

Lemma toggleFilter_twice_nonempty (t : jsstring) (s : JSSet) :
  Nat.ltb 0 (setSize (toggleFilter t (toggleFilter t s)))
  = Nat.ltb 0 (setSize s).
Proof.
  unfold toggleFilter at 2. destruct (setHas t s) eqn:Ht.
  - unfold toggleFilter. rewrite setHas_setDelete, Ht, streq_refl. simpl.
    unfold setAdd. rewrite setHas_setDelete, Ht, streq_refl. simpl.
    unfold setSize. rewrite length_app. simpl.
    destruct s as [|y s]; [discriminate|]. simpl.
    now rewrite Nat.add_1_r.
  - unfold setAdd. rewrite Ht. unfold toggleFilter.
    rewrite setHas_app. simpl. rewrite streq_refl, orb_true_r.
    rewrite setDelete_app, setDelete_absent by assumption. simpl.
    rewrite streq_refl. simpl. now rewrite app_nil_r.
Qed.

Lemma restyle_ext (h : option jsstring) (s1 s2 : JSSet) (n : Node.t) :
  (forall x, setHas x s1 = setHas x s2) ->
  Nat.ltb 0 (setSize s1) = Nat.ltb 0 (setSize s2) ->
  restyle h s1 n = restyle h s2 n.
Proof.
  intros Hhas Hsize. unfold restyle. now rewrite Hhas, Hsize.
Qed.

Lemma displayNodes_ext (nodes : list Node.t) (h : option jsstring)
    (s1 s2 : JSSet) :
  (forall x, setHas x s1 = setHas x s2) ->
  Nat.ltb 0 (setSize s1) = Nat.ltb 0 (setSize s2) ->
  displayNodes nodes h s1 = displayNodes nodes h s2.
Proof.
  intros Hhas Hsize. unfold displayNodes. apply map_ext. intros n.
  now apply restyle_ext.
Qed.

Lemma displayNodes_ids (nodes : list Node.t) (h : option jsstring)
    (s : JSSet) :
  map Node.id (displayNodes nodes h s) = map Node.id nodes.
Proof.
  unfold displayNodes. rewrite map_map. apply map_ext. reflexivity.
Qed.

(** C8. Toggling a category filter and toggling it again gives back the same
    displayed nodes, styles included, whatever the filter set was; a
    category filter never changes which nodes are displayed, and the base
    nodes are not touched. The same holds in the component with the Docker
    filters. *)
Theorem toggleFilter_twice_displayNodes (nodes : list Node.t)
    (highlightedNode : option jsstring) (activeFilters : JSSet)
    (fileType : jsstring) :
  displayNodes nodes highlightedNode
    (toggleFilter fileType (toggleFilter fileType activeFilters))
  = displayNodes nodes highlightedNode activeFilters
  /\ (forall x,
        setHas x (toggleFilter fileType (toggleFilter fileType activeFilters))
        = setHas x activeFilters)
  /\ map Node.id
       (displayNodes nodes highlightedNode (toggleFilter fileType activeFilters))
     = map Node.id nodes
  /\ (forall v,
        DockerView.displayNodes
          (DockerView.setActiveFilters
             (toggleFilter fileType
                (toggleFilter fileType (DockerView.activeFilters v))) v)
        = DockerView.displayNodes v).
Proof.
  split; [|split; [|split]].
  - apply displayNodes_ext.
    + intros x. apply toggleFilter_twice_has.
    + apply toggleFilter_twice_nonempty.
  - intros x. apply toggleFilter_twice_has.
  - apply displayNodes_ids.
  - intros v. unfold DockerView.displayNodes. cbn. apply map_ext. intros n.
    apply restyle_ext.
    + intros x. apply toggleFilter_twice_has.
    + apply toggleFilter_twice_nonempty.
Qed.

(** ** Search *)

Lemma dropWhile_all {A} (f : A -> bool) (l : list A) :
  forallb f l = true -> dropWhile f l = [].
Proof.
  induction l as [|x l IH]; simpl; [reflexivity|].
  intros H. apply andb_true_iff in H as [Hx Hl]. now rewrite Hx, IH.
Qed.

Lemma trim_whitespace (term : jsstring) :
  forallb isWhiteSpace term = true -> trim term = [].
Proof.
  intros H. unfold trim. now rewrite (dropWhile_all _ _ H).
Qed.

(** C9. When the search term is empty or made of whitespace only, or when no
    search index has been built, [handleSearch] records the term, clears the
    highlighted node, empties the result list and hides the results panel;
    the nodes, the edges and the original nodes stay as they were. *)
Theorem handleSearch_blank
    (fuseSearch : list Node.t -> jsstring -> list Node.t)
    (term : jsstring) (st : App.t) :
  forallb isWhiteSpace term = true \/ App.fuse st = None ->
  let st' := handleSearch fuseSearch term st in
  App.highlightedNode st' = None
  /\ App.searchResults st' = []
  /\ App.showSearchResults st' = false
  /\ App.searchTerm st' = term
  /\ App.nodes st' = App.nodes st
  /\ App.edges st' = App.edges st
  /\ App.originalNodes st' = App.originalNodes st.
Proof.
  intros H. unfold handleSearch. destruct H as [H|H].
  - rewrite (trim_whitespace _ H). simpl. repeat split.
  - rewrite H. destruct (trim term); simpl; repeat split.
Qed.

Lemma handleSearch_blank_witness :
  (forallb isWhiteSpace (lit "  ") = true \/ App.fuse exampleApp = None)
  /\ App.highlightedNode (handleSearch (fun index _ => index) (lit "  ") exampleApp)
     = None
  /\ App.showSearchResults
       (handleSearch (fun index _ => index) (lit "  ") exampleApp) = false.
Proof.
  assert (H : forallb isWhiteSpace (lit "  ") = true \/ App.fuse exampleApp = None)
    by (left; reflexivity).
  split; [exact H|].
  destruct (handleSearch_blank (fun index _ => index) (lit "  ") exampleApp H)
    as (Hh & _ & Hs & _).
  split; [exact Hh | exact Hs].
Defined.

(** ** Docker filters of the second component *)

Lemma isDockerNode_restyle (h : option jsstring) (s : JSSet) (n : Node.t) :
  DockerView.isDockerNode (restyle h s n) = DockerView.isDockerNode n.
Proof. reflexivity. Qed.

Lemma in_displayNodes (v : DockerView.View) (n : Node.t) :
  In n (DockerView.displayNodes v) <->
  exists n0,
    In n0 (DockerView.nodes v)
    /\ DockerView.keepNode (DockerView.showDockerOnly v)
         (DockerView.showDockerNodes v) (DockerView.dockerAnalysis v) n0 = true
    /\ n = restyle (DockerView.highlightedNode v) (DockerView.activeFilters v) n0.
Proof.
  unfold DockerView.displayNodes. rewrite in_map_iff. split.
  - intros [n0 [E H]]. apply filter_In in H as [H1 H2]. exists n0. auto.
  - intros [n0 (H1 & H2 & E)]. exists n0. split; [auto|].
    apply filter_In. auto.
Qed.

(** C5 (amended). A displayed node is a base node that passed the filter:
    with the Docker-only filter on it is a Docker node or its identifier has
    a Docker-integration record; with Docker nodes hidden it is not a Docker
    node. The edges handed to the rendering surface are all the base edges:
    the derivation filters nodes only. *)
Theorem displayNodes_docker_filters (v : DockerView.View) (n : Node.t) :
  In n (DockerView.displayNodes v) ->
  (DockerView.showDockerOnly v = true ->
     DockerView.isDockerNode n = true
     \/ DockerView.hasDockerIntegration (DockerView.dockerAnalysis v) (Node.id n)
        = true)
  /\ (DockerView.showDockerNodes v = false -> DockerView.isDockerNode n = false)
  /\ In (Node.id n) (nodeIds (DockerView.nodes v))
  /\ snd (DockerView.displayed v) = DockerView.edges v.
Proof.
  intros Hin. apply in_displayNodes in Hin as [n0 (Hn0 & Hkeep & ->)].
  rewrite isDockerNode_restyle.
  change (Node.id (restyle (DockerView.highlightedNode v)
                     (DockerView.activeFilters v) n0)) with (Node.id n0).
  unfold DockerView.keepNode in Hkeep.
  repeat split.
  - intros Honly. rewrite Honly in Hkeep. simpl in Hkeep.
    destruct (DockerView.isDockerNode n0); [now left|]. simpl in Hkeep.
    destruct (DockerView.hasDockerIntegration _ _); [now right|].
    discriminate.
  - intros Hhide. rewrite Hhide in Hkeep.
    destruct (DockerView.isDockerNode n0); [|reflexivity].
    rewrite andb_false_r in Hkeep. simpl in Hkeep. discriminate.
  - apply in_map. assumption.
Qed.

Lemma displayNodes_docker_filters_witness :
  In (restyle None [] (fileNode (lit "a.ts") None None None))
    (DockerView.displayNodes (scenarioBView true false))
  /\ DockerView.hasDockerIntegration scenarioB_docker (lit "a.ts") = true
  /\ DockerView.isDockerNode
       (restyle None [] (fileNode (lit "a.ts") None None None)) = false.
Proof.
  assert (Hin : In (restyle None [] (fileNode (lit "a.ts") None None None))
                  (DockerView.displayNodes (scenarioBView true false)))
    by (vm_compute; left; reflexivity).
  split; [exact Hin|].
  destruct (displayNodes_docker_filters (scenarioBView true false) _ Hin)
    as (Honly & Hhide & _).
  split.
  - destruct (Honly eq_refl) as [H|H]; [discriminate H | exact H].
  - exact (Hhide eq_refl).
Defined.

(** With the Docker-only filter on and no Docker analysis, no node of
    Scenario A is displayed, yet its edge is still handed to the rendering
    surface: an edge whose endpoints are base nodes that the filter excludes
    is not excluded. *)
Lemma displayed_edges_counterexample :
  ~ (forall e,
       In e (snd (DockerView.displayed scenarioAView)) ->
       (In (Edge.source e) (nodeIds (DockerView.nodes scenarioAView)) ->
        In (Edge.source e) (nodeIds (fst (DockerView.displayed scenarioAView))))
       /\ (In (Edge.target e) (nodeIds (DockerView.nodes scenarioAView)) ->
           In (Edge.target e)
             (nodeIds (fst (DockerView.displayed scenarioAView))))).
Proof.
  intros H.
  destruct (H (dependencyEdge (lit "a.ts") (lit "b.ts") None)) as [Hs _].
  - vm_compute. left. reflexivity.
  - assert (Hbase : In (lit "a.ts") (nodeIds (DockerView.nodes scenarioAView)))
      by (vm_compute; left; reflexivity).
    specialize (Hs Hbase). vm_compute in Hs. exact Hs.
Qed.

(** ** Invariants of the build *)

Section BuildFacts.

Variable protoText : jsstring -> jsstring.

(** A property that holds of the empty state and that every step of the three
    loops of [loadData] preserves holds of the built graph. *)
Lemma buildGraph_invariant (P : BuildState -> Prop)
    (data : list CytoscapeElement) (dockerData : DockerData) :
  P ([], []) ->
  (forall st el, In el data -> P st -> P (addElement st el)) ->
  (forall st fileKey analysis index api,
      integrated dockerData fileKey analysis ->
      nth_error (apisOf analysis) index = Some api ->
      P st -> P (addDockerApi protoText (fileNameOf fileKey) st api index)) ->
  (forall st fileKey analysis index tool,
      integrated dockerData fileKey analysis ->
      nth_error (toolsOf analysis) index = Some tool ->
      P st -> P (addDockerTool protoText (fileNameOf fileKey) st tool index)) ->
  P (buildGraph protoText data dockerData).
Proof.
  intros Hinit Hel Hapi Htool. unfold buildGraph.
  apply fold_left_invariant.
  - apply fold_left_invariant; assumption.
  - intros st [fileKey analysis] Hin Hst. unfold addDockerEntry.
    destruct (DockerAnalysisResult.hasDockerIntegration analysis) eqn:Hflag;
      [|assumption].
    apply forEachIndexed_invariant.
    + apply forEachIndexed_invariant; [assumption|].
      intros s api j Hj Hs. apply (Hapi s fileKey analysis j api); auto.
      split; assumption.
    + intros s tool j Hj Hs. apply (Htool s fileKey analysis j tool); auto.
      split; assumption.
Qed.

Lemma in_values_addCapability (node : Node.t) (edge : Edge.t) (st : BuildState)
    (n : Node.t) :
  In n (mapValues (fst (addCapability node edge st))) ->
  n = node \/ In n (mapValues (fst st)).
Proof. apply in_mapValues_mapSet. Qed.

Lemma in_edges_addCapability (node : Node.t) (edge : Edge.t) (st : BuildState)
    (e : Edge.t) :
  In e (snd (addCapability node edge st)) -> e = edge \/ In e (snd st).
Proof.
  unfold addCapability. simpl.
  destruct (findEdge (Edge.id edge) (snd st)); [tauto|].
  rewrite in_app_iff. simpl. intros [H|[H|[]]]; auto.
Qed.

(** Every node of the built graph comes from a node descriptor or from an
    entry of an integrated analysis. *)
Lemma initialNodes_origin (data : list CytoscapeElement)
    (dockerData : DockerData) (n : Node.t) :
  In n (initialNodes protoText data dockerData) ->
  nodeOfDescriptor data n
  \/ exists fileKey analysis,
       integrated dockerData fileKey analysis
       /\ nodeOfEntry protoText fileKey analysis n.
Proof.
  unfold initialNodes. revert n.
  apply (buildGraph_invariant
           (fun st => forall n, In n (mapValues (fst st)) ->
              nodeOfDescriptor data n
              \/ exists fileKey analysis,
                   integrated dockerData fileKey analysis
                   /\ nodeOfEntry protoText fileKey analysis n)).
  - intros n [].
  - intros st [id ty l sf|s t ty] Hin Hst n; simpl.
    + intros H. apply in_mapValues_mapSet in H as [->|H]; [|auto].
      left. exists id, ty, l, sf. auto.
    + destruct (findEdge _ _); simpl; auto.
  - intros st fileKey analysis index api Hint Hnth Hst n H.
    apply in_values_addCapability in H as [->|H]; [|auto].
    right. exists fileKey, analysis. split; [assumption|].
    left. exists index, api. auto.
  - intros st fileKey analysis index tool Hint Hnth Hst n H.
    apply in_values_addCapability in H as [->|H]; [|auto].
    right. exists fileKey, analysis. split; [assumption|].
    right. exists index, tool. auto.
Qed.

(** Every edge of the built graph comes from an edge descriptor or from an
    entry of an integrated analysis. *)
Lemma edgeList_origin (data : list CytoscapeElement) (dockerData : DockerData)
    (e : Edge.t) :
  In e (edgeList protoText data dockerData) ->
  edgeOfDescriptor data e
  \/ exists fileKey analysis,
       integrated dockerData fileKey analysis /\ edgeOfEntry fileKey analysis e.
Proof.
  unfold edgeList. revert e.
  apply (buildGraph_invariant
           (fun st => forall e, In e (snd st) ->
              edgeOfDescriptor data e
              \/ exists fileKey analysis,
                   integrated dockerData fileKey analysis
                   /\ edgeOfEntry fileKey analysis e)).
  - intros e [].
  - intros st [id ty l sf|s t ty] Hin Hst e; simpl; [auto|].
    destruct (findEdge _ _); simpl; [auto|].
    rewrite in_app_iff. simpl. intros [H|[<-|[]]]; [auto|].
    left. exists s, t, ty. auto.
  - intros st fileKey analysis index api Hint Hnth Hst e H.
    apply in_edges_addCapability in H as [->|H]; [|auto].
    right. exists fileKey, analysis. split; [assumption|].
    left. exists index, api. auto.
  - intros st fileKey analysis index tool Hint Hnth Hst e H.
    apply in_edges_addCapability in H as [->|H]; [|auto].
    right. exists fileKey, analysis. split; [assumption|].
    right. exists index, tool. auto.
Qed.

(** An entry without Docker integration is a step that does nothing. *)
Lemma buildGraph_skip (data : list CytoscapeElement) (before after : DockerData)
    (fileKey : jsstring) (analysis : DockerAnalysisResult.t) :
  DockerAnalysisResult.hasDockerIntegration analysis = false ->
  buildGraph protoText data (before ++ (fileKey, analysis) :: after)
  = buildGraph protoText data (before ++ after).
Proof.
  intros Hflag. unfold buildGraph. rewrite !fold_left_app. simpl.
  now rewrite Hflag.
Qed.

End BuildFacts.

(** C10. An entry of the analysis map whose [hasDockerIntegration] is false
    contributes nothing, whatever its [dockerApis] and [dockerTools] hold:
    the graph is the one built without the entry, so each of its nodes and
    edges comes from a raw descriptor or from an entry, other than this one,
    whose [hasDockerIntegration] is true. *)
Theorem unflagged_entry_contributes_nothing (protoText : jsstring -> jsstring)
    (data : list CytoscapeElement) (before after : DockerData)
    (fileKey : jsstring) (analysis : DockerAnalysisResult.t) :
  DockerAnalysisResult.hasDockerIntegration analysis = false ->
  buildGraph protoText data (before ++ (fileKey, analysis) :: after)
  = buildGraph protoText data (before ++ after)
  /\ (forall n,
        In n (initialNodes protoText data (before ++ (fileKey, analysis) :: after)) ->
        nodeOfDescriptor data n
        \/ exists fileKey' analysis',
             integrated (before ++ after) fileKey' analysis'
             /\ nodeOfEntry protoText fileKey' analysis' n)
  /\ (forall e,
        In e (edgeList protoText data (before ++ (fileKey, analysis) :: after)) ->
        edgeOfDescriptor data e
        \/ exists fileKey' analysis',
             integrated (before ++ after) fileKey' analysis'
             /\ edgeOfEntry fileKey' analysis' e).
Proof.
  intros Hflag.
  pose proof (buildGraph_skip protoText data before after fileKey analysis Hflag)
    as E.
  split; [exact E|]. split.
  - intros n. unfold initialNodes. rewrite E. apply initialNodes_origin.
  - intros e. unfold edgeList. rewrite E. apply edgeList_origin.
Qed.

Lemma unflagged_entry_contributes_nothing_witness :
  DockerAnalysisResult.hasDockerIntegration (snd unflaggedEntry) = false
  /\ buildGraph v8ProtoText scenarioB_data (unflaggedEntry :: scenarioB_docker)
     = buildGraph v8ProtoText scenarioB_data scenarioB_docker.
Proof.
  split; [reflexivity|].
  exact (proj1 (unflagged_entry_contributes_nothing v8ProtoText scenarioB_data
                  [] scenarioB_docker (fst unflaggedEntry) (snd unflaggedEntry)
                  eq_refl)).
Defined.

(** ** Layout *)

Lemma Qminus_const_inj (x x' : Q) (n : Z) (d : positive) :
  (x - (n # d))%Q = (x' - (n # d))%Q -> x = x'.
Proof.
  destruct x as [a b], x' as [a' b']. unfold Qminus, Qplus, Qopp.
  cbn [Qnum Qden]. intros H. injection H as H1 H2.
  apply Pos.mul_reg_r in H2. subst b'. f_equal.
  apply (Z.mul_cancel_r _ _ (Z.pos d)); lia.
Qed.

Lemma cornerOf_inj (c c' : Q * Q) : cornerOf c = cornerOf c' -> c = c'.
Proof.
  destruct c as [x y], c' as [x' y']. unfold cornerOf. cbn [fst snd].
  change (inject_Z nodeWidth / 2)%Q with (200 # 2)%Q.
  change (inject_Z nodeHeight / 2)%Q with (50 # 2)%Q.
  intros H. pose proof (f_equal fst H) as Hx. pose proof (f_equal snd H) as Hy.
  cbn [fst snd] in Hx, Hy.
  now rewrite (Qminus_const_inj _ _ _ _ Hx), (Qminus_const_inj _ _ _ _ Hy).
Qed.

(** C3 (the layout part, evaluated). [getLayoutedElements] registers the
    nodes and edges in the shared dagre graph and never removes them: asked
    to lay out the single node a.ts after an earlier call on the graph
    x.ts -> a.ts, it runs dagre on a graph that still holds x.ts and that
    edge, and places a.ts where dagre puts it there; on a fresh graph dagre
    sees a.ts alone. Whenever dagre centres a.ts differently in the two
    graphs, the two runs on the same request return different
    coordinates. *)
Theorem getLayoutedElements_keeps_earlier_graph
    (dagreLayout : Dagre.Graph -> jsstring -> Q * Q) :
  snd (getLayoutedElements dagreLayout
         (snd (getLayoutedElements dagreLayout Dagre.empty [nodeX; nodeA] [edgeXA]))
         [nodeA] [])
  = staleGraph
  /\ snd (getLayoutedElements dagreLayout Dagre.empty [nodeA] []) = freshGraph
  /\ map Node.position
       (fst (fst (getLayoutedElements dagreLayout
                    (snd (getLayoutedElements dagreLayout Dagre.empty
                            [nodeX; nodeA] [edgeXA]))
                    [nodeA] [])))
     = [cornerOf (dagreLayout staleGraph (lit "a.ts"))]
  /\ map Node.position
       (fst (fst (getLayoutedElements dagreLayout Dagre.empty [nodeA] [])))
     = [cornerOf (dagreLayout freshGraph (lit "a.ts"))]
  /\ staleGraph <> freshGraph
  /\ (dagreLayout staleGraph (lit "a.ts") <> dagreLayout freshGraph (lit "a.ts") ->
      map Node.position
        (fst (fst (getLayoutedElements dagreLayout
                     (snd (getLayoutedElements dagreLayout Dagre.empty
                             [nodeX; nodeA] [edgeXA]))
                     [nodeA] [])))
      <> map Node.position
           (fst (fst (getLayoutedElements dagreLayout Dagre.empty [nodeA] [])))).
Proof.
  assert (E1 : snd (getLayoutedElements dagreLayout
                      (snd (getLayoutedElements dagreLayout Dagre.empty
                              [nodeX; nodeA] [edgeXA]))
                      [nodeA] []) = staleGraph)
    by (vm_compute; reflexivity).
  assert (E2 : snd (getLayoutedElements dagreLayout Dagre.empty [nodeA] [])
               = freshGraph)
    by (vm_compute; reflexivity).
  assert (P1 : map Node.position
                 (fst (fst (getLayoutedElements dagreLayout
                              (snd (getLayoutedElements dagreLayout Dagre.empty
                                      [nodeX; nodeA] [edgeXA]))
                              [nodeA] [])))
               = [cornerOf (dagreLayout staleGraph (lit "a.ts"))]).
  { unfold getLayoutedElements in *. simpl in E1. simpl. rewrite E1.
    reflexivity. }
  assert (P2 : map Node.position
                 (fst (fst (getLayoutedElements dagreLayout Dagre.empty
                              [nodeA] [])))
               = [cornerOf (dagreLayout freshGraph (lit "a.ts"))]).
  { unfold getLayoutedElements in *. simpl in E2. simpl. rewrite E2.
    reflexivity. }
  split; [exact E1|]. split; [exact E2|]. split; [exact P1|].
  split; [exact P2|]. split; [discriminate|].
  intros Hdiff. rewrite P1, P2. intros H. apply Hdiff, cornerOf_inj.
  exact (f_equal (hd (0, 0)%Q) H).
Qed.

Lemma getLayoutedElements_keeps_earlier_graph_witness :
  columnLayout staleGraph (lit "a.ts") <> columnLayout freshGraph (lit "a.ts")
  /\ map Node.position
       (fst (fst (getLayoutedElements columnLayout
                    (snd (getLayoutedElements columnLayout Dagre.empty
                            [nodeX; nodeA] [edgeXA]))
                    [nodeA] [])))
     <> map Node.position
          (fst (fst (getLayoutedElements columnLayout Dagre.empty [nodeA] []))).
Proof.
  assert (H : columnLayout staleGraph (lit "a.ts")
              <> columnLayout freshGraph (lit "a.ts"))
    by (vm_compute; discriminate).
  split; [exact H|].
  exact (proj2 (proj2 (proj2 (proj2 (proj2
           (getLayoutedElements_keeps_earlier_graph columnLayout))))) H).
Defined.

(** ** Identifiers of the built graph *)

Section LoopReach.

Context {A St : Type}.

(** What a step establishes and every step keeps holds at the end of the
    loop. *)
Lemma fold_left_reach (Q : St -> Prop) (f : St -> A -> St) (l : list A)
    (x : A) (st : St) :
  In x l ->
  (forall s, Q (f s x)) ->
  (forall s y, In y l -> Q s -> Q (f s y)) ->
  Q (fold_left f l st).
Proof.
  revert st. induction l as [|y l IH]; simpl; intros st Hin Hx Hkeep; [tauto|].
  destruct Hin as [->|Hin].
  - apply fold_left_invariant; [apply Hx | intros; apply Hkeep; auto].
  - apply IH; auto.
Qed.

Lemma forEachFrom_reach (Q : St -> Prop) (f : St -> A -> nat -> St)
    (l : list A) (i j : nat) (x : A) (st : St) :
  nth_error l j = Some x ->
  (forall s, Q (f s x (i + j))) ->
  (forall s y j', nth_error l j' = Some y -> Q s -> Q (f s y (i + j'))) ->
  Q (forEachFrom f i l st).
Proof.
  revert i j st. induction l as [|y l IH]; intros i j st Hj Hx Hkeep.
  - destruct j; discriminate.
  - simpl. destruct j as [|j]; simpl in Hj.
    + injection Hj as ->. apply forEachFrom_invariant.
      * specialize (Hx st). now rewrite Nat.add_0_r in Hx.
      * intros s z j' Hz Hs. specialize (Hkeep s z (S j') Hz Hs).
        now rewrite Nat.add_succ_r in Hkeep.
    + apply (IH (S i) j); auto.
      * intros s. specialize (Hx s). now rewrite Nat.add_succ_r in Hx.
      * intros s z j' Hz Hs. specialize (Hkeep s z (S j') Hz Hs).
        now rewrite Nat.add_succ_r in Hkeep.
Qed.

Lemma forEachIndexed_reach (Q : St -> Prop) (f : St -> A -> nat -> St)
    (l : list A) (j : nat) (x : A) (st : St) :
  nth_error l j = Some x ->
  (forall s, Q (f s x j)) ->
  (forall s y j', nth_error l j' = Some y -> Q s -> Q (f s y j')) ->
  Q (forEachIndexed f l st).
Proof.
  intros Hj Hx Hkeep. unfold forEachIndexed.
  apply (forEachFrom_reach Q f l 0 j x); auto.
Qed.

End LoopReach.

Lemma keyed_mapSet (k : jsstring) (n : Node.t) (m : Map Node.t) :
  Node.id n = k -> keyed m -> keyed (mapSet k n m).
Proof.
  intros Hn. unfold keyed. induction m as [|[k0 n0] m IH]; simpl.
  - intros _ k' n' [[= <- <-]|[]]. assumption.
  - intros Hm. destruct (streq k0 k); intros k' n' [[= <- <-]|H].
    + assumption.
    + apply Hm. now right.
    + apply Hm. now left.
    + apply IH; [|assumption]. intros. apply Hm. now right.
Qed.

Lemma keyed_nodeIds (m : Map Node.t) :
  keyed m -> nodeIds (mapValues m) = mapKeys m.
Proof.
  unfold keyed, nodeIds, mapValues, mapKeys.
  induction m as [|[k n] m IH]; simpl; [reflexivity|].
  intros Hm. rewrite (Hm k n) by (now left). f_equal.
  apply IH. intros. apply Hm. now right.
Qed.

Lemma NoDup_map_inj_in {A B} (f : A -> B) (l : list A) (x y : A) :
  NoDup (map f l) -> In x l -> In y l -> f x = f y -> x = y.
Proof.
  induction l as [|z l IH]; simpl; [tauto|].
  intros Hnd Hx Hy E. inversion Hnd as [|? ? Hz Hnd']; subst.
  destruct Hx as [->|Hx], Hy as [->|Hy]; auto.
  - exfalso. apply Hz. rewrite E. now apply in_map.
  - exfalso. apply Hz. rewrite <- E. now apply in_map.
Qed.

Lemma edgeIds_push (edge : Edge.t) (l : list Edge.t) :
  NoDup (edgeIds l) ->
  NoDup (edgeIds (if findEdge (Edge.id edge) l then l else l ++ [edge])).
Proof.
  intros Hnd. destruct (findEdge (Edge.id edge) l) eqn:E; [assumption|].
  apply findEdge_false in E. unfold edgeIds in *. rewrite map_app. simpl.
  apply NoDup_app; [assumption | repeat constructor; simpl; tauto |].
  intros x Hx [<-|[]]. tauto.
Qed.

Section BuildIds.

Variable protoText : jsstring -> jsstring.

Lemma wellFormed_addElement (st : BuildState) (el : CytoscapeElement) :
  wellFormed st -> wellFormed (addElement st el).
Proof.
  intros (Hk & Hn & He). destruct el as [id ty l sf|s t ty]; simpl.
  - repeat split; simpl; auto.
    + now apply keyed_mapSet.
    + now apply NoDup_mapKeys_mapSet.
  - pose proof (edgeIds_push (dependencyEdge s t ty) (snd st) He) as Hp.
    simpl in Hp. destruct (findEdge _ _); repeat split; auto.
Qed.

Lemma wellFormed_addCapability (node : Node.t) (edge : Edge.t)
    (st : BuildState) :
  wellFormed st -> wellFormed (addCapability node edge st).
Proof.
  intros (Hk & Hn & He). repeat split; simpl.
  - now apply keyed_mapSet.
  - now apply NoDup_mapKeys_mapSet.
  - now apply edgeIds_push.
Qed.

Lemma wellFormed_buildGraph (data : list CytoscapeElement)
    (dockerData : DockerData) :
  wellFormed (buildGraph protoText data dockerData).
Proof.
  apply buildGraph_invariant.
  - repeat split; simpl; try constructor. intros k n [].
  - intros. now apply wellFormed_addElement.
  - intros. now apply wellFormed_addCapability.
  - intros. now apply wellFormed_addCapability.
Qed.

Lemma nodeIds_initialNodes (data : list CytoscapeElement)
    (dockerData : DockerData) :
  nodeIds (initialNodes protoText data dockerData)
  = mapKeys (fst (buildGraph protoText data dockerData)).
Proof.
  apply keyed_nodeIds. apply wellFormed_buildGraph.
Qed.

Lemma grows_refl (st : BuildState) : grows st st.
Proof. split; apply incl_refl. Qed.

Lemma grows_trans (a b c : BuildState) : grows a b -> grows b c -> grows a c.
Proof. intros [H1 H2] [H3 H4]. split; eapply incl_tran; eauto. Qed.

Lemma grows_addElement (st : BuildState) (el : CytoscapeElement) :
  grows st (addElement st el).
Proof.
  destruct el as [id ty l sf|s t ty]; simpl.
  - split; simpl; [|apply incl_refl].
    intros k Hk. apply in_mapKeys_mapSet. now right.
  - destruct (findEdge _ _); [apply grows_refl|].
    split; simpl; [apply incl_refl | apply incl_appl, incl_refl].
Qed.

Lemma grows_addCapability (node : Node.t) (edge : Edge.t) (st : BuildState) :
  grows st (addCapability node edge st).
Proof.
  split; simpl.
  - intros k Hk. apply in_mapKeys_mapSet. now right.
  - destruct (findEdge _ _); [apply incl_refl | apply incl_appl, incl_refl].
Qed.

Lemma grows_addDockerEntry (st : BuildState)
    (entry : jsstring * DockerAnalysisResult.t) :
  grows st (addDockerEntry protoText st entry).
Proof.
  destruct entry as [fileKey analysis]. unfold addDockerEntry.
  destruct (DockerAnalysisResult.hasDockerIntegration analysis);
    [|apply grows_refl].
  apply forEachIndexed_invariant.
  - apply forEachIndexed_invariant; [apply grows_refl|].
    intros s api j _ Hs. eapply grows_trans; [exact Hs|].
    apply grows_addCapability.
  - intros s tool j _ Hs. eapply grows_trans; [exact Hs|].
    apply grows_addCapability.
Qed.

Lemma grows_elements (data : list CytoscapeElement) (st : BuildState) :
  grows st (fold_left addElement data st).
Proof.
  apply fold_left_invariant; [apply grows_refl|].
  intros s el _ Hs. eapply grows_trans; [exact Hs | apply grows_addElement].
Qed.

Lemma grows_entries (dockerData : DockerData) (st : BuildState) :
  grows st (fold_left (addDockerEntry protoText) dockerData st).
Proof.
  apply fold_left_invariant; [apply grows_refl|].
  intros s entry _ Hs. eapply grows_trans; [exact Hs|].
  apply grows_addDockerEntry.
Qed.

End BuildIds.

Section BuildEdges.

Variable protoText : jsstring -> jsstring.

(** The Docker pass alone, from any state. *)
Lemma dockerPass_invariant (P : BuildState -> Prop) (dockerData : DockerData)
    (st : BuildState) :
  P st ->
  (forall s fileKey analysis index api,
      integrated dockerData fileKey analysis ->
      nth_error (apisOf analysis) index = Some api ->
      P s -> P (addDockerApi protoText (fileNameOf fileKey) s api index)) ->
  (forall s fileKey analysis index tool,
      integrated dockerData fileKey analysis ->
      nth_error (toolsOf analysis) index = Some tool ->
      P s -> P (addDockerTool protoText (fileNameOf fileKey) s tool index)) ->
  P (fold_left (addDockerEntry protoText) dockerData st).
Proof.
  intros Hinit Hapi Htool. apply fold_left_invariant; [assumption|].
  intros s [fileKey analysis] Hin Hs. unfold addDockerEntry.
  destruct (DockerAnalysisResult.hasDockerIntegration analysis) eqn:Hflag;
    [|assumption].
  apply forEachIndexed_invariant.
  - apply forEachIndexed_invariant; [assumption|].
    intros s' api j Hj Hs'. apply (Hapi s' fileKey analysis j api); auto.
    split; assumption.
  - intros s' tool j Hj Hs'. apply (Htool s' fileKey analysis j tool); auto.
    split; assumption.
Qed.

Lemma declared_in_graph (data : list CytoscapeElement) (dockerData : DockerData)
    (id : jsstring) :
  declared data id ->
  In id (nodeIds (initialNodes protoText data dockerData)).
Proof.
  intros (ty & l & sf & Hin). rewrite nodeIds_initialNodes. unfold buildGraph.
  apply (grows_entries protoText dockerData).
  apply (fold_left_reach (fun st => In id (mapKeys (fst st))) addElement data
           (NodeElement id ty l sf)); [assumption| |].
  - intros s. simpl. apply in_mapKeys_mapSet. now left.
  - intros s el _ Hs. now apply (grows_addElement s el).
Qed.

(** No edge descriptor is skipped: its identifier is in the edge list,
    whatever the nodes are. *)
Lemma descriptor_edge_in_graph (data : list CytoscapeElement)
    (dockerData : DockerData) (source target : jsstring)
    (type : option jsstring) :
  In (EdgeElement source target type) data ->
  In (source ++ lit "->" ++ target) (edgeIds (edgeList protoText data dockerData)).
Proof.
  intros Hin. unfold edgeList, buildGraph, edgeIds.
  apply (incl_map Edge.id (proj2 (grows_entries protoText dockerData _))).
  apply (fold_left_reach
           (fun st => In (source ++ lit "->" ++ target) (map Edge.id (snd st)))
           addElement data (EdgeElement source target type)); [assumption| |].
  - intros s. cbn.
    destruct (findEdge (source ++ lit "->" ++ target) (snd s)) eqn:E.
    + now apply findEdge_true in E.
    + cbn. rewrite map_app, in_app_iff. right. now left.
  - intros s el _ Hs.
    apply (incl_map Edge.id (proj2 (grows_addElement s el))). exact Hs.
Qed.

(** The target of an edge that no descriptor gave is a node. *)
Lemma capability_edge_target (data : list CytoscapeElement)
    (dockerData : DockerData) (e : Edge.t) :
  In e (edgeList protoText data dockerData) ->
  edgeOfDescriptor data e
  \/ In (Edge.target e) (nodeIds (initialNodes protoText data dockerData)).
Proof.
  rewrite nodeIds_initialNodes. unfold edgeList. revert e.
  apply (buildGraph_invariant protoText
           (fun st => forall e, In e (snd st) ->
              edgeOfDescriptor data e \/ In (Edge.target e) (mapKeys (fst st)))).
  - intros e [].
  - intros st el Hel Hst e He.
    assert (Hold : In e (snd st) ->
                   edgeOfDescriptor data e
                   \/ In (Edge.target e) (mapKeys (fst (addElement st el)))).
    { intros H. destruct (Hst e H) as [?|Ht]; [now left | right].
      now apply (grows_addElement st el). }
    destruct el as [id ty l sf|s t ty]; cbn in He, Hold |- *; [auto|].
    destruct (findEdge (s ++ lit "->" ++ t) (snd st)); [auto|].
    cbn in He. apply in_app_or in He as [He|[<-|[]]]; [auto|].
    left. exists s, t, ty. auto.
  - intros st fileKey analysis index api _ _ Hst e He.
    apply in_edges_addCapability in He as [->|He].
    + right. simpl. apply in_mapKeys_mapSet. now left.
    + destruct (Hst e He) as [?|Ht]; [now left | right].
      simpl. apply in_mapKeys_mapSet. now right.
  - intros st fileKey analysis index tool _ _ Hst e He.
    apply in_edges_addCapability in He as [->|He].
    + right. simpl. apply in_mapKeys_mapSet. now left.
    + destruct (Hst e He) as [?|Ht]; [now left | right].
      simpl. apply in_mapKeys_mapSet. now right.
Qed.

End BuildEdges.

(** ** Referential integrity *)

(** C1 (amended). No edge descriptor is skipped: each one puts its
    identifier [source->target] into the edge list whether or not its
    endpoints are nodes. The target of every synthesized capability edge is
    a node of the graph. Both endpoints of an edge are nodes of the graph
    when the raw elements declare the endpoints of every edge descriptor and
    the file of every analysis with Docker integration. *)
Theorem edge_endpoints (protoText : jsstring -> jsstring)
    (data : list CytoscapeElement) (dockerData : DockerData) (e : Edge.t) :
  In e (edgeList protoText data dockerData) ->
  (forall source target type,
      In (EdgeElement source target type) data ->
      In (source ++ lit "->" ++ target)
        (edgeIds (edgeList protoText data dockerData)))
  /\ (edgeOfDescriptor data e
      \/ In (Edge.target e) (nodeIds (initialNodes protoText data dockerData)))
  /\ (endpointsDeclared data dockerData ->
      In (Edge.source e) (nodeIds (initialNodes protoText data dockerData))
      /\ In (Edge.target e) (nodeIds (initialNodes protoText data dockerData))).
Proof.
  intros He. split; [|split].
  - intros s t ty. apply descriptor_edge_in_graph.
  - now apply capability_edge_target.
  - intros [Hedges Hfiles].
    destruct (capability_edge_target protoText data dockerData e He)
      as [(s & t & ty & Hin & ->)|Ht].
    + destruct (Hedges s t ty Hin) as [Hs Ht].
      split; now apply declared_in_graph.
    + split; [|assumption].
      destruct (edgeList_origin protoText data dockerData e He)
        as [(s & t & ty & Hin & ->)|(k & a & Hint & Hentry)].
      * apply declared_in_graph. now destruct (Hedges s t ty Hin).
      * apply declared_in_graph.
        destruct Hentry as [(i & api & _ & ->)|(i & tool & _ & ->)];
          simpl; now apply (Hfiles k a).
Qed.

Lemma edge_endpoints_witness :
  In (dockerToolEdge (lit "a.ts") (lit "compose") 0)
    (edgeList v8ProtoText scenarioB_data scenarioB_docker)
  /\ endpointsDeclared scenarioB_data scenarioB_docker
  /\ In (lit "a.ts")
       (nodeIds (initialNodes v8ProtoText scenarioB_data scenarioB_docker))
  /\ In (dockerToolId (lit "a.ts") (lit "compose") 0)
       (nodeIds (initialNodes v8ProtoText scenarioB_data scenarioB_docker)).
Proof.
  assert (He : In (dockerToolEdge (lit "a.ts") (lit "compose") 0)
                 (edgeList v8ProtoText scenarioB_data scenarioB_docker))
    by (vm_compute; right; left; reflexivity).
  assert (Hd : endpointsDeclared scenarioB_data scenarioB_docker).
  { split.
    - intros s t ty [H|[]]. discriminate H.
    - intros k a [[H|[]] _]. injection H as <- <-.
      exists None, None, None. left. reflexivity. }
  split; [exact He|]. split; [exact Hd|].
  exact (proj2 (proj2 (edge_endpoints v8ProtoText scenarioB_data
                         scenarioB_docker _ He)) Hd).
Defined.

(** The edge of [danglingData] is in the graph although its target is not a
    node. *)
Lemma edge_endpoints_counterexample :
  ~ (forall e,
       In e (edgeList v8ProtoText danglingData []) ->
       In (Edge.source e) (nodeIds (initialNodes v8ProtoText danglingData []))
       /\ In (Edge.target e)
            (nodeIds (initialNodes v8ProtoText danglingData []))).
Proof.
  intros H.
  destruct (H (dependencyEdge (lit "a.ts") (lit "lib/outside.ts") None))
    as [_ Ht].
  - vm_compute. left. reflexivity.
  - vm_compute in Ht. destruct Ht as [Ht|[]]. discriminate Ht.
Qed.

(** ** Duplicate identifiers *)

Section BuildDuplicates.

Variable protoText : jsstring -> jsstring.

(** After the element pass a node identifier holds the node of the last
    descriptor that carries it. *)
Lemma mapGet_elements (id : jsstring) (data : list CytoscapeElement)
    (st : BuildState) :
  mapGet id (fst (fold_left addElement data st))
  = match lastNodeDescriptor id data with
    | Some n => Some n
    | None => mapGet id (fst st)
    end.
Proof.
  revert st. induction data as [|el rest IH]; intros st; [reflexivity|].
  cbn [fold_left lastNodeDescriptor]. rewrite IH.
  destruct (lastNodeDescriptor id rest); [reflexivity|].
  destruct el as [id' ty l sf|s t ty]; cbn.
  - destruct (streq id' id) eqn:E.
    + apply streq_eq in E. subst id'. apply mapGet_mapSet_same.
    + apply mapGet_mapSet_other. apply streq_neq in E. congruence.
  - now destruct (findEdge _ _).
Qed.


(** The Docker pass leaves a node in place or puts a capability node under
    its identifier. *)
Lemma dockerPass_node (dockerData : DockerData) (st : BuildState)
    (id : jsstring) (n0 : Node.t) :
  mapGet id (fst st) = Some n0 ->
  exists n,
    mapGet id (fst (fold_left (addDockerEntry protoText) dockerData st)) = Some n
    /\ (n = n0
        \/ exists fileKey analysis,
             integrated dockerData fileKey analysis
             /\ nodeOfEntry protoText fileKey analysis n).
Proof.
  intros H0.
  apply (dockerPass_invariant protoText
           (fun s => exists n,
              mapGet id (fst s) = Some n
              /\ (n = n0
                  \/ exists fileKey analysis,
                       integrated dockerData fileKey analysis
                       /\ nodeOfEntry protoText fileKey analysis n))).
  - exists n0. auto.
  - intros s fileKey analysis index api Hint Hnth (n & Hn & Horigin).
    cbn. set (node := dockerApiNode protoText (fileNameOf fileKey) api index).
    destruct (list_eq_dec N.eq_dec id (Node.id node)) as [->|Hne].
    + exists node. rewrite mapGet_mapSet_same. split; [reflexivity|].
      right. exists fileKey, analysis. split; [assumption|].
      left. exists index, api. auto.
    + exists n. rewrite mapGet_mapSet_other by assumption. auto.
  - intros s fileKey analysis index tool Hint Hnth (n & Hn & Horigin).
    cbn. set (node := dockerToolNode protoText (fileNameOf fileKey) tool index).
    destruct (list_eq_dec N.eq_dec id (Node.id node)) as [->|Hne].
    + exists node. rewrite mapGet_mapSet_same. split; [reflexivity|].
      right. exists fileKey, analysis. split; [assumption|].
      right. exists index, tool. auto.
    + exists n. rewrite mapGet_mapSet_other by assumption. auto.
Qed.

Lemma lastNodeDescriptor_declared (id : jsstring)
    (data : list CytoscapeElement) :
  declared data id -> exists n0, lastNodeDescriptor id data = Some n0.
Proof using Type.
  intros (ty & l & sf & Hin). induction data as [|el rest IH]; [destruct Hin|].
  cbn. destruct (lastNodeDescriptor id rest) as [n|] eqn:E; [now exists n|].
  destruct Hin as [->|Hin].
  - rewrite streq_refl. now eexists.
  - destruct (IH Hin) as [n0 Hn0]. discriminate Hn0.
Qed.

Lemma firstEdgeDescriptor_declared (source target : jsstring)
    (type : option jsstring) (data : list CytoscapeElement) :
  In (EdgeElement source target type) data ->
  exists e0, firstEdgeDescriptor (source ++ lit "->" ++ target) data = Some e0.
Proof using Type.
  induction data as [|[id ty l sf|s t ty] rest IH]; cbn; [intros []| |].
  - intros [H|H]; [discriminate H | now apply IH].
  - intros [H|H].
    + injection H as -> -> ->. rewrite streq_refl. now eexists.
    + destruct (streq (s ++ lit "->" ++ t) (source ++ lit "->" ++ target));
        [now eexists | now apply IH].
Qed.

Lemma firstEdgeDescriptor_id (edgeId : jsstring) (data : list CytoscapeElement)
    (e : Edge.t) :
  firstEdgeDescriptor edgeId data = Some e -> Edge.id e = edgeId.
Proof.
  induction data as [|[id ty l sf|s t ty] rest IH]; cbn;
    [discriminate | assumption |].
  destruct (streq (s ++ lit "->" ++ t) edgeId) eqn:E; [|assumption].
  intros [= <-]. now apply streq_eq in E.
Qed.

(** After the element pass the edge of the first descriptor with an
    identifier is in the edge list. *)
Lemma firstEdge_elements (edgeId : jsstring) (data : list CytoscapeElement)
    (st : BuildState) (e : Edge.t) :
  findEdge edgeId (snd st) = false ->
  firstEdgeDescriptor edgeId data = Some e ->
  In e (snd (fold_left addElement data st)).
Proof.
  revert st. induction data as [|[id ty l sf|s t ty] rest IH]; intros st Hfind;
    cbn [fold_left firstEdgeDescriptor]; [discriminate | now apply IH |].
  destruct (streq (s ++ lit "->" ++ t) edgeId) eqn:E.
  - intros [= <-]. apply streq_eq in E.
    apply (proj2 (grows_elements rest _)). cbn. rewrite E, Hfind. cbn.
    apply in_or_app. right. now left.
  - apply IH. cbn.
    destruct (findEdge (s ++ lit "->" ++ t) (snd st)); [assumption|].
    cbn. unfold findEdge in *. rewrite existsb_app, Hfind. cbn.
    now rewrite E.
Qed.

End BuildDuplicates.

(** C2 (amended). The graph has one node per node identifier and one edge per
    edge identifier. For edges the first descriptor wins: the edge stored
    under an identifier is the one of the first descriptor with that
    [source->target], and it is the only edge with the identifier; two equal
    descriptors a -> b give the single edge [a->b]. For nodes the last
    descriptor wins: the node stored under an identifier is the one of the
    last descriptor with it, unless the Docker pass has put a capability node
    under the same identifier. *)
Theorem duplicate_identifiers (protoText : jsstring -> jsstring)
    (data : list CytoscapeElement) (dockerData : DockerData) :
  NoDup (nodeIds (initialNodes protoText data dockerData))
  /\ NoDup (edgeIds (edgeList protoText data dockerData))
  /\ (forall edgeId e0,
        firstEdgeDescriptor edgeId data = Some e0 ->
        In e0 (edgeList protoText data dockerData)
        /\ forall e,
             In e (edgeList protoText data dockerData) ->
             Edge.id e = edgeId -> e = e0)
  /\ (forall id n0,
        lastNodeDescriptor id data = Some n0 ->
        exists n,
          In n (initialNodes protoText data dockerData)
          /\ Node.id n = id
          /\ (n = n0
              \/ exists fileKey analysis,
                   integrated dockerData fileKey analysis
                   /\ nodeOfEntry protoText fileKey analysis n))
  /\ (forall source target type,
        In (EdgeElement source target type) data ->
        exists e0,
          firstEdgeDescriptor (source ++ lit "->" ++ target) data = Some e0)
  /\ (forall id,
        declared data id -> exists n0, lastNodeDescriptor id data = Some n0)
  /\ edgeIds (edgeList protoText scenarioC []) = [lit "a->b"].
Proof.
  destruct (wellFormed_buildGraph protoText data dockerData)
    as (Hkeyed & Hnodes & Hedges).
  split; [now rewrite nodeIds_initialNodes|]. split; [assumption|].
  split; [|split; [|split; [|split]]];
    [| |intros s t ty; apply firstEdgeDescriptor_declared
     |intros id; apply lastNodeDescriptor_declared|].
  - intros edgeId e0 Hfirst.
    assert (Hin : In e0 (edgeList protoText data dockerData)).
    { unfold edgeList, buildGraph.
      apply (proj2 (grows_entries protoText dockerData _)).
      now apply firstEdge_elements with (edgeId := edgeId). }
    split; [assumption|]. intros e He Hid.
    apply (NoDup_map_inj_in Edge.id (edgeList protoText data dockerData));
      auto.
    rewrite Hid. symmetry. now apply firstEdgeDescriptor_id with (data := data).
  - intros id n0 Hlast.
    destruct (dockerPass_node protoText dockerData
                (fold_left addElement data ([], [])) id n0)
      as (n & Hget & Horigin).
    { now rewrite mapGet_elements, Hlast. }
    exists n. split; [|split; [|assumption]].
    + unfold initialNodes, buildGraph.
      now apply mapGet_Some_In with (k := id).
    + apply Hkeyed. now apply mapGet_Some_pair.
  - vm_compute. reflexivity.
Qed.

Lemma duplicate_identifiers_witness :
  firstEdgeDescriptor (lit "a->b") scenarioC
  = Some (dependencyEdge (lit "a") (lit "b") None)
  /\ lastNodeDescriptor (lit "a") repeatedNodeData
     = Some (fileNode (lit "a") None (Some (lit "second")) None)
  /\ In (dependencyEdge (lit "a") (lit "b") None)
       (edgeList v8ProtoText scenarioC [])
  /\ exists n,
       In n (initialNodes v8ProtoText repeatedNodeData [])
       /\ Node.id n = lit "a"
       /\ n = fileNode (lit "a") None (Some (lit "second")) None.
Proof.
  assert (H1 : firstEdgeDescriptor (lit "a->b") scenarioC
               = Some (dependencyEdge (lit "a") (lit "b") None))
    by reflexivity.
  assert (H2 : lastNodeDescriptor (lit "a") repeatedNodeData
               = Some (fileNode (lit "a") None (Some (lit "second")) None))
    by reflexivity.
  split; [exact H1|]. split; [exact H2|]. split.
  - exact (proj1 (proj1 (proj2 (proj2
             (duplicate_identifiers v8ProtoText scenarioC []))) _ _ H1)).
  - destruct (proj1 (proj2 (proj2 (proj2
               (duplicate_identifiers v8ProtoText repeatedNodeData []))))
               _ _ H2) as (n & Hin & Hid & [Hn|(k & a & [[] _] & _)]).
    exists n. auto.
Defined.

(** The node of a repeated identifier carries the label of the last
    descriptor, not of the first. *)
Lemma first_node_wins_counterexample :
  ~ (forall n,
       In n (initialNodes v8ProtoText repeatedNodeData []) ->
       Node.id n = lit "a" ->
       n = fileNode (lit "a") None (Some (lit "first")) None).
Proof.
  intros H.
  specialize (H (fileNode (lit "a") None (Some (lit "second")) None)).
  assert (E : fileNode (lit "a") None (Some (lit "second")) None
              = fileNode (lit "a") None (Some (lit "first")) None).
  { apply H; [vm_compute; left; reflexivity | reflexivity]. }
  apply (f_equal (fun n => NodeData.label (Node.data n))) in E.
  vm_compute in E. discriminate E.
Qed.

(** ** Identifiers of the capability nodes *)

Lemma lit_inj (s t : string) : lit s = lit t -> s = t.
Proof.
  unfold lit. intros H.
  rewrite <- (string_of_list_ascii_of_string s),
          <- (string_of_list_ascii_of_string t).
  f_equal. revert H.
  generalize (list_ascii_of_string s) (list_ascii_of_string t).
  intros l; induction l as [|a l IH]; intros [|b m]; cbn; try discriminate.
  - reflexivity.
  - intros [= Hab Hlm]. f_equal; [|now apply IH].
    rewrite <- (ascii_N_embedding a), <- (ascii_N_embedding b).
    now rewrite Hab.
Qed.

Lemma ofNat_inj (i j : nat) : ofNat i = ofNat j -> i = j.
Proof.
  unfold ofNat. intros H. apply lit_inj in H.
  apply Unsigned.to_uint_inj.
  assert (E : Some (Nat.to_uint i) = Some (Nat.to_uint j))
    by (rewrite <- !NilEmpty.usu; now rewrite H).
  now injection E.
Qed.

Lemma lit_String (a : ascii) (s : string) :
  lit (String a s) = N_of_ascii a :: lit s.
Proof. reflexivity. Qed.

Lemma digits_no_underscore (d : Decimal.uint) :
  ~ In 95%N (lit (NilEmpty.string_of_uint d)).
Proof.
  induction d; cbn [NilEmpty.string_of_uint]; [intros [] | ..];
    rewrite lit_String; intros [H|H]; try (now apply IHd);
    vm_compute in H; discriminate H.
Qed.

Lemma ofNat_no_underscore (i : nat) : ~ In 95%N (ofNat i).
Proof. apply digits_no_underscore. Qed.

(** A string is cut at its last underscore in one way only. *)
Lemma last_underscore (a b d e : jsstring) :
  ~ In 95%N d -> ~ In 95%N e ->
  a ++ lit "_" ++ d = b ++ lit "_" ++ e -> a = b /\ d = e.
Proof.
  change (lit "_") with [95%N]. cbn [app].
  intros Hd He. revert b. induction a as [|x a IH]; intros [|y b]; cbn.
  - intros [= ->]. auto.
  - intros [= <- ->]. exfalso. apply Hd. apply in_or_app. right. now left.
  - intros [= -> <-]. exfalso. apply He. apply in_or_app. right. now left.
  - intros [= -> H]. destruct (IH b H) as [-> ->]. auto.
Qed.

Lemma dockerApiId_index (f f' : jsstring) (api api' : DockerAPI.t)
    (i i' : nat) :
  f = f' -> dockerApiId f api i = dockerApiId f' api' i' -> i = i'.
Proof.
  intros <-. unfold dockerApiId. rewrite !app_assoc.
  rewrite <- !(app_assoc _ (lit "_") (ofNat _)). intros H.
  apply last_underscore in H; try apply ofNat_no_underscore.
  now apply ofNat_inj.
Qed.

Lemma dockerToolId_index (f f' tool tool' : jsstring) (i i' : nat) :
  f = f' -> dockerToolId f tool i = dockerToolId f' tool' i' -> i = i'.
Proof.
  intros <-. unfold dockerToolId. rewrite !app_assoc.
  rewrite <- !(app_assoc _ (lit "_") (ofNat _)). intros H.
  apply last_underscore in H; try apply ofNat_no_underscore.
  now apply ofNat_inj.
Qed.

Lemma dockerApiId_not_tool (f f' tool : jsstring) (api : DockerAPI.t)
    (i i' : nat) :
  dockerApiId f api i <> dockerToolId f' tool i'.
Proof.
  unfold dockerApiId, dockerToolId.
  change (lit "docker_api_") with (lit "docker_" ++ lit "api_").
  change (lit "docker_tool_") with (lit "docker_" ++ lit "tool_").
  rewrite <- !app_assoc. intros H. apply app_inv_head in H.
  vm_compute in H. discriminate H.
Qed.

Section CapabilityPresence.

Variable protoText : jsstring -> jsstring.

(** What the step of one API entry establishes and every Docker step keeps
    holds after the Docker pass. *)
Lemma dockerPass_reach_api (Q : BuildState -> Prop) (dockerData : DockerData)
    (st : BuildState) (fileKey : jsstring) (analysis : DockerAnalysisResult.t)
    (index : nat) (api : DockerAPI.t) :
  integrated dockerData fileKey analysis ->
  nth_error (apisOf analysis) index = Some api ->
  (forall s, Q (addDockerApi protoText (fileNameOf fileKey) s api index)) ->
  (forall s k a j api',
      integrated dockerData k a -> nth_error (apisOf a) j = Some api' ->
      Q s -> Q (addDockerApi protoText (fileNameOf k) s api' j)) ->
  (forall s k a j tool,
      integrated dockerData k a -> nth_error (toolsOf a) j = Some tool ->
      Q s -> Q (addDockerTool protoText (fileNameOf k) s tool j)) ->
  Q (fold_left (addDockerEntry protoText) dockerData st).
Proof.
  intros [Hin Hflag] Hnth Hstep Hapi Htool.
  apply (fold_left_reach Q (addDockerEntry protoText) dockerData
           (fileKey, analysis)); [assumption| |].
  - intros s. unfold addDockerEntry. rewrite Hflag.
    apply forEachIndexed_invariant.
    + apply (forEachIndexed_reach Q _ (apisOf analysis) index api);
        [assumption | apply Hstep |].
      intros s' y j Hj Hs'. apply (Hapi s' fileKey analysis j y); auto.
      split; assumption.
    + intros s' y j Hj Hs'. apply (Htool s' fileKey analysis j y); auto.
      split; assumption.
  - intros s [k a] Hy Hs. unfold addDockerEntry.
    destruct (DockerAnalysisResult.hasDockerIntegration a) eqn:Ha;
      [|assumption].
    apply forEachIndexed_invariant.
    + apply forEachIndexed_invariant; [assumption|].
      intros s' y j Hj Hs'. apply (Hapi s' k a j y); auto. split; assumption.
    + intros s' y j Hj Hs'. apply (Htool s' k a j y); auto. split; assumption.
Qed.

Lemma dockerPass_reach_tool (Q : BuildState -> Prop) (dockerData : DockerData)
    (st : BuildState) (fileKey : jsstring) (analysis : DockerAnalysisResult.t)
    (index : nat) (tool : jsstring) :
  integrated dockerData fileKey analysis ->
  nth_error (toolsOf analysis) index = Some tool ->
  (forall s, Q (addDockerTool protoText (fileNameOf fileKey) s tool index)) ->
  (forall s k a j api',
      integrated dockerData k a -> nth_error (apisOf a) j = Some api' ->
      Q s -> Q (addDockerApi protoText (fileNameOf k) s api' j)) ->
  (forall s k a j tool',
      integrated dockerData k a -> nth_error (toolsOf a) j = Some tool' ->
      Q s -> Q (addDockerTool protoText (fileNameOf k) s tool' j)) ->
  Q (fold_left (addDockerEntry protoText) dockerData st).
Proof.
  intros [Hin Hflag] Hnth Hstep Hapi Htool.
  apply (fold_left_reach Q (addDockerEntry protoText) dockerData
           (fileKey, analysis)); [assumption| |].
  - intros s. unfold addDockerEntry. rewrite Hflag.
    apply (forEachIndexed_reach Q _ (toolsOf analysis) index tool);
      [assumption | apply Hstep |].
    intros s' y j Hj Hs'. apply (Htool s' fileKey analysis j y); auto.
    split; assumption.
  - intros s [k a] Hy Hs. unfold addDockerEntry.
    destruct (DockerAnalysisResult.hasDockerIntegration a) eqn:Ha;
      [|assumption].
    apply forEachIndexed_invariant.
    + apply forEachIndexed_invariant; [assumption|].
      intros s' y j Hj Hs'. apply (Hapi s' k a j y); auto. split; assumption.
    + intros s' y j Hj Hs'. apply (Htool s' k a j y); auto. split; assumption.
Qed.

(** A node stored under an identifier stays, or is replaced by the
    capability node that takes the identifier. *)
Lemma addCapability_keeps (P : Node.t -> Prop) (id : jsstring)
    (node : Node.t) (edge : Edge.t) (st : BuildState) :
  (Node.id node = id -> P node) ->
  (exists n, mapGet id (fst st) = Some n /\ P n) ->
  exists n, mapGet id (fst (addCapability node edge st)) = Some n /\ P n.
Proof.
  intros Hnode (n & Hn & HP). cbn.
  destruct (list_eq_dec N.eq_dec id (Node.id node)) as [->|Hne].
  - exists node. rewrite mapGet_mapSet_same. auto.
  - exists n. rewrite mapGet_mapSet_other by assumption. auto.
Qed.

(** The capability node of every API entry of an integrated analysis is in
    the graph, under the identifier synthesized for the entry. *)
Lemma api_node_in_graph (data : list CytoscapeElement) (dockerData : DockerData)
    (fileKey : jsstring) (analysis : DockerAnalysisResult.t) (index : nat)
    (api : DockerAPI.t) :
  integrated dockerData fileKey analysis ->
  nth_error (apisOf analysis) index = Some api ->
  exists n,
    In n (initialNodes protoText data dockerData)
    /\ Node.id n = dockerApiId (fileNameOf fileKey) api index
    /\ isApiNode n.
Proof.
  intros Hint Hnth.
  set (id := dockerApiId (fileNameOf fileKey) api index).
  assert (H : exists n,
             mapGet id (fst (buildGraph protoText data dockerData)) = Some n
             /\ (Node.id n = id /\ isApiNode n)).
  { unfold buildGraph.
    apply (dockerPass_reach_api
             (fun s => exists n, mapGet id (fst s) = Some n
                                 /\ (Node.id n = id /\ isApiNode n))
             dockerData _ fileKey analysis index api Hint Hnth).
    - intros s. eexists. split; [apply mapGet_mapSet_same|].
      split; reflexivity.
    - intros s k a j api' _ _. apply addCapability_keeps.
      intros E. split; [exact E | reflexivity].
    - intros s k a j tool _ _. apply addCapability_keeps.
      intros E. exfalso. symmetry in E. revert E.
      apply dockerApiId_not_tool. }
  destruct H as (n & Hget & Hid & Hkind). exists n.
  split; [|auto]. unfold initialNodes. now apply mapGet_Some_In with (k := id).
Qed.

Lemma tool_node_in_graph (data : list CytoscapeElement)
    (dockerData : DockerData) (fileKey : jsstring)
    (analysis : DockerAnalysisResult.t) (index : nat) (tool : jsstring) :
  integrated dockerData fileKey analysis ->
  nth_error (toolsOf analysis) index = Some tool ->
  exists n,
    In n (initialNodes protoText data dockerData)
    /\ Node.id n = dockerToolId (fileNameOf fileKey) tool index
    /\ isToolNode n.
Proof.
  intros Hint Hnth.
  set (id := dockerToolId (fileNameOf fileKey) tool index).
  assert (H : exists n,
             mapGet id (fst (buildGraph protoText data dockerData)) = Some n
             /\ (Node.id n = id /\ isToolNode n)).
  { unfold buildGraph.
    apply (dockerPass_reach_tool
             (fun s => exists n, mapGet id (fst s) = Some n
                                 /\ (Node.id n = id /\ isToolNode n))
             dockerData _ fileKey analysis index tool Hint Hnth).
    - intros s. eexists. split; [apply mapGet_mapSet_same|].
      split; reflexivity.
    - intros s k a j api _ _. apply addCapability_keeps.
      intros E. exfalso. revert E. apply dockerApiId_not_tool.
    - intros s k a j tool' _ _. apply addCapability_keeps.
      intros E. split; [exact E | reflexivity]. }
  destruct H as (n & Hget & Hid & Hkind). exists n.
  split; [|auto]. unfold initialNodes. now apply mapGet_Some_In with (k := id).
Qed.

Lemma edge_id_addCapability (node : Node.t) (edge : Edge.t) (st : BuildState) :
  In (Edge.id edge) (edgeIds (snd (addCapability node edge st))).
Proof.
  cbn. destruct (findEdge (Edge.id edge) (snd st)) eqn:E.
  - now apply findEdge_true in E.
  - unfold edgeIds. rewrite map_app, in_app_iff. right. now left.
Qed.

Lemma edge_id_kept (node : Node.t) (edge : Edge.t) (st : BuildState)
    (id : jsstring) :
  In id (edgeIds (snd st)) ->
  In id (edgeIds (snd (addCapability node edge st))).
Proof.
  apply (incl_map Edge.id (proj2 (grows_addCapability node edge st))).
Qed.

(** The identifier of the capability edge of every entry of an integrated
    analysis is in the edge list. *)
Lemma api_edge_in_graph (data : list CytoscapeElement) (dockerData : DockerData)
    (fileKey : jsstring) (analysis : DockerAnalysisResult.t) (index : nat)
    (api : DockerAPI.t) :
  integrated dockerData fileKey analysis ->
  nth_error (apisOf analysis) index = Some api ->
  In (Edge.id (dockerApiEdge (fileNameOf fileKey) api index))
    (edgeIds (edgeList protoText data dockerData)).
Proof.
  intros Hint Hnth. unfold edgeList, buildGraph.
  apply (dockerPass_reach_api
           (fun s => In (Edge.id (dockerApiEdge (fileNameOf fileKey) api index))
                       (edgeIds (snd s)))
           dockerData _ fileKey analysis index api Hint Hnth).
  - intros s. apply edge_id_addCapability.
  - intros s k a j api' _ _. apply edge_id_kept.
  - intros s k a j tool _ _. apply edge_id_kept.
Qed.

Lemma tool_edge_in_graph (data : list CytoscapeElement)
    (dockerData : DockerData) (fileKey : jsstring)
    (analysis : DockerAnalysisResult.t) (index : nat) (tool : jsstring) :
  integrated dockerData fileKey analysis ->
  nth_error (toolsOf analysis) index = Some tool ->
  In (Edge.id (dockerToolEdge (fileNameOf fileKey) tool index))
    (edgeIds (edgeList protoText data dockerData)).
Proof.
  intros Hint Hnth. unfold edgeList, buildGraph.
  apply (dockerPass_reach_tool
           (fun s => In (Edge.id (dockerToolEdge (fileNameOf fileKey) tool index))
                       (edgeIds (snd s)))
           dockerData _ fileKey analysis index tool Hint Hnth).
  - intros s. apply edge_id_addCapability.
  - intros s k a j api _ _. apply edge_id_kept.
  - intros s k a j tool' _ _. apply edge_id_kept.
Qed.

End CapabilityPresence.

(** ** The capability nodes and edges of an entry, as lists *)

Section MapiFacts.

Context {A B : Type} (f : nat -> A -> B).

Lemma in_mapiFrom (i : nat) (l : list A) (y : B) :
  In y (mapiFrom f i l) <->
  exists j x, nth_error l j = Some x /\ y = f (i + j) x.
Proof.
  revert i. induction l as [|a l IH]; intros i; cbn.
  - split; [tauto|]. intros (j & x & Hj & _). destruct j; discriminate.
  - rewrite IH. split.
    + intros [<-|(j & x & Hj & ->)].
      * exists 0%nat, a. now rewrite Nat.add_0_r.
      * exists (S j), x. now rewrite Nat.add_succ_r.
    + intros ([|j] & x & Hj & ->); cbn in Hj.
      * injection Hj as ->. left. now rewrite Nat.add_0_r.
      * right. exists j, x. now rewrite Nat.add_succ_r.
Qed.

Lemma length_mapiFrom (i : nat) (l : list A) :
  List.length (mapiFrom f i l) = List.length l.
Proof. revert i. induction l; intros i; cbn; auto. Qed.

Lemma NoDup_mapiFrom (i : nat) (l : list A) :
  (forall j j' x x',
      nth_error l j = Some x -> nth_error l j' = Some x' ->
      f (i + j) x = f (i + j') x' -> j = j') ->
  NoDup (mapiFrom f i l).
Proof.
  revert i. induction l as [|a l IH]; intros i Hinj; cbn; constructor.
  - rewrite in_mapiFrom. intros (j & x & Hj & E).
    specialize (Hinj 0%nat (S j) a x eq_refl Hj).
    rewrite Nat.add_0_r, Nat.add_succ_r in Hinj. now specialize (Hinj E).
  - apply IH. intros j j' x x' Hj Hj' E.
    specialize (Hinj (S j) (S j') x x' Hj Hj').
    rewrite !Nat.add_succ_r in Hinj. specialize (Hinj E). now injection Hinj.
Qed.

End MapiFacts.

Lemma in_entryNodes (protoText : jsstring -> jsstring) (fileKey : jsstring)
    (analysis : DockerAnalysisResult.t) (n : Node.t) :
  In n (entryNodes protoText fileKey analysis)
  <-> nodeOfEntry protoText fileKey analysis n.
Proof.
  unfold entryNodes, nodeOfEntry. rewrite in_app_iff, !in_mapiFrom.
  reflexivity.
Qed.

Lemma in_entryEdges (fileKey : jsstring) (analysis : DockerAnalysisResult.t)
    (e : Edge.t) :
  In e (entryEdges fileKey analysis) <-> edgeOfEntry fileKey analysis e.
Proof.
  unfold entryEdges, edgeOfEntry. rewrite in_app_iff, !in_mapiFrom.
  reflexivity.
Qed.

Lemma length_entryNodes (protoText : jsstring -> jsstring) (fileKey : jsstring)
    (analysis : DockerAnalysisResult.t) :
  List.length (entryNodes protoText fileKey analysis)
  = (List.length (apisOf analysis) + List.length (toolsOf analysis))%nat.
Proof. unfold entryNodes. now rewrite length_app, !length_mapiFrom. Qed.

Lemma length_entryEdges (fileKey : jsstring) (analysis : DockerAnalysisResult.t) :
  List.length (entryEdges fileKey analysis)
  = (List.length (apisOf analysis) + List.length (toolsOf analysis))%nat.
Proof. unfold entryEdges. now rewrite length_app, !length_mapiFrom. Qed.

(** ** The fallback name of an API entry *)

Lemma orElse_falsy (o : option jsstring) (b : jsstring) :
  truthyOpt o = false -> orElse o b = b.
Proof. destruct o as [[|c s]|]; cbn; congruence. Qed.

Lemma apiNameOf_fallback (api : DockerAPI.t) (index : nat) :
  truthyOpt (DockerAPI.name api) = false ->
  truthyOpt (DockerAPI.apiType api) = false ->
  apiNameOf api index = lit "api_" ++ ofNat index.
Proof.
  intros Hname Htype. unfold apiNameOf. now rewrite !orElse_falsy.
Qed.

(** ** Capability completeness *)

Lemma filter_length_char {A} (p : A -> bool) (l expected : list A) :
  NoDup l -> NoDup expected ->
  (forall x, In x l /\ p x = true <-> In x expected) ->
  List.length (filter p l) = List.length expected.
Proof.
  intros Hl He Hchar. apply Nat.le_antisymm; apply NoDup_incl_length.
  - now apply NoDup_filter.
  - intros x Hx. apply filter_In in Hx. now apply Hchar.
  - assumption.
  - intros x Hx. apply filter_In. now apply Hchar.
Qed.

Lemma in_middle {A} (x y : A) (l1 l2 : list A) :
  In x (l1 ++ y :: l2) -> x = y \/ In x (l1 ++ l2).
Proof.
  rewrite !in_app_iff. cbn. intros [H|[H|H]]; auto.
Qed.

Lemma integrated_middle (before after : DockerData) (k k' : jsstring)
    (a a' : DockerAnalysisResult.t) :
  integrated (before ++ (k, a) :: after) k' a' ->
  (k' = k /\ a' = a) \/ integrated (before ++ after) k' a'.
Proof.
  intros [Hin Hflag]. apply in_middle in Hin as [[= -> ->]|Hin]; [now left|].
  right. split; assumption.
Qed.

Lemma optionIs_true (o : option jsstring) (s : jsstring) :
  optionIs o s = true <-> o = Some s.
Proof.
  destruct o as [x|]; cbn; [|split; discriminate].
  rewrite streq_eq. split; congruence.
Qed.

Section Completeness.

Variable protoText : jsstring -> jsstring.

Lemma entryNodes_id_inj (k : jsstring) (a : DockerAnalysisResult.t)
    (n n' : Node.t) :
  In n (entryNodes protoText k a) -> In n' (entryNodes protoText k a) ->
  Node.id n = Node.id n' -> n = n'.
Proof.
  rewrite !in_entryNodes.
  intros [(j & x & Hj & ->)|(j & x & Hj & ->)]
         [(j' & x' & Hj' & ->)|(j' & x' & Hj' & ->)]; cbn; intros E.
  - assert (j = j') by (now apply dockerApiId_index in E). subst j'.
    rewrite Hj in Hj'. now injection Hj' as ->.
  - now apply dockerApiId_not_tool in E.
  - symmetry in E. now apply dockerApiId_not_tool in E.
  - assert (j = j') by (now apply dockerToolId_index in E). subst j'.
    rewrite Hj in Hj'. now injection Hj' as ->.
Qed.

Lemma entryEdges_id_inj (k : jsstring) (a : DockerAnalysisResult.t)
    (e e' : Edge.t) :
  In e (entryEdges k a) -> In e' (entryEdges k a) ->
  Edge.id e = Edge.id e' -> e = e'.
Proof.
  rewrite !in_entryEdges.
  intros [(j & x & Hj & ->)|(j & x & Hj & ->)]
         [(j' & x' & Hj' & ->)|(j' & x' & Hj' & ->)]; cbn; intros E;
    apply app_inv_head in E; apply app_inv_head in E.
  - assert (j = j') by (now apply dockerApiId_index in E). subst j'.
    rewrite Hj in Hj'. now injection Hj' as ->.
  - now apply dockerApiId_not_tool in E.
  - symmetry in E. now apply dockerApiId_not_tool in E.
  - assert (j = j') by (now apply dockerToolId_index in E). subst j'.
    rewrite Hj in Hj'. now injection Hj' as ->.
Qed.

Lemma NoDup_by_key {A} (key : A -> jsstring) (l : list A) :
  NoDup (map key l) -> NoDup l.
Proof. apply NoDup_map_inv. Qed.

Lemma NoDup_entryNodes (k : jsstring) (a : DockerAnalysisResult.t) :
  NoDup (entryNodes protoText k a).
Proof.
  unfold entryNodes. apply NoDup_app.
  - apply NoDup_mapiFrom. intros j j' x x' _ _ E.
    apply (f_equal Node.id) in E. cbn in E.
    now apply dockerApiId_index in E.
  - apply NoDup_mapiFrom. intros j j' x x' _ _ E.
    apply (f_equal Node.id) in E. cbn in E.
    now apply dockerToolId_index in E.
  - intros n H1 H2. apply in_mapiFrom in H1 as (j & x & _ & ->).
    apply in_mapiFrom in H2 as (j' & x' & _ & E).
    apply (f_equal Node.id) in E. cbn in E.
    now apply dockerApiId_not_tool in E.
Qed.

Lemma NoDup_entryEdges (k : jsstring) (a : DockerAnalysisResult.t) :
  NoDup (entryEdges k a).
Proof.
  unfold entryEdges. apply NoDup_app.
  - apply NoDup_mapiFrom. intros j j' x x' _ _ E.
    apply (f_equal Edge.target) in E. cbn in E.
    now apply dockerApiId_index in E.
  - apply NoDup_mapiFrom. intros j j' x x' _ _ E.
    apply (f_equal Edge.target) in E. cbn in E.
    now apply dockerToolId_index in E.
  - intros e H1 H2. apply in_mapiFrom in H1 as (j & x & _ & ->).
    apply in_mapiFrom in H2 as (j' & x' & _ & E).
    apply (f_equal Edge.target) in E. cbn in E.
    now apply dockerApiId_not_tool in E.
Qed.

End Completeness.

Section CompletenessProof.

Variable protoText : jsstring -> jsstring.
Variable data : list CytoscapeElement.
Variables before after : DockerData.
Variable fileKey : jsstring.
Variable analysis : DockerAnalysisResult.t.

Hypothesis Hflag : DockerAnalysisResult.hasDockerIntegration analysis = true.
Hypothesis Hothers : othersApart protoText fileKey analysis (before ++ after).
Hypothesis Hraw : rawApart protoText data fileKey analysis.

Lemma entry_integrated :
  integrated (before ++ (fileKey, analysis) :: after) fileKey analysis.
Proof. split; [apply in_elt | exact Hflag]. Qed.

Lemma nodeOfEntry_sourceFile (k : jsstring) (a : DockerAnalysisResult.t)
    (n : Node.t) :
  nodeOfEntry protoText k a n ->
  NodeData.sourceFile (Node.data n) = Some (fileNameOf k).
Proof. intros [(j & x & _ & ->)|(j & x & _ & ->)]; reflexivity. Qed.

Lemma edgeOfEntry_source (k : jsstring) (a : DockerAnalysisResult.t)
    (e : Edge.t) :
  edgeOfEntry k a e -> Edge.source e = fileNameOf k.
Proof. intros [(j & x & _ & ->)|(j & x & _ & ->)]; reflexivity. Qed.

Lemma entryNodes_owned (k : jsstring) (a : DockerAnalysisResult.t) (n : Node.t) :
  In n (entryNodes protoText k a) -> ownedCapability (fileNameOf k) n = true.
Proof.
  rewrite in_entryNodes. unfold ownedCapability.
  intros [(j & x & _ & ->)|(j & x & _ & ->)]; cbn; now rewrite streq_refl.
Qed.

Lemma entryEdges_marked (k : jsstring) (a : DockerAnalysisResult.t) (e : Edge.t) :
  In e (entryEdges k a) -> capabilityEdgeFrom (fileNameOf k) e = true.
Proof.
  rewrite in_entryEdges. unfold capabilityEdgeFrom.
  intros [(j & x & _ & ->)|(j & x & _ & ->)]; cbn; now rewrite streq_refl.
Qed.

Lemma entry_node_id_in_graph (n : Node.t) :
  In n (entryNodes protoText fileKey analysis) ->
  exists n',
    In n' (initialNodes protoText data (before ++ (fileKey, analysis) :: after))
    /\ Node.id n' = Node.id n.
Proof.
  rewrite in_entryNodes. intros [(j & x & Hj & ->)|(j & x & Hj & ->)].
  - destruct (api_node_in_graph protoText data _ fileKey analysis j x
                entry_integrated Hj) as (n' & Hin & Hid & _).
    exists n'. auto.
  - destruct (tool_node_in_graph protoText data _ fileKey analysis j x
                entry_integrated Hj) as (n' & Hin & Hid & _).
    exists n'. auto.
Qed.

Lemma entry_edge_id_in_graph (e : Edge.t) :
  In e (entryEdges fileKey analysis) ->
  In (Edge.id e)
    (edgeIds (edgeList protoText data (before ++ (fileKey, analysis) :: after))).
Proof.
  rewrite in_entryEdges. intros [(j & x & Hj & ->)|(j & x & Hj & ->)].
  - exact (api_edge_in_graph protoText data _ fileKey analysis j x
             entry_integrated Hj).
  - exact (tool_edge_in_graph protoText data _ fileKey analysis j x
             entry_integrated Hj).
Qed.

(** The capability nodes the file owns in the graph are the nodes
    synthesized for the entry. *)
Lemma owned_nodes_char (n : Node.t) :
  In n (initialNodes protoText data (before ++ (fileKey, analysis) :: after))
  /\ ownedCapability (fileNameOf fileKey) n = true
  <-> In n (entryNodes protoText fileKey analysis).
Proof.
  split.
  - intros [Hin Hown].
    destruct (initialNodes_origin protoText data _ n Hin)
      as [(id & ty & l & sf & Hd & ->)|(k' & a' & Hint & Hentry)].
    + destruct Hraw as [Hnodes _]. destruct (Hnodes _ _ _ _ Hd) as [_ Hf].
      rewrite Hf in Hown. discriminate.
    + apply integrated_middle in Hint as [[-> ->]|Hint].
      * now apply in_entryNodes.
      * exfalso. destruct (Hothers k' a' Hint) as (Hne & _). apply Hne.
        unfold ownedCapability in Hown. apply andb_true_iff in Hown as [_ Hs].
        apply optionIs_true in Hs.
        rewrite (nodeOfEntry_sourceFile k' a' n Hentry) in Hs. congruence.
  - intros Hexp. split; [|exact (entryNodes_owned fileKey analysis n Hexp)].
    destruct (entry_node_id_in_graph n Hexp) as (n' & Hin & Hid).
    destruct (initialNodes_origin protoText data _ n' Hin)
      as [(id & ty & l & sf & Hd & ->)|(k' & a' & Hint & Hentry)].
    + exfalso. destruct Hraw as [Hnodes _].
      destruct (Hnodes _ _ _ _ Hd) as [Hfresh _]. apply Hfresh.
      cbn in Hid. rewrite Hid. unfold nodeIds. now apply in_map.
    + apply integrated_middle in Hint as [[-> ->]|Hint].
      * apply in_entryNodes in Hentry.
        now rewrite <- (entryNodes_id_inj protoText _ _ n' n Hentry Hexp Hid).
      * exfalso. destruct (Hothers k' a' Hint) as (_ & Hids & _).
        apply in_entryNodes in Hentry.
        apply (Hids n n' Hexp Hentry). congruence.
Qed.

(** The capability edges from the file in the graph are the edges
    synthesized for the entry. *)
Lemma capability_edges_char (e : Edge.t) :
  In e (edgeList protoText data (before ++ (fileKey, analysis) :: after))
  /\ capabilityEdgeFrom (fileNameOf fileKey) e = true
  <-> In e (entryEdges fileKey analysis).
Proof.
  split.
  - intros [Hin Hmark].
    destruct (edgeList_origin protoText data _ e Hin)
      as [(s & t & ty & Hd & ->)|(k' & a' & Hint & Hentry)].
    + destruct Hraw as [_ Hedges]. destruct (Hedges _ _ _ Hd) as [_ Hf].
      rewrite Hf in Hmark. discriminate.
    + apply integrated_middle in Hint as [[-> ->]|Hint].
      * now apply in_entryEdges.
      * exfalso. destruct (Hothers k' a' Hint) as (Hne & _). apply Hne.
        unfold capabilityEdgeFrom in Hmark.
        apply andb_true_iff in Hmark as [Hs _]. apply streq_eq in Hs.
        rewrite (edgeOfEntry_source k' a' e Hentry) in Hs. congruence.
  - intros Hexp. split; [|exact (entryEdges_marked fileKey analysis e Hexp)].
    pose proof (entry_edge_id_in_graph e Hexp) as Hid.
    unfold edgeIds in Hid. apply in_map_iff in Hid as (e' & Hid & Hin).
    destruct (edgeList_origin protoText data _ e' Hin)
      as [(s & t & ty & Hd & ->)|(k' & a' & Hint & Hentry)].
    + exfalso. destruct Hraw as [_ Hedges].
      destruct (Hedges _ _ _ Hd) as [Hfresh _]. apply Hfresh.
      cbn in Hid. rewrite Hid. unfold edgeIds. now apply in_map.
    + apply integrated_middle in Hint as [[-> ->]|Hint].
      * apply in_entryEdges in Hentry.
        now rewrite <- (entryEdges_id_inj _ _ e' e Hentry Hexp Hid).
      * exfalso. destruct (Hothers k' a' Hint) as (_ & _ & Hids).
        apply in_entryEdges in Hentry.
        apply (Hids e e' Hexp Hentry). congruence.
Qed.

End CompletenessProof.

Lemma NoDup_initialNodes (protoText : jsstring -> jsstring)
    (data : list CytoscapeElement) (dockerData : DockerData) :
  NoDup (initialNodes protoText data dockerData).
Proof.
  apply (NoDup_by_key Node.id). fold (nodeIds (initialNodes protoText data dockerData)).
  rewrite nodeIds_initialNodes. apply wellFormed_buildGraph.
Qed.

Lemma NoDup_edgeList (protoText : jsstring -> jsstring)
    (data : list CytoscapeElement) (dockerData : DockerData) :
  NoDup (edgeList protoText data dockerData).
Proof.
  apply (NoDup_by_key Edge.id). apply wellFormed_buildGraph.
Qed.

(** C4 (amended). Take an entry of the analysis map with
    [hasDockerIntegration] true, [N] API and tool entries in all, and the
    file its key strips to. When no other integrated entry is about the same
    file or synthesizes one of its identifiers, and no raw element is a
    capability node or edge of the file or carries one of these identifiers,
    the graph has exactly [N] capability nodes owned by the file, one of kind
    [docker_api] per API entry and one of kind [docker_tool] per tool entry,
    and exactly [N] capability edges whose source is the file. *)
Theorem capability_completeness (protoText : jsstring -> jsstring)
    (data : list CytoscapeElement) (before after : DockerData)
    (fileKey : jsstring) (analysis : DockerAnalysisResult.t) :
  DockerAnalysisResult.hasDockerIntegration analysis = true ->
  othersApart protoText fileKey analysis (before ++ after) ->
  rawApart protoText data fileKey analysis ->
  List.length
    (filter (ownedCapability (fileNameOf fileKey))
       (initialNodes protoText data (before ++ (fileKey, analysis) :: after)))
  = (List.length (apisOf analysis) + List.length (toolsOf analysis))%nat
  /\ List.length
       (filter (ownedKind (fileNameOf fileKey) (lit "docker_api"))
          (initialNodes protoText data (before ++ (fileKey, analysis) :: after)))
     = List.length (apisOf analysis)
  /\ List.length
       (filter (ownedKind (fileNameOf fileKey) (lit "docker_tool"))
          (initialNodes protoText data (before ++ (fileKey, analysis) :: after)))
     = List.length (toolsOf analysis)
  /\ List.length
       (filter (capabilityEdgeFrom (fileNameOf fileKey))
          (edgeList protoText data (before ++ (fileKey, analysis) :: after)))
     = (List.length (apisOf analysis) + List.length (toolsOf analysis))%nat.
Proof.
  intros Hflag Hothers Hraw.
  pose proof (owned_nodes_char protoText data before after fileKey analysis
                Hflag Hothers Hraw) as Hnodes.
  pose proof (capability_edges_char protoText data before after fileKey
                analysis Hflag Hothers Hraw) as Hedges.
  pose proof (NoDup_entryNodes protoText fileKey analysis) as Hnd.
  unfold entryNodes in Hnd. pose proof Hnd as Hnd'.
  apply NoDup_app_remove_l in Hnd. apply NoDup_app_remove_r in Hnd'.
  split; [|split; [|split]].
  - rewrite <- (length_entryNodes protoText fileKey analysis).
    apply filter_length_char;
      [apply NoDup_initialNodes | apply NoDup_entryNodes | exact Hnodes].
  - rewrite <- (length_mapiFrom
                  (fun i api => dockerApiNode protoText (fileNameOf fileKey) api i)
                  0 (apisOf analysis)).
    apply filter_length_char; [apply NoDup_initialNodes | exact Hnd' |].
    intros n. unfold ownedKind. rewrite andb_true_iff. split.
    + intros (Hin & Hkind & Hown).
      assert (H : In n (entryNodes protoText fileKey analysis))
        by (apply Hnodes; auto).
      apply in_app_or in H as [H|H]; [assumption|].
      apply in_mapiFrom in H as (j & x & _ & ->). cbn in Hkind.
      vm_compute in Hkind. discriminate Hkind.
    + intros H.
      assert (H' : In n (entryNodes protoText fileKey analysis))
        by (apply in_or_app; now left).
      apply Hnodes in H' as [Hin Hown]. split; [assumption|].
      split; [|assumption].
      apply in_mapiFrom in H as (j & x & _ & ->). reflexivity.
  - rewrite <- (length_mapiFrom
                  (fun i tool => dockerToolNode protoText (fileNameOf fileKey) tool i)
                  0 (toolsOf analysis)).
    apply filter_length_char; [apply NoDup_initialNodes | exact Hnd |].
    intros n. unfold ownedKind. rewrite andb_true_iff. split.
    + intros (Hin & Hkind & Hown).
      assert (H : In n (entryNodes protoText fileKey analysis))
        by (apply Hnodes; auto).
      apply in_app_or in H as [H|H]; [|assumption].
      apply in_mapiFrom in H as (j & x & _ & ->). cbn in Hkind.
      vm_compute in Hkind. discriminate Hkind.
    + intros H.
      assert (H' : In n (entryNodes protoText fileKey analysis))
        by (apply in_or_app; now right).
      apply Hnodes in H' as [Hin Hown]. split; [assumption|].
      split; [|assumption].
      apply in_mapiFrom in H as (j & x & _ & ->). reflexivity.
  - rewrite <- (length_entryEdges fileKey analysis).
    apply filter_length_char;
      [apply NoDup_edgeList | apply NoDup_entryEdges | exact Hedges].
Qed.

Lemma capability_completeness_witness :
  DockerAnalysisResult.hasDockerIntegration scenarioB_analysis = true
  /\ othersApart v8ProtoText (lit "github:a.ts") scenarioB_analysis []
  /\ rawApart v8ProtoText scenarioB_data (lit "github:a.ts") scenarioB_analysis
  /\ List.length
       (filter (ownedCapability (lit "a.ts"))
          (initialNodes v8ProtoText scenarioB_data scenarioB_docker)) = 2%nat
  /\ List.length
       (filter (capabilityEdgeFrom (lit "a.ts"))
          (edgeList v8ProtoText scenarioB_data scenarioB_docker)) = 2%nat.
Proof.
  assert (Hothers : othersApart v8ProtoText (lit "github:a.ts")
                      scenarioB_analysis [])
    by (intros k a [[] _]).
  assert (Hraw : rawApart v8ProtoText scenarioB_data (lit "github:a.ts")
                   scenarioB_analysis).
  { split.
    - intros id ty l sf [H|[]]. injection H as <- <- <- <-. split.
      + vm_compute. intros [H|[H|[]]]; discriminate H.
      + reflexivity.
    - intros s t ty [H|[]]. discriminate H. }
  split; [reflexivity|]. split; [exact Hothers|]. split; [exact Hraw|].
  destruct (capability_completeness v8ProtoText scenarioB_data [] []
              (lit "github:a.ts") scenarioB_analysis eq_refl Hothers Hraw)
    as (Hn & _ & _ & He).
  split; [exact Hn | exact He].
Defined.

(** With two keys for the same file, one capability each, the file owns two
    capability nodes and has two capability edges, not the one of either
    entry. *)
Lemma capability_completeness_counterexample :
  DockerAnalysisResult.hasDockerIntegration
    (exampleAnalysis true [namedApi (lit "dockerReadFile")] []) = true
  /\ In (lit "github:a.ts",
         exampleAnalysis true [namedApi (lit "dockerReadFile")] [])
       twoSources
  /\ List.length
       (filter (ownedCapability (fileNameOf (lit "github:a.ts")))
          (initialNodes v8ProtoText scenarioB_data twoSources))
     <> (List.length
           (apisOf (exampleAnalysis true [namedApi (lit "dockerReadFile")] []))
         + List.length
             (toolsOf (exampleAnalysis true [namedApi (lit "dockerReadFile")] [])))%nat
  /\ List.length
       (filter (capabilityEdgeFrom (fileNameOf (lit "github:a.ts")))
          (edgeList v8ProtoText scenarioB_data twoSources))
     <> (List.length
           (apisOf (exampleAnalysis true [namedApi (lit "dockerReadFile")] []))
         + List.length
             (toolsOf (exampleAnalysis true [namedApi (lit "dockerReadFile")] [])))%nat.
Proof.
  split; [reflexivity|]. split; [left; reflexivity|].
  split; vm_compute; discriminate.
Qed.

(** ** Running the layout again on the same request *)

Lemma mapSet_same_value {V} (k : jsstring) (v : V) (m : Map V) :
  mapGet k m = Some v -> mapSet k v m = m.
Proof.
  induction m as [|[k' v'] m IH]; cbn; [discriminate|].
  destruct (streq k' k) eqn:E.
  - intros [= ->]. apply streq_eq in E. now subst.
  - intros H. now rewrite IH.
Qed.

Lemma mapGet_app_present {V} (k : jsstring) (v : V) (m m' : Map V) :
  mapGet k m = Some v -> mapGet k (m ++ m') = Some v.
Proof.
  induction m as [|[k' v'] m IH]; cbn; [discriminate|].
  now destruct (streq k' k).
Qed.

Lemma ensureNode_keeps (v k : jsstring) (l : option (Z * Z)) (g : Dagre.Graph) :
  mapGet k (Dagre.nodes g) = Some l ->
  mapGet k (Dagre.nodes (Dagre.ensureNode v g)) = Some l.
Proof.
  unfold Dagre.ensureNode. destruct (mapGet v (Dagre.nodes g)); [auto|].
  cbn. apply mapGet_app_present.
Qed.

Lemma setEdge_keeps_node (v w k : jsstring) (l : option (Z * Z))
    (g : Dagre.Graph) :
  mapGet k (Dagre.nodes g) = Some l ->
  mapGet k (Dagre.nodes (Dagre.setEdge v w g)) = Some l.
Proof.
  unfold Dagre.setEdge. destruct (Dagre.hasEdge v w g); [auto|]. cbn.
  intros H. now apply ensureNode_keeps, ensureNode_keeps.
Qed.

Lemma ensureNode_label (v : jsstring) (g : Dagre.Graph) :
  Dagre.label (Dagre.ensureNode v g) = Dagre.label g.
Proof. unfold Dagre.ensureNode. now destruct (mapGet v (Dagre.nodes g)). Qed.

Lemma ensureNode_edges (v : jsstring) (g : Dagre.Graph) :
  Dagre.edges (Dagre.ensureNode v g) = Dagre.edges g.
Proof. unfold Dagre.ensureNode. now destruct (mapGet v (Dagre.nodes g)). Qed.

Lemma setEdge_label (v w : jsstring) (g : Dagre.Graph) :
  Dagre.label (Dagre.setEdge v w g) = Dagre.label g.
Proof.
  unfold Dagre.setEdge. destruct (Dagre.hasEdge v w g); [reflexivity|].
  cbn. now rewrite !ensureNode_label.
Qed.

Lemma setEdge_has (v w : jsstring) (g : Dagre.Graph) :
  Dagre.hasEdge v w (Dagre.setEdge v w g) = true.
Proof.
  unfold Dagre.setEdge. destruct (Dagre.hasEdge v w g) eqn:E; [assumption|].
  unfold Dagre.hasEdge. cbn. rewrite existsb_app. cbn.
  now rewrite !streq_refl, orb_true_r.
Qed.

Lemma setEdge_keeps_edge (v w v' w' : jsstring) (g : Dagre.Graph) :
  Dagre.hasEdge v' w' g = true ->
  Dagre.hasEdge v' w' (Dagre.setEdge v w g) = true.
Proof.
  unfold Dagre.setEdge. destruct (Dagre.hasEdge v w g); [auto|].
  unfold Dagre.hasEdge. cbn. rewrite !ensureNode_edges, existsb_app.
  intros ->. reflexivity.
Qed.

(** After a call the dagre graph holds the request of the call. *)
Lemma layoutGraph_holds (g : Dagre.Graph) (nodes : list Node.t)
    (edges : list Edge.t) :
  holdsRequest (layoutGraph g nodes edges) nodes edges.
Proof.
  unfold layoutGraph.
  set (g0 := Dagre.setGraph (Dagre.mkLabel (lit "LR") 30 300) g).
  set (setN := fun (h : Dagre.Graph) (node : Node.t) =>
                 Dagre.setNode (Node.id node) (nodeWidth, nodeHeight) h).
  set (setE := fun (h : Dagre.Graph) (edge : Edge.t) =>
                 Dagre.setEdge (Edge.source edge) (Edge.target edge) h).
  repeat split.
  - apply fold_left_invariant.
    + now apply fold_left_invariant.
    + intros h e _ Hh. unfold setE. now rewrite setEdge_label.
  - intros node Hnode. apply fold_left_invariant.
    + apply (fold_left_reach
               (fun h => mapGet (Node.id node) (Dagre.nodes h)
                         = Some (Some (nodeWidth, nodeHeight)))
               setN nodes node); [assumption| |].
      * intros h. apply mapGet_mapSet_same.
      * intros h n' _ Hh. unfold setN. cbn.
        destruct (list_eq_dec N.eq_dec (Node.id node) (Node.id n')) as [->|Hne].
        -- apply mapGet_mapSet_same.
        -- now rewrite mapGet_mapSet_other.
    + intros h e _ Hh. now apply setEdge_keeps_node.
  - intros edge Hedge.
    apply (fold_left_reach
             (fun h => Dagre.hasEdge (Edge.source edge) (Edge.target edge) h
                       = true)
             setE edges edge); [assumption| |].
    + intros h. apply setEdge_has.
    + intros h e _ Hh. now apply setEdge_keeps_edge.
Qed.

(** A dagre graph that holds the request is not changed by the call. *)
Lemma layoutGraph_stable (g : Dagre.Graph) (nodes : list Node.t)
    (edges : list Edge.t) :
  holdsRequest g nodes edges -> layoutGraph g nodes edges = g.
Proof.
  intros (Hlabel & Hnodes & Hedges). unfold layoutGraph.
  assert (E0 : Dagre.setGraph (Dagre.mkLabel (lit "LR") 30 300) g = g).
  { destruct g as [l ns es]. cbn in *. now rewrite Hlabel. }
  rewrite E0.
  assert (E1 : fold_left
                 (fun h node =>
                    Dagre.setNode (Node.id node) (nodeWidth, nodeHeight) h)
                 nodes g = g).
  { clear - Hnodes. induction nodes as [|n ns IH]; [reflexivity|]. cbn.
    assert (E : Dagre.setNode (Node.id n) (nodeWidth, nodeHeight) g = g).
    { unfold Dagre.setNode. rewrite mapSet_same_value by (apply Hnodes; now left).
      now destruct g. }
    rewrite E. apply IH. intros. apply Hnodes. now right. }
  rewrite E1.
  clear - Hedges. induction edges as [|e es IH]; [reflexivity|]. cbn.
  assert (E : Dagre.setEdge (Edge.source e) (Edge.target e) g = g).
  { unfold Dagre.setEdge. now rewrite Hedges by (now left). }
  rewrite E. apply IH. intros. apply Hedges. now right.
Qed.

(** Loading the same data again, from the state the first load left, gives
    the same nodes, coordinates included, the same edges and the same dagre
    graph. *)
Lemma loadData_again (protoText : jsstring -> jsstring)
    (dagreLayout : Dagre.Graph -> jsstring -> Q * Q)
    (layoutThrows : Dagre.Graph -> bool) (dockerFetch : option DockerData)
    (dataFetch : option (list CytoscapeElement)) (dagreGraph : Dagre.Graph)
    (st : App.t) :
  loadData protoText dagreLayout layoutThrows dockerFetch dataFetch
    (snd (loadData protoText dagreLayout layoutThrows dockerFetch dataFetch
            dagreGraph st))
    (fst (loadData protoText dagreLayout layoutThrows dockerFetch dataFetch
            dagreGraph st))
  = loadData protoText dagreLayout layoutThrows dockerFetch dataFetch
      dagreGraph st.
Proof.
  unfold loadData. destruct dataFetch as [data|]; [|now destruct dockerFetch].
  set (dd := match dockerFetch with Some d => d | None => [] end).
  set (g := layoutGraph dagreGraph (initialNodes protoText data dd)
              (edgeList protoText data dd)).
  assert (Eg : layoutGraph g (initialNodes protoText data dd)
                 (edgeList protoText data dd) = g)
    by apply layoutGraph_stable, layoutGraph_holds.
  destruct (layoutThrows g) eqn:Et; cbn [fst snd getLayoutedElements];
    fold g; rewrite Eg, Et; now destruct dockerFetch.
Qed.

(** ** Substrings *)

Lemma startsWith_app (p s : jsstring) : startsWith p (p ++ s) = true.
Proof.
  induction p as [|c p IH]; [reflexivity|]. cbn. now rewrite N.eqb_refl, IH.
Qed.

Lemma startsWith_iff (p s : jsstring) :
  startsWith p s = true <-> exists b, s = p ++ b.
Proof.
  split.
  - revert s. induction p as [|c p IH]; intros s H.
    + now exists s.
    + destruct s as [|d s]; [discriminate|]. cbn in H.
      apply andb_true_iff in H as [Hc Hp]. apply N.eqb_eq in Hc. subst d.
      destruct (IH s Hp) as [b ->]. now exists b.
  - intros [b ->]. apply startsWith_app.
Qed.

Lemma includes_iff (p s : jsstring) :
  includes p s = true <-> exists a b, s = a ++ p ++ b.
Proof.
  split.
  - induction s as [|c s IH]; cbn; intros H.
    + apply orb_true_iff in H as [H|H]; [|discriminate].
      apply startsWith_iff in H as [b Hb]. now exists [], b.
    + apply orb_true_iff in H as [H|H].
      * apply startsWith_iff in H as [b Hb]. now exists [], b.
      * destruct (IH H) as (a & b & ->). now exists (c :: a), b.
  - intros (a & b & ->). induction a as [|c a IH].
    + cbn [app]. destruct (p ++ b) eqn:E.
      * cbn. destruct p; [reflexivity | discriminate].
      * cbn [includes]. rewrite <- E, startsWith_app. reflexivity.
    + cbn [app includes]. rewrite IH. apply orb_true_r.
Qed.

(** A string that contains [q] contains every substring of [q]. *)
Lemma includes_trans (p q s : jsstring) :
  includes p q = true -> includes q s = true -> includes p s = true.
Proof.
  rewrite !includes_iff. intros (a & b & ->) (a' & b' & ->).
  exists (a' ++ a), (b ++ b'). now rewrite <- !app_assoc.
Qed.

Lemma skipn_length_app {A} (p s : list A) : skipn (List.length p) (p ++ s) = s.
Proof. induction p as [|c p IH]; [reflexivity | exact IH]. Qed.

Lemma replace_prefix (p r s : jsstring) : replace p r (p ++ s) = r ++ s.
Proof.
  destruct (p ++ s) eqn:E.
  - destruct p; [|discriminate]. cbn in E. subst. reflexivity.
  - cbn [replace]. rewrite <- E, startsWith_app, skipn_length_app. reflexivity.
Qed.

Lemma replace_absent (p r s : jsstring) :
  includes p s = false -> replace p r s = s.
Proof.
  induction s as [|c s IH]; cbn; intros H.
  - apply orb_false_iff in H as [H _]. now rewrite H.
  - apply orb_false_iff in H as [H1 H2]. rewrite H1. now rewrite IH.
Qed.

(** ** Category inference *)

Lemma find_first {A} (p : A -> bool) (before after : list A) (x : A) :
  p x = true -> (forall y, In y before -> p y = false) ->
  find p (before ++ x :: after) = Some x.
Proof.
  intros Hx. induction before as [|y before IH]; intros Hbefore; cbn.
  - now rewrite Hx.
  - rewrite (Hbefore y (or_introl eq_refl)). apply IH.
    intros z Hz. apply Hbefore. now right.
Qed.

Lemma find_none_all {A} (p : A -> bool) (l : list A) :
  (forall y, In y l -> p y = false) -> find p l = None.
Proof.
  induction l as [|y l IH]; intros H; [reflexivity|]. cbn.
  rewrite (H y (or_introl eq_refl)). apply IH. intros z Hz. apply H. now right.
Qed.

(** The chain of tests of [getNodeType] is the first matching rule of the
    substring table. *)
Lemma pathType_substringRules (id : jsstring) :
  pathType id
  = match find (substringMatches id) substringRules with
    | Some rule => snd rule
    | None => lit "default"
    end.
Proof.
  unfold pathType, substringRules, substringMatches. simpl.
  repeat rewrite orb_false_r.
  repeat match goal with
         | |- context [if ?b then _ else _] => destruct b; simpl; try reflexivity
         end.
Qed.

Lemma getNodeType_inferred (id : jsstring) (nodeType : option jsstring) :
  validCategory nodeType = false -> prototypeName nodeType = false ->
  getNodeType id nodeType = pathType id.
Proof.
  unfold validCategory, prototypeName, getNodeType, inFileTypes.
  destruct nodeType as [t|]; [|reflexivity]. intros -> ->.
  now rewrite andb_false_r.
Qed.

(** A path segment that begins with a prefix contains it. *)
Lemma segmentPrefix_includes (prefix id : jsstring) :
  matchesPattern id (SegmentPrefix prefix) = true -> includes prefix id = true.
Proof.
  cbn [matchesPattern]. intros H. apply orb_true_iff in H as [H|H].
  - apply startsWith_iff in H as [rest ->]. apply includes_iff.
    now exists [], rest.
  - apply (includes_trans prefix (lit "/" ++ prefix)); [|exact H].
    apply includes_iff. exists (lit "/"), []. now rewrite app_nil_r.
Qed.

(** C6 (amended). For a node identifier whose explicit type is absent or is
    neither a category of [FILE_TYPES] nor the name of a member of
    [Object.prototype], the category is the one of the first rule, in the
    order pages > components > utils > lib > hooks > types > api, one of
    whose substrings occurs anywhere in the identifier, and the default
    category when no rule matches. This is the category of the rules as the
    specification words them whenever "use" occurs in the identifier only where it begins a path
    segment and ".d.ts" occurs exactly when the file name ends with ".d"
    before its extension. The two nodes of Scenario A both get the default
    category, whose label is Other. *)
Theorem getNodeType_first_match (protoText : jsstring -> jsstring)
    (id : jsstring) (nodeType : option jsstring) :
  validCategory nodeType = false ->
  prototypeName nodeType = false ->
  (forall before rule after,
      substringRules = before ++ rule :: after ->
      substringMatches id rule = true ->
      (forall earlier, In earlier before -> substringMatches id earlier = false) ->
      getNodeType id nodeType = snd rule)
  /\ ((forall rule, In rule substringRules -> substringMatches id rule = false) ->
      getNodeType id nodeType = lit "default")
  /\ ((includes (lit "use") id = true ->
       matchesPattern id (SegmentPrefix (lit "use")) = true) ->
      includes (lit ".d.ts") id = matchesPattern id (StemSuffix (lit ".d")) ->
      getNodeType id nodeType = inferCategory id)
  /\ map (fun n => (Node.id n, NodeData.fileType (Node.data n)))
       (initialNodes protoText scenarioA [])
     = [ (lit "a.ts", lit "default"); (lit "b.ts", lit "default") ]
  /\ List.length (edgeList protoText scenarioA []) = 1%nat
  /\ categoryLabel (lit "default") = Some (lit "Other").
Proof.
  intros Hvalid Hproto.
  rewrite (getNodeType_inferred id nodeType Hvalid Hproto).
  conjs.
  - intros before rule after E Hrule Hbefore.
    rewrite pathType_substringRules, E.
    now rewrite (find_first _ before after rule Hrule Hbefore).
  - intros Hnone. rewrite pathType_substringRules.
    now rewrite (find_none_all _ _ Hnone).
  - intros Huse Hd.
    assert (Euse : matchesPattern id (SegmentPrefix (lit "use"))
                   = includes (lit "use") id).
    { destruct (matchesPattern id (SegmentPrefix (lit "use"))) eqn:E.
      - symmetry. now apply segmentPrefix_includes.
      - destruct (includes (lit "use") id); [|reflexivity].
        exact (Huse eq_refl). }
    unfold inferCategory, categoryRules, ruleMatches.
    cbn [find existsb fst snd]. rewrite Euse, <- Hd.
    cbn [matchesPattern]. unfold pathType.
    repeat rewrite orb_false_r.
    repeat match goal with
           | |- context [includes ?p id] => destruct (includes p id)
           end; reflexivity.
  - vm_compute. reflexivity.
  - vm_compute. reflexivity.
  - vm_compute. reflexivity.
Qed.

Lemma getNodeType_first_match_witness :
  validCategory (Some (lit "file")) = false
  /\ prototypeName (Some (lit "file")) = false
  /\ getNodeType (lit "src/components/useThing.ts") (Some (lit "file"))
     = lit "components".
Proof.
  split; [reflexivity|]. split; [reflexivity|].
  refine (proj1 (getNodeType_first_match v8ProtoText
                   (lit "src/components/useThing.ts") (Some (lit "file"))
                   eq_refl eq_refl)
            [([lit "pages/"; lit "app/"], lit "pages")]
            ([lit "components/"], lit "components")
            _ eq_refl eq_refl _).
  intros earlier [<-|[]]. reflexivity.
Defined.

(** The specification's rules and the code part on an identifier that contains "use"
    inside a path segment, and on one that contains ".d.ts" before a further
    extension; an explicit type that names a member of [Object.prototype] is
    returned as the category although it is none. *)
Lemma category_patterns_counterexample :
  (validCategory None = false
   /\ getNodeType (lit "src/house.ts") None = lit "hooks"
   /\ inferCategory (lit "src/house.ts") = lit "default")
  /\ (getNodeType (lit "src/a.d.ts.map") None = lit "types"
      /\ inferCategory (lit "src/a.d.ts.map") = lit "default")
  /\ (validCategory (Some (lit "constructor")) = false
      /\ getNodeType (lit "a.ts") (Some (lit "constructor"))
         = lit "constructor"
      /\ inferCategory (lit "a.ts") = lit "default").
Proof. repeat split; vm_compute; reflexivity. Qed.

(** ** The cache key of the server and the file name the page strips it to *)

(** X1. The page recovers the file from the key the server caches its
    analysis under: for the [github] source always, for any other source
    when the file path does not contain [github:]. The capability nodes and
    edges built for an analysis stored under that key then name this very
    file as their source file and as their source. *)
Theorem cacheKey_stripped (source file : jsstring) :
  streq source (lit "github") = true \/ includes (lit "github:") file = false ->
  fileNameOf (cacheKey source file) = file
  /\ forall (protoText : jsstring -> jsstring)
       (analysis : DockerAnalysisResult.t),
       (forall n,
           In n (entryNodes protoText (cacheKey source file) analysis) ->
           NodeData.sourceFile (Node.data n) = Some file)
       /\ (forall e,
             In e (entryEdges (cacheKey source file) analysis) ->
             Edge.source e = file).
Proof.
  intros H.
  assert (E : fileNameOf (cacheKey source file) = file).
  { unfold cacheKey, fileNameOf.
    destruct (streq source (lit "github")) eqn:Es.
    - apply (replace_prefix (lit "github:") [] file).
    - destruct H as [H|H]; [discriminate|]. now apply replace_absent. }
  split; [exact E|]. intros protoText analysis. split.
  - intros n Hn. unfold entryNodes in Hn. rewrite E in Hn.
    apply in_app_or in Hn as [Hn|Hn]; apply in_mapiFrom in Hn
      as (j & x & _ & ->); reflexivity.
  - intros e He. unfold entryEdges in He. rewrite E in He.
    apply in_app_or in He as [He|He]; apply in_mapiFrom in He
      as (j & x & _ & ->); reflexivity.
Qed.

Lemma cacheKey_stripped_witness :
  (streq (lit "github") (lit "github") = true
   \/ includes (lit "github:") (lit "src/a.ts") = false)
  /\ fileNameOf (cacheKey (lit "github") (lit "src/a.ts")) = lit "src/a.ts".
Proof.
  assert (H : streq (lit "github") (lit "github") = true
              \/ includes (lit "github:") (lit "src/a.ts") = false)
    by (left; reflexivity).
  split; [exact H|].
  exact (proj1 (cacheKey_stripped (lit "github") (lit "src/a.ts") H)).
Defined.

(** ** The API configuration *)

(** X2. An endpoint is joined to the base URL with exactly one slash of its
    own: with or without a leading slash it gives the same URL, which is the
    base followed by the endpoint with its leading slash. Each of the three
    endpoints of [API_ENDPOINTS] is appended to the base as it is. *)
Theorem getApiUrl_leading_slash (envUrl : option jsstring)
    (location : option (jsstring * jsstring)) (endpoint : jsstring) :
  startsWith (lit "/") endpoint = false ->
  API_CONFIG.getApiUrl envUrl location endpoint
  = API_CONFIG.getApiUrl envUrl location (lit "/" ++ endpoint)
  /\ API_CONFIG.getApiUrl envUrl location (lit "/" ++ endpoint)
     = API_CONFIG.getApiBaseUrl envUrl location ++ lit "/" ++ endpoint
  /\ forall known,
       In known API_ENDPOINTS ->
       API_CONFIG.getApiUrl envUrl location known
       = API_CONFIG.getApiBaseUrl envUrl location ++ known.
Proof.
  intros H. unfold API_CONFIG.getApiUrl. rewrite H.
  rewrite (startsWith_app (lit "/") endpoint). conjs; try reflexivity.
  intros known [<-|[<-|[<-|[]]]]; reflexivity.
Qed.

Lemma getApiUrl_leading_slash_witness :
  startsWith (lit "/") (lit "api/summaries") = false
  /\ API_CONFIG.getApiUrl None None (lit "api/summaries")
     = API_CONFIG.getApiUrl None None (lit "/" ++ lit "api/summaries").
Proof.
  split; [reflexivity|].
  exact (proj1 (getApiUrl_leading_slash None None (lit "api/summaries")
                  eq_refl)).
Defined.

(** ** The generator of the raw elements *)

Lemma app_snoc_split {A} (l l1 l2 : list A) (x y : A) :
  l ++ [x] = l1 ++ y :: l2 ->
  (l2 = [] /\ l = l1 /\ x = y)
  \/ exists l2', l2 = l2' ++ [x] /\ l = l1 ++ y :: l2'.
Proof.
  destruct l2 as [|z l2] using rev_ind; intros H.
  - left. apply app_inj_tail in H as [-> ->]. now repeat split.
  - right. clear IHl2. exists l2.
    change (l1 ++ y :: l2 ++ [z]) with (l1 ++ (y :: l2) ++ [z]) in H.
    rewrite app_assoc in H. apply app_inj_tail in H as [-> ->]. now split.
Qed.

Lemma nodeElementIds_app (l l' : list Cruise.Element) :
  Cruise.nodeElementIds (l ++ l')
  = Cruise.nodeElementIds l ++ Cruise.nodeElementIds l'.
Proof. apply flat_map_app. Qed.

Lemma setHas_In (x : jsstring) (s : JSSet) : setHas x s = true <-> In x s.
Proof. apply existsb_streq_In. Qed.

Lemma edgesFollowNodes_snoc_node (els : list Cruise.Element)
    (id label type : jsstring) :
  edgesFollowNodes els -> edgesFollowNodes (els ++ [Cruise.ElNode id label type]).
Proof.
  intros H before eid s t ty after E.
  apply app_snoc_split in E as [(_ & _ & E)|(after' & _ & E)]; [discriminate|].
  exact (H _ _ _ _ _ _ E).
Qed.

Section ConvertFacts.

Variable basename : jsstring -> jsstring.
Variable dirname : jsstring -> jsstring.

Lemma addNode_invariant (id : jsstring) (st : Cruise.ConvertState) :
  convertInvariant st ->
  convertInvariant (Cruise.addNode basename dirname id st)
  /\ In id (snd (Cruise.addNode basename dirname id st))
  /\ incl (snd st) (snd (Cruise.addNode basename dirname id st))
  /\ incl (fst st) (fst (Cruise.addNode basename dirname id st))
  /\ filter Cruise.isEdgeElement (fst (Cruise.addNode basename dirname id st))
     = filter Cruise.isEdgeElement (fst st).
Proof.
  intros Hinv. pose proof Hinv as (H1 & H2 & H3).
  unfold Cruise.addNode.
  destruct (setHas id (snd st)) eqn:E.
  - apply setHas_In in E. conjs; auto using incl_refl.
  - assert (Hn : ~ In id (snd st)).
    { intros Hin. apply setHas_In in Hin. congruence. }
    unfold setAdd. rewrite E. unfold convertInvariant. cbn [fst snd]. conjs.
    + rewrite nodeElementIds_app, <- H1. reflexivity.
    + apply NoDup_app; [assumption | repeat constructor; intros [] | ].
      intros x Hx [<-|[]]. contradiction.
    + now apply edgesFollowNodes_snoc_node.
    + apply in_or_app. right. now left.
    + now apply incl_appl, incl_refl.
    + now apply incl_appl, incl_refl.
    + rewrite filter_app. cbn. apply app_nil_r.
Qed.

Lemma addDependency_invariant (moduleId : jsstring) (dep : Cruise.Dependency)
    (st : Cruise.ConvertState) :
  convertInvariant st -> In moduleId (snd st) ->
  convertInvariant (Cruise.addDependency basename dirname moduleId st dep)
  /\ incl (snd st) (snd (Cruise.addDependency basename dirname moduleId st dep))
  /\ incl (fst st) (fst (Cruise.addDependency basename dirname moduleId st dep))
  /\ In (Cruise.ElEdge (moduleId ++ lit "->" ++ Cruise.resolved dep) moduleId
           (Cruise.resolved dep)
           (Cruise.getDependencyType (Cruise.dependencyTypes dep)))
       (fst (Cruise.addDependency basename dirname moduleId st dep))
  /\ List.length
       (filter Cruise.isEdgeElement (fst (Cruise.addDependency basename dirname moduleId st dep)))
     = S (List.length (filter Cruise.isEdgeElement (fst st))).
Proof.
  intros Hinv Hm. unfold Cruise.addDependency.
  destruct (addNode_invariant (Cruise.resolved dep) st Hinv)
    as ((H1 & H2 & H3) & Ht & Hincl & Hels & Hedges).
  set (st1 := Cruise.addNode basename dirname (Cruise.resolved dep) st) in *.
  unfold convertInvariant. cbn [fst snd]. conjs.
  - rewrite nodeElementIds_app. cbn. now rewrite app_nil_r.
  - assumption.
  - intros before eid s t ty after E.
    apply app_snoc_split in E as [(_ & <- & E)|(after' & _ & E)].
    + injection E as <- <- <- _. rewrite <- H1. conjs; auto.
    + exact (H3 _ _ _ _ _ _ E).
  - assumption.
  - now apply incl_appl.
  - apply in_or_app. right. now left.
  - rewrite filter_app, length_app, Hedges. cbn. lia.
Qed.

Lemma addModule_invariant (module : Cruise.Module_) (st : Cruise.ConvertState) :
  convertInvariant st ->
  convertInvariant (Cruise.addModule basename dirname st module)
  /\ In (Cruise.source module) (snd (Cruise.addModule basename dirname st module))
  /\ incl (snd st) (snd (Cruise.addModule basename dirname st module))
  /\ incl (fst st) (fst (Cruise.addModule basename dirname st module))
  /\ (forall dep,
        In dep (Cruise.dependencies module) ->
        In (Cruise.ElEdge
              (Cruise.source module ++ lit "->" ++ Cruise.resolved dep)
              (Cruise.source module) (Cruise.resolved dep)
              (Cruise.getDependencyType (Cruise.dependencyTypes dep)))
          (fst (Cruise.addModule basename dirname st module)))
  /\ List.length (filter Cruise.isEdgeElement (fst (Cruise.addModule basename dirname st module)))
     = List.length (filter Cruise.isEdgeElement (fst st))
       + List.length (Cruise.dependencies module).
Proof.
  intros Hinv. unfold Cruise.addModule.
  destruct (addNode_invariant (Cruise.source module) st Hinv)
    as (Hinv1 & Hs & Hincl & Hels & Hedges).
  set (st1 := Cruise.addNode basename dirname (Cruise.source module) st) in *.
  rewrite <- Hedges. clear Hedges.
  assert (G : forall deps s,
             convertInvariant s -> In (Cruise.source module) (snd s) ->
             let s' := fold_left (Cruise.addDependency basename dirname (Cruise.source module)) deps s in
             convertInvariant s'
             /\ incl (snd s) (snd s') /\ incl (fst s) (fst s')
             /\ (forall dep,
                   In dep deps ->
                   In (Cruise.ElEdge
                         (Cruise.source module ++ lit "->" ++ Cruise.resolved dep)
                         (Cruise.source module) (Cruise.resolved dep)
                         (Cruise.getDependencyType (Cruise.dependencyTypes dep)))
                     (fst s'))
             /\ List.length (filter Cruise.isEdgeElement (fst s'))
                = List.length (filter Cruise.isEdgeElement (fst s))
                  + List.length deps).
  { induction deps as [|d deps IH]; intros s Hs1 Hs2; cbn.
    - conjs; auto using incl_refl. intros _ [].
    - destruct (addDependency_invariant (Cruise.source module) d s Hs1 Hs2)
        as (Ha & Hb & Hc & Hd & He).
      destruct (IH _ Ha (Hb _ Hs2)) as (Ia & Ib & Ic & Id & Ie).
      conjs.
      + assumption.
      + eapply incl_tran; eassumption.
      + eapply incl_tran; eassumption.
      + intros dep [<-|Hdep]; [now apply Ic | now apply Id].
      + rewrite Ie, He. lia. }
  destruct (G (Cruise.dependencies module) st1 Hinv1 Hs)
    as (Ga & Gb & Gc & Gd & Ge).
  conjs; auto.
  - eapply incl_tran; eassumption.
  - eapply incl_tran; eassumption.
Qed.

Lemma totalDependencies_from (modules : list Cruise.Module_) (n : nat) :
  fold_left (fun sum mod_ => sum + List.length (Cruise.dependencies mod_))
    modules n
  = n + Cruise.totalDependencies modules.
Proof.
  unfold Cruise.totalDependencies. revert n.
  induction modules as [|m ms IH]; intros n; cbn; [lia|].
  rewrite (IH (n + _)), (IH (List.length _)). lia.
Qed.

Lemma convert_invariant (modules : list Cruise.Module_)
    (st : Cruise.ConvertState) :
  convertInvariant st ->
  let st' := fold_left (Cruise.addModule basename dirname) modules st in
  convertInvariant st'
  /\ incl (snd st) (snd st') /\ incl (fst st) (fst st')
  /\ (forall m, In m modules -> In (Cruise.source m) (snd st'))
  /\ (forall m dep,
        In m modules -> In dep (Cruise.dependencies m) ->
        In (Cruise.ElEdge (Cruise.source m ++ lit "->" ++ Cruise.resolved dep)
              (Cruise.source m) (Cruise.resolved dep)
              (Cruise.getDependencyType (Cruise.dependencyTypes dep)))
          (fst st'))
  /\ List.length (filter Cruise.isEdgeElement (fst st'))
     = List.length (filter Cruise.isEdgeElement (fst st))
       + Cruise.totalDependencies modules.
Proof.
  revert st. induction modules as [|m ms IH]; intros st Hinv; cbn.
  - conjs; auto using incl_refl; try (intros; contradiction);
      try (unfold Cruise.totalDependencies; cbn; lia).
  - destruct (addModule_invariant m st Hinv) as (Ha & Hb & Hc & Hd & He & Hf).
    destruct (IH _ Ha) as (Ia & Ib & Ic & Id & Ie & If').
    conjs.
    + assumption.
    + eapply incl_tran; eassumption.
    + eapply incl_tran; eassumption.
    + intros m' [<-|Hm]; [now apply Ib | now apply Id].
    + intros m' dep [<-|Hm] Hdep; [apply Ic; now apply He | now apply Ie].
    + rewrite If', Hf.
      change (Cruise.totalDependencies (m :: ms))
        with (fold_left
                (fun sum mod_ => sum + List.length (Cruise.dependencies mod_))
                ms (0 + List.length (Cruise.dependencies m))).
      rewrite totalDependencies_from. lia.
Qed.

Lemma convertInvariant_start : convertInvariant ([], []).
Proof.
  unfold convertInvariant. conjs; [reflexivity | constructor |].
  intros before id source target type after E. destruct before; discriminate.
Qed.

End ConvertFacts.

(** X3. The element list the generator writes is well formed: no two node
    elements share an identifier; every edge element has the identifier
    [source->target] and comes after the node elements of both its
    endpoints; every module has a node element, every dependency an edge
    element, and the number of edge elements is the total number of
    dependencies. *)
Theorem convertToCytoscapeFormat_well_formed
    (basename dirname : jsstring -> jsstring) (modules : list Cruise.Module_) :
  let elements := Cruise.convertToCytoscapeFormat basename dirname modules in
  NoDup (Cruise.nodeElementIds elements)
  /\ edgesFollowNodes elements
  /\ (forall m,
        In m modules -> In (Cruise.source m) (Cruise.nodeElementIds elements))
  /\ (forall m dep,
        In m modules -> In dep (Cruise.dependencies m) ->
        In (Cruise.ElEdge (Cruise.source m ++ lit "->" ++ Cruise.resolved dep)
              (Cruise.source m) (Cruise.resolved dep)
              (Cruise.getDependencyType (Cruise.dependencyTypes dep)))
          elements)
  /\ List.length (filter Cruise.isEdgeElement elements)
     = Cruise.totalDependencies modules.
Proof.
  unfold Cruise.convertToCytoscapeFormat.
  destruct (convert_invariant basename dirname modules ([], [])
              convertInvariant_start)
    as ((H1 & H2 & H3) & _ & _ & Hm & Hd & Hn).
  cbn zeta. conjs.
  - now rewrite <- H1.
  - assumption.
  - intros m Hin. rewrite <- H1. now apply Hm.
  - assumption.
  - exact Hn.
Qed.

Lemma generated_edge_sources (basename dirname : jsstring -> jsstring)
    (modules : list Cruise.Module_) (id source target type : jsstring) :
  In (Cruise.ElEdge id source target type)
    (Cruise.convertToCytoscapeFormat basename dirname modules) ->
  exists m, In m modules /\ source = Cruise.source m.
Proof.
  unfold Cruise.convertToCytoscapeFormat.
  set (P := fun st : Cruise.ConvertState =>
              In (Cruise.ElEdge id source target type) (fst st) ->
              exists m, In m modules /\ source = Cruise.source m).
  assert (Hnode : forall x st, P st -> P (Cruise.addNode basename dirname x st)).
  { intros x st Hst. unfold P, Cruise.addNode.
    destruct (setHas x (snd st)); [exact Hst|]. cbn [fst]. intros Hin.
    apply in_app_or in Hin as [Hin|[Hin|[]]]; [now apply Hst | discriminate]. }
  apply (fold_left_invariant P); [intros []|].
  intros st m Hm Hst. unfold Cruise.addModule.
  apply (fold_left_invariant P); [now apply Hnode|].
  intros s dep _ Hs. unfold Cruise.addDependency, P. cbn [fst]. intros Hin.
  apply in_app_or in Hin as [Hin|[Hin|[]]].
  - now apply (Hnode (Cruise.resolved dep) s Hs).
  - injection Hin as _ <- _ _. now exists m.
Qed.

Lemma length_nodeElementIds (elements : list Cruise.Element) :
  List.length (Cruise.nodeElementIds elements)
  = List.length (filter (fun el => negb (Cruise.isEdgeElement el)) elements).
Proof.
  induction elements as [|[id l t|id s t ty] els IH]; cbn; auto.
Qed.

(** X4. When no module has an empty name, the two counts the tool prints
    for the generated file are the number of node elements and the total
    number of dependencies. *)
Theorem printedCounts_generated (basename dirname : jsstring -> jsstring)
    (modules : list Cruise.Module_) :
  (forall m, In m modules -> truthy (Cruise.source m) = true) ->
  Cruise.printedCounts
    (Cruise.convertToCytoscapeFormat basename dirname modules)
  = (List.length
       (Cruise.nodeElementIds
          (Cruise.convertToCytoscapeFormat basename dirname modules)),
     Cruise.totalDependencies modules).
Proof.
  intros Hnames.
  assert (E : forall el,
             In el (Cruise.convertToCytoscapeFormat basename dirname modules) ->
             Cruise.hasSource el = Cruise.isEdgeElement el).
  { intros [id l t|id s t ty] Hel; [reflexivity|]. cbn.
    destruct (generated_edge_sources _ _ _ _ _ _ _ Hel) as (m & Hm & ->).
    now apply Hnames. }
  unfold Cruise.printedCounts. f_equal.
  - rewrite length_nodeElementIds. f_equal. apply filter_ext_in.
    intros el Hel. now rewrite (E el Hel).
  - rewrite (filter_ext_in _ _ _ E). unfold Cruise.convertToCytoscapeFormat.
    apply (convert_invariant basename dirname modules ([], [])
             convertInvariant_start).
Qed.

Lemma printedCounts_generated_witness :
  (forall m, In m twoModules -> truthy (Cruise.source m) = true)
  /\ Cruise.printedCounts
       (Cruise.convertToCytoscapeFormat (splitPop 47) (fun s => s) twoModules)
     = (2, 1).
Proof.
  assert (H : forall m, In m twoModules -> truthy (Cruise.source m) = true).
  { intros m [<-|[<-|[]]]; reflexivity. }
  split; [exact H|].
  exact (printedCounts_generated (splitPop 47) (fun s => s) twoModules H).
Defined.

(** ** The page on the generated file *)

(** X5. Every element of the generated file carries an [id], so the page
    reads each of them as a node descriptor: the graph it builds from the
    file has no dependency edge at all (its only edges are the capability
    edges of the Docker pass), and every dependency of every module shows up
    as a node whose identifier is [source->target]. *)
Theorem generated_file_has_no_dependency_edge
    (protoText basename dirname : jsstring -> jsstring)
    (modules : list Cruise.Module_) (dockerData : DockerData) :
  let data :=
    map asRawElement
      (Cruise.convertToCytoscapeFormat basename dirname modules) in
  (forall e,
      In e (edgeList protoText data dockerData) ->
      exists fileKey analysis,
        integrated dockerData fileKey analysis
        /\ edgeOfEntry fileKey analysis e)
  /\ edgeList protoText data [] = []
  /\ (forall m dep,
        In m modules -> In dep (Cruise.dependencies m) ->
        In (Cruise.source m ++ lit "->" ++ Cruise.resolved dep)
          (nodeIds (initialNodes protoText data dockerData))).
Proof.
  intros data.
  assert (Hedges : forall dd e,
             In e (edgeList protoText data dd) ->
             exists fileKey analysis,
               integrated dd fileKey analysis /\ edgeOfEntry fileKey analysis e).
  { intros dd e He.
    destruct (edgeList_origin protoText data dd e He) as [Hraw|H]; [|exact H].
    destruct Hraw as (s & t & ty & Hin & _). apply in_map_iff in Hin.
    destruct Hin as ([id l ty'|id s' t' ty'] & Hx & _); discriminate. }
  conjs.
  - apply Hedges.
  - destruct (edgeList protoText data []) as [|e l] eqn:E; [reflexivity|].
    destruct (Hedges [] e) as (k & a & [[] _] & _). rewrite E. now left.
  - intros m dep Hm Hdep. apply declared_in_graph.
    exists (Some (Cruise.getDependencyType (Cruise.dependencyTypes dep))),
      None, None.
    apply (in_map asRawElement _
             (Cruise.ElEdge
                (Cruise.source m ++ lit "->" ++ Cruise.resolved dep)
                (Cruise.source m) (Cruise.resolved dep)
                (Cruise.getDependencyType (Cruise.dependencyTypes dep)))).
    unfold Cruise.convertToCytoscapeFormat.
    now apply (convert_invariant basename dirname modules ([], [])
                 convertInvariant_start).
Qed.

Lemma includes_weaken (p q s : jsstring) :
  includes p q = true -> includes p s = false -> includes q s = false.
Proof.
  intros Hpq Hps. destruct (includes q s) eqn:E; [|reflexivity].
  now rewrite (includes_trans p q s Hpq E) in Hps.
Qed.

(** X6. The category the generator writes into a node element is always
    one of the page's categories, so the page shows it as written instead of
    inferring its own; the type the generator writes into an edge element is
    none, so the page infers the category of such an element from its
    identifier. A path that the page's own inference leaves in [default] is
    in [default] for the generator as well. *)
Theorem generated_categories (id filePath : jsstring)
    (dependencyTypes : list jsstring) :
  getNodeType id (Some (Cruise.getFileType filePath))
  = Cruise.getFileType filePath
  /\ getNodeType id (Some (Cruise.getDependencyType dependencyTypes))
     = pathType id
  /\ (pathType filePath = lit "default" ->
      Cruise.getFileType filePath = lit "default").
Proof.
  conjs.
  - unfold Cruise.getFileType.
    repeat match goal with
           | |- context [if ?b then _ else _] => destruct b
           end; reflexivity.
  - unfold Cruise.getDependencyType.
    repeat match goal with
           | |- context [if ?b then _ else _] => destruct b
           end; reflexivity.
  - intros H. unfold pathType in H. unfold Cruise.getFileType.
    repeat (match type of H with
            | context [includes ?p filePath] =>
                destruct (includes p filePath) eqn:?
            end;
            cbn in H; try (apply lit_inj in H; discriminate)).
    repeat match goal with
           | Hf : includes ?p filePath = false
             |- context [includes ?q filePath] =>
               rewrite (includes_weaken p q filePath eq_refl Hf)
           end.
    reflexivity.
Qed.

Lemma generated_categories_witness :
  pathType (lit "src/main.ts") = lit "default"
  /\ Cruise.getFileType (lit "src/main.ts") = lit "default".
Proof.
  split; [reflexivity|].
  exact (proj2 (proj2 (generated_categories [] (lit "src/main.ts") []))
           eq_refl).
Defined.

(** ** Names in the DOT file *)

(** X7. The name a module gets in the DOT file has the length of the module
    path and consists of ASCII letters, digits and underscores only, so it
    never holds the double quote that delimits it; sanitising a name again
    changes nothing, and a path is its own name exactly when it consists of
    such characters only. *)
Theorem safeName_safe (s : jsstring) :
  List.length (Cruise.safeName s) = List.length s
  /\ (forall c,
        In c (Cruise.safeName s) ->
        Cruise.isAlphanumeric c = true \/ c = 95%N)
  /\ ~ In 34%N (Cruise.safeName s)
  /\ Cruise.safeName (Cruise.safeName s) = Cruise.safeName s
  /\ (Cruise.safeName s = s <->
      forall c, In c s -> Cruise.isAlphanumeric c = true \/ c = 95%N).
Proof.
  assert (Hall : forall c,
             In c (Cruise.safeName s) ->
             Cruise.isAlphanumeric c = true \/ c = 95%N).
  { intros c Hc. apply in_map_iff in Hc as (d & <- & _).
    destruct (Cruise.isAlphanumeric d) eqn:E; [now left | now right]. }
  assert (Hfix : forall t,
             (forall c, In c t -> Cruise.isAlphanumeric c = true \/ c = 95%N) ->
             Cruise.safeName t = t).
  { induction t as [|c t IH]; intros Ht; [reflexivity|].
    change (Cruise.safeName (c :: t))
      with ((if Cruise.isAlphanumeric c then c else 95%N) :: Cruise.safeName t).
    rewrite IH by (intros; apply Ht; now right). f_equal.
    destruct (Ht c (or_introl eq_refl)) as [-> | ->]; reflexivity. }
  conjs.
  - apply length_map.
  - exact Hall.
  - intros H. destruct (Hall _ H); discriminate.
  - now apply Hfix.
  - split; [|apply Hfix]. intros E. rewrite <- E. exact Hall.
Qed.

(** ** The category counters and the filter buttons *)

Lemma NoDup_map_lit (l : list string) : NoDup l -> NoDup (map lit l).
Proof.
  induction 1 as [|x l Hx Hnd IH]; cbn; constructor; [|assumption].
  intros Hin. apply in_map_iff in Hin as (y & E & Hy).
  apply lit_inj in E. now subst.
Qed.

Lemma FILE_TYPES_keys :
  NoDup (mapKeys FILE_TYPES)
  /\ forall k, In k (mapKeys FILE_TYPES) -> inherited k = false.
Proof.
  split.
  - change (mapKeys FILE_TYPES)
      with (map lit [ "pages"; "components"; "utils"; "lib"; "hooks"; "types";
                      "api"; "default"; "docker_api"; "docker_tool";
                      "docker_config"; "docker_service" ]%string).
    apply NoDup_map_lit.
    repeat constructor; cbn; intuition discriminate.
  - assert (H : forallb (fun k => negb (inherited k)) (mapKeys FILE_TYPES)
                = true) by reflexivity.
    intros k Hk. rewrite forallb_forall in H. specialize (H k Hk).
    now destruct (inherited k).
Qed.

Lemma mapGet_of_pair {V} (m : Map V) (k : jsstring) (v : V) :
  NoDup (mapKeys m) -> In (k, v) m -> mapGet k m = Some v.
Proof.
  induction m as [|[k' v'] m IH]; [contradiction|]. cbn.
  intros Hnd Hin. inversion Hnd as [|? ? Hk Hnd']; subst.
  destruct Hin as [[= -> ->]|Hin]; [now rewrite streq_refl|].
  destruct (streq k' k) eqn:E; [|now apply IH].
  apply streq_eq in E. subst. exfalso. apply Hk.
  change k with (fst (k, v)). now apply in_map.
Qed.

Lemma list_sum_cons (a : nat) (l : list nat) :
  list_sum (a :: l) = a + list_sum l.
Proof. reflexivity. Qed.

Lemma sum_shown {A} (f : A -> option FilterButton.t) (g : A -> nat)
    (table : list A) :
  (forall e,
      In e table ->
      match g e with
      | 0 => f e = None
      | S _ => exists b, f e = Some b /\ shownCount b = g e
      end) ->
  list_sum (map shownCount (filterMap f table)) = list_sum (map g table).
Proof.
  induction table as [|e table IH]; intros H; [reflexivity|].
  cbn [filterMap map].
  rewrite list_sum_cons, <- IH by (intros; apply H; now right).
  specialize (H e (or_introl eq_refl)). destruct (g e) eqn:E.
  - now rewrite H.
  - destruct H as (b & -> & Hb). cbn [map]. rewrite list_sum_cons. lia.
Qed.

Lemma in_filterMap {A B} (f : A -> option B) (l : list A) (y : B) :
  In y (filterMap f l) <-> exists x, In x l /\ f x = Some y.
Proof.
  induction l as [|x l IH]; cbn.
  - split; [intros [] | intros (x & [] & _)].
  - destruct (f x) as [z|] eqn:E; cbn; rewrite IH; split.
    + intros [<-|(x' & Hx' & E')].
      * exists x. split; [now left | assumption].
      * exists x'. split; [now right | assumption].
    + intros (x' & [<-|Hx'] & E'); [left; congruence | right; now exists x'].
    + intros (x' & Hx' & E'). exists x'. split; [now right | assumption].
    + intros (x' & [<-|Hx'] & E'); [congruence | now exists x'].
Qed.

Lemma length_filter_orb {A} (p q : A -> bool) (l : list A) :
  (forall x, In x l -> p x = true -> q x = false) ->
  List.length (filter (fun x => p x || q x) l)
  = List.length (filter p l) + List.length (filter q l).
Proof.
  induction l as [|x l IH]; intros H; [reflexivity|]. cbn.
  specialize (IH (fun y Hy => H y (or_intror Hy))).
  destruct (p x) eqn:Ep; cbn.
  - rewrite (H x (or_introl eq_refl) Ep). cbn. now rewrite IH.
  - destruct (q x); cbn; rewrite IH; lia.
Qed.

(** The counts of the categories of a duplicate-free key list add up to the
    number of nodes that fall into one of them. *)
Lemma sum_category_counts (keys : list jsstring) (nodes : list Node.t) :
  NoDup keys ->
  list_sum (map (fun k => List.length (filter (ofCategory k) nodes)) keys)
  = List.length
      (filter (fun node => existsb (streq (categoryOf node)) keys) nodes).
Proof.
  induction keys as [|k keys IH]; intros Hnd.
  - cbn. induction nodes as [|n nodes IHn]; [reflexivity | exact IHn].
  - inversion Hnd as [|? ? Hk Hnd']; subst.
    change (list_sum
              (map (fun k => List.length (filter (ofCategory k) nodes))
                 (k :: keys)))
      with (List.length (filter (ofCategory k) nodes)
            + list_sum
                (map (fun k => List.length (filter (ofCategory k) nodes)) keys)).
    rewrite (IH Hnd').
    rewrite <- (length_filter_orb (ofCategory k)
                  (fun node => existsb (streq (categoryOf node)) keys)).
    + reflexivity.
    + intros node _ Hp. unfold ofCategory in Hp. apply streq_eq in Hp.
      destruct (existsb _ keys) eqn:E; [|reflexivity].
      apply existsb_streq_In in E. unfold categoryOf in E.
      rewrite Hp in E. contradiction.
Qed.

Section StatsFacts.

Variable protoText : jsstring -> jsstring.

Lemma not_inherited_proto (key : jsstring) :
  inherited key = false -> streq key (lit "__proto__") = false.
Proof.
  intros H. destruct (streq key (lit "__proto__")) eqn:E; [|reflexivity].
  apply streq_eq in E. subst. discriminate.
Qed.

Lemma countType_other (acc : Map StatValue) (type key : jsstring) :
  key <> type -> mapGet key (countType protoText acc type) = mapGet key acc.
Proof.
  intros Hne. unfold countType.
  destruct (streq type (lit "__proto__")); [reflexivity|].
  now apply mapGet_mapSet_other.
Qed.

Lemma countType_same (acc : Map StatValue) (key : jsstring) (c : nat) :
  inherited key = false -> mapGet key acc = tally c ->
  mapGet key (countType protoText acc key) = tally (S c).
Proof.
  intros Hkey Hacc. unfold countType.
  rewrite (not_inherited_proto key Hkey), mapGet_mapSet_same, Hacc, Hkey.
  destruct c as [|c]; cbn; [reflexivity|]. do 2 f_equal. lia.
Qed.

Lemma stats_from (key : jsstring) (nodes : list Node.t) (acc : Map StatValue)
    (c : nat) :
  inherited key = false -> mapGet key acc = tally c ->
  mapGet key
    (fold_left (fun acc node => countType protoText acc (categoryOf node))
       nodes acc)
  = tally (c + List.length (filter (ofCategory key) nodes)).
Proof.
  intros Hkey. revert acc c.
  induction nodes as [|n nodes IH]; intros acc c Hacc; cbn.
  - now rewrite Nat.add_0_r.
  - unfold ofCategory at 1. fold (categoryOf n).
    destruct (streq (categoryOf n) key) eqn:E.
    + apply streq_eq in E. rewrite E.
      rewrite (IH _ (S c)) by now apply countType_same.
      cbn [List.length]. f_equal. lia.
    + apply streq_neq in E. rewrite (IH _ c); [reflexivity|].
      rewrite countType_other by congruence. exact Hacc.
Qed.

Lemma statOf_stats (key : jsstring) (nodes : list Node.t) :
  inherited key = false ->
  statOf (stats protoText nodes) key
  = StatCount (List.length (filter (ofCategory key) nodes)).
Proof.
  intros Hkey. unfold statOf, stats.
  change (fun acc node =>
            countType protoText acc
              (getNodeType (Node.id node) (NodeData.nodeType (Node.data node))))
    with (fun acc node => countType protoText acc (categoryOf node)).
  rewrite (stats_from key nodes [] 0 Hkey eq_refl). cbn [Nat.add].
  now destruct (List.length (filter (ofCategory key) nodes)).
Qed.

End StatsFacts.

(** X8. The filter bar shows a button for exactly the categories of
    [FILE_TYPES] that at least one original node falls into; the number on
    the button is the number of such nodes, and the button is marked active
    when the category is in the filter set. The numbers on the buttons add
    up to the number of original nodes whose category is one of the twelve
    of [FILE_TYPES]. *)
Theorem FileTypeFilters_counts (protoText : jsstring -> jsstring)
    (originalNodes : list Node.t) (activeFilters : JSSet) :
  let buttons := FileTypeFilters (stats protoText originalNodes) activeFilters in
  (forall b,
      In b buttons ->
      mapGet (FilterButton.key b) FILE_TYPES = Some (FilterButton.config b)
      /\ FilterButton.count b
         = StatCount
             (List.length (filter (ofCategory (FilterButton.key b)) originalNodes))
      /\ 0 < List.length (filter (ofCategory (FilterButton.key b)) originalNodes)
      /\ FilterButton.isActive b = setHas (FilterButton.key b) activeFilters)
  /\ (forall node,
        In node originalNodes ->
        In (categoryOf node) (mapKeys FILE_TYPES) ->
        exists b, In b buttons /\ FilterButton.key b = categoryOf node)
  /\ list_sum (map shownCount buttons)
     = List.length
         (filter
            (fun node => existsb (streq (categoryOf node)) (mapKeys FILE_TYPES))
            originalNodes).
Proof.
  destruct FILE_TYPES_keys as [Hnd Hown].
  assert (Hbutton : forall entry,
             In entry FILE_TYPES ->
             filterButton (stats protoText originalNodes) activeFilters entry
             = match List.length (filter (ofCategory (fst entry)) originalNodes)
               with
               | 0 => None
               | S n =>
                   Some (FilterButton.mk (fst entry) (snd entry)
                           (StatCount (S n)) (setHas (fst entry) activeFilters))
               end).
  { intros entry Hentry. unfold filterButton.
    rewrite statOf_stats by (apply Hown; now apply in_map).
    now destruct (List.length (filter (ofCategory (fst entry)) originalNodes)). }
  cbn zeta. unfold FileTypeFilters. conjs.
  - intros b Hb. apply in_filterMap in Hb as (entry & Hentry & E).
    rewrite (Hbutton entry Hentry) in E.
    destruct (List.length (filter (ofCategory (fst entry)) originalNodes))
      as [|n] eqn:En; [discriminate|].
    injection E as <-.
    cbn [FilterButton.key FilterButton.config FilterButton.count
         FilterButton.isActive].
    rewrite En. conjs; try reflexivity; try lia.
    destruct entry as [k cfg]. now apply mapGet_of_pair.
  - intros node Hnode Hkey. apply in_map_iff in Hkey as ([k cfg] & Ek & Hentry).
    cbn in Ek.
    pose proof (Hbutton (k, cfg) Hentry) as E. cbn [fst snd] in E.
    destruct (List.length (filter (ofCategory k) originalNodes)) as [|n] eqn:En.
    + exfalso. apply length_zero_iff_nil in En.
      assert (Hin : In node (filter (ofCategory k) originalNodes)).
      { apply filter_In. split; [assumption|]. unfold ofCategory.
        fold (categoryOf node). rewrite <- Ek. apply streq_refl. }
      now rewrite En in Hin.
    + eexists. split; [apply in_filterMap; exists (k, cfg); split; eauto|].
      exact Ek.
  - rewrite <- (sum_category_counts _ _ Hnd). unfold mapKeys.
    rewrite map_map. apply sum_shown. intros entry Hentry.
    rewrite (Hbutton entry Hentry).
    destruct (List.length (filter (ofCategory (fst entry)) originalNodes));
      [reflexivity|].
    eexists. split; reflexivity.
Qed.

(** ** The counters of the Docker filter bar *)

Lemma dockerNodeCount_sum (dockerData : DockerData) :
  dockerNodeCount dockerData
  = list_sum
      (map (fun entry =>
              List.length (toolsOf (snd entry))
              + List.length (apisOf (snd entry)))
         dockerData).
Proof.
  unfold dockerNodeCount.
  assert (G : forall (l : DockerData) n,
             fold_left
               (fun count analysis =>
                  count + lengthOr0 (DockerAnalysisResult.dockerTools analysis)
                  + lengthOr0 (DockerAnalysisResult.dockerApis analysis))
               (map snd l) n
             = n + list_sum
                     (map (fun entry =>
                             List.length (toolsOf (snd entry))
                             + List.length (apisOf (snd entry)))
                        l)).
  { induction l as [|[k a] l IH]; intros n; cbn [map fold_left].
    - cbn. lia.
    - rewrite IH, list_sum_cons. cbn [snd]. unfold toolsOf, apisOf, lengthOr0, orEmpty.
      destruct (DockerAnalysisResult.dockerTools a),
        (DockerAnalysisResult.dockerApis a); cbn [List.length]; lia. }
  apply (G dockerData 0).
Qed.

Lemma flat_map_length_sum {A B} (f : A -> list B) (l : list A) :
  List.length (flat_map f l) = list_sum (map (fun x => List.length (f x)) l).
Proof.
  induction l as [|x l IH]; [reflexivity|].
  cbn [flat_map map]. now rewrite length_app, list_sum_cons, IH.
Qed.

Lemma list_sum_filter_le {A} (p : A -> bool) (g : A -> nat) (l : list A) :
  list_sum (map g (filter p l)) <= list_sum (map g l).
Proof.
  induction l as [|x l IH]; [reflexivity|]. cbn [filter map].
  destruct (p x); cbn [map]; rewrite ?list_sum_cons; lia.
Qed.

(** X9. The number the Docker filter bar shows for the Docker nodes is the
    number of tool and API entries of all analyses, flagged or not; it is an
    upper bound of the number of capability nodes the graph holds, which are
    synthesized for flagged analyses only. The number it shows for the
    Docker files is the number of flagged analyses. *)
Theorem dockerNodeCount_bounds_capability_nodes
    (protoText : jsstring -> jsstring) (data : list CytoscapeElement)
    (dockerData : DockerData) :
  List.length (filter isSynthesized (initialNodes protoText data dockerData))
  <= dockerNodeCount dockerData
  /\ dockerNodeCount dockerData
     = list_sum
         (map (fun entry =>
                 List.length (toolsOf (snd entry))
                 + List.length (apisOf (snd entry)))
            dockerData)
  /\ dockerFileCount dockerData
     = List.length
         (filter
            (fun entry => DockerAnalysisResult.hasDockerIntegration (snd entry))
            dockerData).
Proof.
  conjs.
  - set (flagged :=
           filter
             (fun entry => DockerAnalysisResult.hasDockerIntegration (snd entry))
             dockerData).
    set (capabilityNodes :=
           flat_map (fun entry => entryNodes protoText (fst entry) (snd entry))
             flagged).
    assert (Hincl : incl (filter isSynthesized
                            (initialNodes protoText data dockerData))
                      capabilityNodes).
    { intros n Hn. apply filter_In in Hn as [Hn Hs].
      destruct (initialNodes_origin protoText data dockerData n Hn)
        as [(id & ty & l & sf & _ & ->)|(k & a & [Hin Hflag] & Hentry)];
        [discriminate|].
      apply in_flat_map. exists (k, a). split.
      - apply filter_In. now split.
      - now apply in_entryNodes. }
    apply NoDup_incl_length in Hincl;
      [|apply NoDup_filter, NoDup_initialNodes].
    rewrite Hincl. unfold capabilityNodes.
    rewrite flat_map_length_sum, dockerNodeCount_sum.
    rewrite (map_ext _ (fun entry =>
                          List.length (toolsOf (snd entry))
                          + List.length (apisOf (snd entry)))).
    + apply list_sum_filter_le.
    + intros [k a]. cbn [fst snd]. rewrite length_entryNodes. lia.
  - apply dockerNodeCount_sum.
  - unfold dockerFileCount. rewrite <- (length_map snd (filter _ dockerData)).
    f_equal. induction dockerData as [|[k a] l IH]; [reflexivity|].
    cbn. destruct (DockerAnalysisResult.hasDockerIntegration a); cbn;
      now rewrite IH.
Qed.

(** ** The information panel of the selected node *)

(** A string is cut at the last occurrence of a separator in one way
    only. *)
Lemma last_separator (c : N) (a b d e : jsstring) :
  ~ In c d -> ~ In c e -> a ++ c :: d = b ++ c :: e -> a = b /\ d = e.
Proof.
  intros Hd He. revert b. induction a as [|x a IH]; intros [|y b]; cbn.
  - intros [= ->]. auto.
  - intros [= <- ->]. exfalso. apply Hd. apply in_or_app. right. now left.
  - intros [= -> <-]. exfalso. apply He. apply in_or_app. right. now left.
  - intros [= -> H]. destruct (IH b H) as [-> ->]. auto.
Qed.

Lemma digits_range (d : Decimal.uint) (c : N) :
  In c (lit (NilEmpty.string_of_uint d)) -> (48 <= c <= 57)%N.
Proof.
  induction d; cbn [NilEmpty.string_of_uint]; [intros [] | ..];
    rewrite lit_String; (intros [<-|H]; [vm_compute; split; discriminate|]);
    now apply IHd.
Qed.

Lemma ofNat_no_hyphen (i : nat) : ~ In 45%N (ofNat i).
Proof. intros H. apply digits_range in H. lia. Qed.

Lemma map_mapiFrom {A B C} (g : B -> C) (f : nat -> A -> B) (i : nat)
    (l : list A) :
  map g (mapiFrom f i l) = mapiFrom (fun j x => g (f j x)) i l.
Proof.
  revert i. induction l as [|x l IH]; intros i; cbn; [reflexivity|].
  now rewrite IH.
Qed.

Lemma in_firstn {A} (n : nat) (l : list A) (x : A) :
  In x (firstn n l) -> In x l.
Proof.
  revert l. induction n as [|n IH]; intros [|y l]; cbn; try tauto.
  intros [->|H]; [now left | right; now apply IH].
Qed.

(** The key of a related file determines its index. *)
Lemma uniqueKey_index (selectedId : jsstring) (i j : nat) (e e' : Edge.t) :
  Related.uniqueKey (relatedFile selectedId i e)
  = Related.uniqueKey (relatedFile selectedId j e') ->
  i = j.
Proof.
  unfold relatedFile. cbn [Related.uniqueKey].
  set (r := if streq (Edge.source e) selectedId then Edge.target e
            else Edge.source e).
  set (r' := if streq (Edge.source e') selectedId then Edge.target e'
             else Edge.source e').
  set (d := if streq (Edge.source e) selectedId then lit "out" else lit "in").
  set (d' := if streq (Edge.source e') selectedId then lit "out" else lit "in").
  assert (Hd : forall b : bool, ~ In 45%N (if b then lit "out" else lit "in")).
  { intros [|] H; vm_compute in H; intuition discriminate. }
  intros H.
  change (lit "-") with [45%N] in H. cbn [app] in H.
  assert (H' : (selectedId ++ 45%N :: r ++ 45%N :: ofNat i) ++ 45%N :: d
               = (selectedId ++ 45%N :: r' ++ 45%N :: ofNat j) ++ 45%N :: d').
  { repeat (rewrite <- app_assoc; cbn [app]). exact H. }
  apply last_separator in H' as [H' _]; [|apply Hd|apply Hd].
  assert (H'' : (selectedId ++ 45%N :: r) ++ 45%N :: ofNat i
                = (selectedId ++ 45%N :: r') ++ 45%N :: ofNat j).
  { repeat (rewrite <- app_assoc; cbn [app]). exact H'. }
  apply last_separator in H'' as [_ H'']; try apply ofNat_no_hyphen.
  now apply ofNat_inj.
Qed.

(** X10. The panel lists the first five edges that touch the selected node,
    no more: each listed file is the other endpoint of such an edge, marked
    outgoing exactly when the selected node is the source of the edge, and
    no two rows of the list have the same key. *)
Theorem relatedFiles_rows (edges : list Edge.t) (selectedId : jsstring) :
  let related := relatedFiles edges selectedId in
  List.length related
  = Nat.min 5 (List.length (filter (touches selectedId) edges))
  /\ NoDup (map Related.uniqueKey related)
  /\ forall r,
       In r related ->
       exists edge,
         In edge edges
         /\ (if Related.isOutgoing r
             then Edge.source edge = selectedId
                  /\ Edge.target edge = Related.relatedId r
             else Edge.target edge = selectedId
                  /\ Edge.source edge = Related.relatedId r
                  /\ Edge.source edge <> selectedId).
Proof.
  cbn zeta. unfold relatedFiles. conjs.
  - now rewrite length_mapiFrom, length_firstn.
  - rewrite map_mapiFrom. apply NoDup_mapiFrom.
    intros j j' x x' _ _ E. now apply uniqueKey_index in E.
  - intros r Hr. apply in_mapiFrom in Hr as (j & edge & Hj & ->).
    apply nth_error_In, in_firstn in Hj. apply filter_In in Hj as [Hin Ht].
    exists edge. split; [assumption|].
    unfold relatedFile, touches in *.
    cbn [Related.isOutgoing Related.relatedId].
    destruct (streq (Edge.source edge) selectedId) eqn:Es.
    + apply streq_eq in Es. now split.
    + cbn in Ht. apply streq_eq in Ht. apply streq_neq in Es. now conjs.
Qed.

(** X11. The two dependency counts of the panel add up to the number of
    edges that touch the selected node plus the number of edges from the
    node to itself, which both counts include; hence the panel never lists
    more related files than the two counts together. *)
Theorem dependencies_count (edges : list Edge.t) (selectedId : jsstring) :
  fst (dependencies edges selectedId) + snd (dependencies edges selectedId)
  = List.length (filter (touches selectedId) edges)
    + List.length
        (filter
           (fun edge =>
              streq (Edge.source edge) selectedId
              && streq (Edge.target edge) selectedId)
           edges)
  /\ List.length (relatedFiles edges selectedId)
     <= fst (dependencies edges selectedId)
        + snd (dependencies edges selectedId).
Proof.
  assert (E : fst (dependencies edges selectedId)
              + snd (dependencies edges selectedId)
              = List.length (filter (touches selectedId) edges)
                + List.length
                    (filter
                       (fun edge =>
                          streq (Edge.source edge) selectedId
                          && streq (Edge.target edge) selectedId)
                       edges)).
  { unfold dependencies, touches. cbn [fst snd].
    induction edges as [|e es IH]; [reflexivity|]. cbn [filter].
    destruct (streq (Edge.source e) selectedId),
      (streq (Edge.target e) selectedId); cbn [orb andb List.length]; lia. }
  split; [exact E|]. rewrite E. unfold relatedFiles.
  rewrite length_mapiFrom, length_firstn. lia.
Qed.

(** ** Selection, camera and relayout *)

Lemma endpoints_in_graph (protoText : jsstring -> jsstring)
    (data : list CytoscapeElement) (dockerData : DockerData) (e : Edge.t) :
  endpointsDeclared data dockerData ->
  In e (edgeList protoText data dockerData) ->
  In (Edge.source e) (nodeIds (initialNodes protoText data dockerData))
  /\ In (Edge.target e) (nodeIds (initialNodes protoText data dockerData)).
Proof.
  intros [Hedges Hfiles] He.
  destruct (edgeList_origin protoText data dockerData e He)
    as [(s & t & ty & Hin & ->)|(k & a & Hint & Hentry)].
  - destruct (Hedges s t ty Hin) as [Hs Ht]. split; now apply declared_in_graph.
  - split.
    + apply declared_in_graph.
      destruct Hentry as [(i & api & _ & ->)|(i & tool & _ & ->)];
        cbn; now apply (Hfiles k a).
    + destruct (capability_edge_target protoText data dockerData e He)
        as [(s & t & ty & Hin & ->)|Ht]; [|assumption].
      apply declared_in_graph. now destruct (Hedges s t ty Hin).
Qed.

Lemma nodeIds_layoutNode (dagreLayout : Dagre.Graph -> jsstring -> Q * Q)
    (g : Dagre.Graph) (nodes : list Node.t) :
  nodeIds (map (layoutNode dagreLayout g) nodes) = nodeIds nodes.
Proof. unfold nodeIds. rewrite map_map. reflexivity. Qed.

Lemma findRelatedNode_present (nodes : list Node.t) (id : jsstring) :
  In id (nodeIds nodes) ->
  exists node,
    findRelatedNode nodes id = Some node /\ In node nodes /\ Node.id node = id.
Proof.
  unfold findRelatedNode, nodeIds. induction nodes as [|n nodes IH]; cbn;
    [contradiction|].
  intros H. destruct (streq (Node.id n) id) eqn:E.
  - apply streq_eq in E. exists n. auto.
  - destruct H as [H|H]; [apply streq_neq in E; contradiction|].
    destruct (IH H) as (node & Hf & Hin & Hid). exists node. auto.
Qed.

(** X12. In a graph that was loaded, the layout not having thrown, from raw
    elements that declare the endpoints of every edge descriptor and the
    file of every flagged analysis, a click on any row of the related files
    finds the node and selects it: the node becomes the selected and the
    highlighted node. *)
Theorem related_file_resolves (protoText : jsstring -> jsstring)
    (dagreLayout : Dagre.Graph -> jsstring -> Q * Q)
    (layoutThrows : Dagre.Graph -> bool)
    (dockerData : DockerData) (data : list CytoscapeElement)
    (dagreGraph : Dagre.Graph) (st : App.t) (hasInstance : bool)
    (selectedId : jsstring) (r : Related.t) :
  endpointsDeclared data dockerData ->
  layoutThrows
    (layoutGraph dagreGraph (initialNodes protoText data dockerData)
       (edgeList protoText data dockerData)) = false ->
  In r
    (relatedFiles
       (App.edges
          (fst (loadData protoText dagreLayout layoutThrows (Some dockerData)
                  (Some data) dagreGraph st)))
       selectedId) ->
  exists node,
    In node
      (App.nodes
         (fst (loadData protoText dagreLayout layoutThrows (Some dockerData)
                 (Some data) dagreGraph st)))
    /\ Node.id node = Related.relatedId r
    /\ App.selectedNode
         (fst (clickRelatedFile hasInstance (Related.relatedId r)
                 (fst (loadData protoText dagreLayout layoutThrows
                         (Some dockerData) (Some data) dagreGraph st))))
       = Some node
    /\ App.highlightedNode
         (fst (clickRelatedFile hasInstance (Related.relatedId r)
                 (fst (loadData protoText dagreLayout layoutThrows
                         (Some dockerData) (Some data) dagreGraph st))))
       = Some (Related.relatedId r).
Proof.
  intros Hdecl Hlayout Hr. unfold clickRelatedFile. unfold loadData in *.
  rewrite Hlayout in *.
  cbn [fst snd getLayoutedElements App.nodes App.edges] in *.
  set (nodes0 := initialNodes protoText data dockerData) in *.
  set (edges0 := edgeList protoText data dockerData) in *.
  set (g := layoutGraph dagreGraph nodes0 edges0) in *.
  unfold relatedFiles in Hr. apply in_mapiFrom in Hr as (j & edge & Hj & ->).
  apply nth_error_In, in_firstn in Hj. apply filter_In in Hj as [Hin _].
  destruct (endpoints_in_graph protoText data dockerData edge Hdecl Hin)
    as [Hs Ht].
  assert (Hid : In (Related.relatedId (relatedFile selectedId (0 + j) edge))
                  (nodeIds (map (layoutNode dagreLayout g) nodes0))).
  { rewrite nodeIds_layoutNode. unfold relatedFile. cbn [Related.relatedId].
    now destruct (streq (Edge.source edge) selectedId). }
  destruct (findRelatedNode_present _ _ Hid) as (node & Hf & Hnode & E).
  exists node. rewrite Hf. cbn. now rewrite E.
Qed.

Lemma related_file_resolves_witness :
  endpointsDeclared scenarioA []
  /\ (fun _ : Dagre.Graph => false)
       (layoutGraph Dagre.empty (initialNodes v8ProtoText scenarioA [])
          (edgeList v8ProtoText scenarioA [])) = false
  /\ exists node,
       In node
         (App.nodes
            (fst (loadData v8ProtoText columnLayout (fun _ => false) (Some [])
                    (Some scenarioA) Dagre.empty exampleApp)))
       /\ Node.id node = lit "b.ts".
Proof.
  assert (Hd : endpointsDeclared scenarioA []).
  { split.
    - intros s t ty [H|[H|[H|[]]]]; try discriminate H.
      injection H as <- <- _. split.
      + exists None, None, None. now left.
      + exists None, None, None. right. now left.
    - intros k a [[] _]. }
  split; [exact Hd|]. split; [reflexivity|].
  destruct (related_file_resolves v8ProtoText columnLayout (fun _ => false) []
              scenarioA Dagre.empty exampleApp true (lit "a.ts")
              (relatedFile (lit "a.ts") 0
                 (dependencyEdge (lit "a.ts") (lit "b.ts") None))
              Hd eq_refl (or_introl eq_refl))
    as (node & Hin & Hid & _).
  exists node. split; [exact Hin | exact Hid].
Defined.

(** X13. Selecting a node of a laid-out graph moves the camera to the very
    centre dagre assigned to the node, the page having stored the top-left
    corner; without a flow instance no camera move is asked for. In both
    cases the node becomes the selected and the highlighted node. *)
Theorem selectNodeAndMove_centre
    (dagreLayout : Dagre.Graph -> jsstring -> Q * Q) (dagreGraph : Dagre.Graph)
    (nodes : list Node.t) (edges : list Edge.t) (node : Node.t) (st : App.t) :
  In node (fst (fst (getLayoutedElements dagreLayout dagreGraph nodes edges))) ->
  (exists camera,
      snd (selectNodeAndMove true node st) = Some camera
      /\ (Camera.x camera
          == fst (dagreLayout
                    (snd (getLayoutedElements dagreLayout dagreGraph nodes edges))
                    (Node.id node)))%Q
      /\ (Camera.y camera
          == snd (dagreLayout
                    (snd (getLayoutedElements dagreLayout dagreGraph nodes edges))
                    (Node.id node)))%Q)
  /\ snd (selectNodeAndMove false node st) = None
  /\ forall hasInstance,
       App.selectedNode (fst (selectNodeAndMove hasInstance node st)) = Some node
       /\ App.highlightedNode (fst (selectNodeAndMove hasInstance node st))
          = Some (Node.id node).
Proof.
  cbn [getLayoutedElements fst snd]. intros Hin.
  apply in_map_iff in Hin as (n0 & <- & _). conjs.
  - eexists. split; [reflexivity|].
    cbn [Camera.x Camera.y layoutNode Node.position Node.id fst snd].
    split; ring.
  - reflexivity.
  - intros hasInstance. split; reflexivity.
Qed.

Lemma selectNodeAndMove_centre_witness :
  In (layoutNode columnLayout freshGraph nodeA)
    (fst (fst (getLayoutedElements columnLayout freshGraph [nodeA] [])))
  /\ snd (selectNodeAndMove false (layoutNode columnLayout freshGraph nodeA)
            exampleApp)
     = None.
Proof.
  assert (H : In (layoutNode columnLayout freshGraph nodeA)
                (fst (fst (getLayoutedElements columnLayout freshGraph
                             [nodeA] []))))
    by (left; reflexivity).
  split; [exact H|].
  exact (proj1 (proj2 (selectNodeAndMove_centre columnLayout freshGraph
                         [nodeA] [] _ exampleApp H))).
Defined.

Lemma layoutNode_again (dagreLayout : Dagre.Graph -> jsstring -> Q * Q)
    (g : Dagre.Graph) (node : Node.t) :
  layoutNode dagreLayout g (layoutNode dagreLayout g node)
  = layoutNode dagreLayout g node.
Proof. reflexivity. Qed.

Lemma holdsRequest_layouted (dagreLayout : Dagre.Graph -> jsstring -> Q * Q)
    (g h : Dagre.Graph) (nodes : list Node.t) (edges : list Edge.t) :
  holdsRequest g nodes edges ->
  holdsRequest g (map (layoutNode dagreLayout h) nodes) edges.
Proof.
  intros (Hl & Hn & He). unfold holdsRequest.
  conjs; [assumption| |assumption].
  intros node Hin. apply in_map_iff in Hin as (n0 & <- & Hin).
  exact (Hn n0 Hin).
Qed.

(** Laying out again the nodes a layout has just produced changes neither
    the nodes nor the dagre graph. *)
Lemma getLayoutedElements_again
    (dagreLayout : Dagre.Graph -> jsstring -> Q * Q) (dagreGraph : Dagre.Graph)
    (nodes : list Node.t) (edges : list Edge.t) :
  let first := getLayoutedElements dagreLayout dagreGraph nodes edges in
  getLayoutedElements dagreLayout (snd first) (fst (fst first)) edges = first.
Proof.
  cbn zeta. unfold getLayoutedElements. cbn [fst snd].
  set (g := layoutGraph dagreGraph nodes edges).
  rewrite (layoutGraph_stable g (map (layoutNode dagreLayout g) nodes) edges)
    by apply holdsRequest_layouted, layoutGraph_holds.
  rewrite map_map. reflexivity.
Qed.

(** X14. Pressing relayout right after a load of fetched elements changes
    nothing, whether the layout of the load returned or threw: the state and
    the shared dagre graph stay as the load left them. From any state, a
    second relayout changes nothing the first has not already changed; a
    relayout whose layout throws leaves the state alone and the request in
    the dagre graph. *)
Theorem handleRelayout_stable (protoText : jsstring -> jsstring)
    (dagreLayout : Dagre.Graph -> jsstring -> Q * Q)
    (layoutThrows : Dagre.Graph -> bool)
    (dockerFetch : option DockerData) (data : list CytoscapeElement)
    (dagreGraph : Dagre.Graph) (st : App.t) :
  handleRelayout dagreLayout layoutThrows
    (snd (loadData protoText dagreLayout layoutThrows dockerFetch (Some data)
            dagreGraph st))
    (fst (loadData protoText dagreLayout layoutThrows dockerFetch (Some data)
            dagreGraph st))
  = loadData protoText dagreLayout layoutThrows dockerFetch (Some data)
      dagreGraph st
  /\ handleRelayout dagreLayout layoutThrows
       (snd (handleRelayout dagreLayout layoutThrows dagreGraph st))
       (fst (handleRelayout dagreLayout layoutThrows dagreGraph st))
     = handleRelayout dagreLayout layoutThrows dagreGraph st
  /\ (layoutThrows (layoutGraph dagreGraph (App.nodes st) (App.edges st))
      = true ->
      fst (handleRelayout dagreLayout layoutThrows dagreGraph st) = st
      /\ holdsRequest
           (snd (handleRelayout dagreLayout layoutThrows dagreGraph st))
           (App.nodes st) (App.edges st)).
Proof.
  assert (Hagain : forall g s,
             handleRelayout dagreLayout layoutThrows
               (snd (handleRelayout dagreLayout layoutThrows g s))
               (fst (handleRelayout dagreLayout layoutThrows g s))
             = handleRelayout dagreLayout layoutThrows g s).
  { intros g s. unfold handleRelayout at 2 3.
    set (g1 := layoutGraph g (App.nodes s) (App.edges s)).
    destruct (layoutThrows g1) eqn:Et; cbn [fst snd].
    - unfold handleRelayout. fold g1.
      rewrite (layoutGraph_stable g1 (App.nodes s) (App.edges s))
        by apply layoutGraph_holds.
      now rewrite Et.
    - unfold handleRelayout.
      cbn [getLayoutedElements fst snd App.nodes App.edges]. fold g1.
      pose proof (getLayoutedElements_again dagreLayout g (App.nodes s)
                    (App.edges s)) as E.
      cbn zeta in E. unfold getLayoutedElements in E. cbn [fst snd] in E.
      fold g1 in E. injection E as En Eg. rewrite Eg, Et.
      cbn [getLayoutedElements fst snd App.nodes App.edges App.originalNodes
           App.selectedNode App.searchTerm App.highlightedNode
           App.activeFilters App.fuse App.dockerAnalysis App.searchResults
           App.showSearchResults].
      rewrite map_map. reflexivity. }
  conjs.
  - unfold loadData.
    set (dd := match dockerFetch with Some d => d | None => [] end).
    set (nodes0 := initialNodes protoText data dd).
    set (edges0 := edgeList protoText data dd).
    set (g1 := layoutGraph dagreGraph nodes0 edges0).
    destruct (layoutThrows g1) eqn:Et; cbn [fst snd].
    + unfold handleRelayout. cbn [App.nodes App.edges].
      assert (Eg : layoutGraph g1 [] [] = g1).
      { apply layoutGraph_stable.
        destruct (layoutGraph_holds dagreGraph nodes0 edges0) as (Hl & _ & _).
        unfold holdsRequest. conjs; [exact Hl | intros n [] | intros e []]. }
      now rewrite Eg, Et.
    + pose proof (Hagain dagreGraph
                    (App.mk nodes0 edges0 nodes0 (App.selectedNode st)
                       (App.searchTerm st) (App.highlightedNode st)
                       (App.activeFilters st) (Some nodes0)
                       match dockerFetch with
                       | Some d => d
                       | None => App.dockerAnalysis st
                       end (App.searchResults st) (App.showSearchResults st)))
        as E.
      unfold handleRelayout at 2 3 4 in E. cbn [App.nodes App.edges] in E.
      fold g1 in E. rewrite Et in E.
      cbn [getLayoutedElements fst snd App.nodes App.edges App.originalNodes
           App.selectedNode App.searchTerm App.highlightedNode
           App.activeFilters App.fuse App.dockerAnalysis App.searchResults
           App.showSearchResults] in E.
      cbn [getLayoutedElements fst snd]. fold g1 in E |- *. exact E.
  - apply Hagain.
  - intros Et. unfold handleRelayout. rewrite Et. cbn [fst snd].
    split; [reflexivity | apply layoutGraph_holds].
Qed.

Lemma handleRelayout_stable_witness :
  emptyNameThrows
    (layoutGraph Dagre.empty [fileNode [] None None None] []) = true
  /\ fst (handleRelayout columnLayout emptyNameThrows Dagre.empty
            (App.mk [fileNode [] None None None] [] [] None [] None [] None []
               [] false))
     = App.mk [fileNode [] None None None] [] [] None [] None [] None [] []
         false.
Proof.
  split; [reflexivity|].
  exact (proj1 (proj2 (proj2
           (handleRelayout_stable v8ProtoText columnLayout emptyNameThrows
              None [] Dagre.empty
              (App.mk [fileNode [] None None None] [] [] None [] None [] None
                 [] [] false)))
           eq_refl)).
Defined.

(** ** What the first component displays *)

Section DisplayFacts.

Variable protoText : jsstring -> jsstring.

(** Every node of the built graph carries the style of its own identifier
    and node type. *)
Lemma initialNodes_style (data : list CytoscapeElement)
    (dockerData : DockerData) (n : Node.t) :
  In n (initialNodes protoText data dockerData) ->
  Node.style n
  = getNodeStyle (Node.id n) (NodeData.nodeType (Node.data n)) false false.
Proof.
  intros Hn.
  destruct (initialNodes_origin protoText data dockerData n Hn)
    as [(id & ty & l & sf & _ & ->)|(k & a & _ & Hentry)]; [reflexivity|].
  destruct Hentry as [(i & api & _ & ->)|(i & tool & _ & ->)]; reflexivity.
Qed.

End DisplayFacts.

(** X15. With no highlighted node and no active filter, the first component
    displays the built nodes as they are; after the layout it displays them
    at their layout positions in the style of the build, that is without the
    width and the height the layout wrote into the style. *)
Theorem displayNodes_plain (protoText : jsstring -> jsstring)
    (dagreLayout : Dagre.Graph -> jsstring -> Q * Q)
    (data : list CytoscapeElement) (dockerData : DockerData)
    (dagreGraph : Dagre.Graph) :
  displayNodes (initialNodes protoText data dockerData) None []
  = initialNodes protoText data dockerData
  /\ displayNodes
       (fst (fst (getLayoutedElements dagreLayout dagreGraph
                    (initialNodes protoText data dockerData)
                    (edgeList protoText data dockerData))))
       None []
     = map (fun n =>
              Node.mk (Node.id n) (Node.data n)
                (cornerOf
                   (dagreLayout
                      (snd (getLayoutedElements dagreLayout dagreGraph
                              (initialNodes protoText data dockerData)
                              (edgeList protoText data dockerData)))
                      (Node.id n)))
                (Node.sourcePosition n) (Node.targetPosition n) (Node.style n))
         (initialNodes protoText data dockerData).
Proof.
  unfold displayNodes, getLayoutedElements. cbn [fst snd]. split.
  - rewrite <- (map_id (initialNodes protoText data dockerData)) at 2.
    apply map_ext_in. intros n Hn. unfold restyle, withStyle.
    cbn [isHighlightedNode setSize List.length Nat.ltb Nat.leb andb].
    rewrite <- (initialNodes_style protoText data dockerData n Hn).
    now destruct n.
  - rewrite map_map. apply map_ext_in. intros n Hn.
    unfold restyle, withStyle, layoutNode, cornerOf.
    cbn [isHighlightedNode setSize List.length Nat.ltb Nat.leb andb
         Node.id Node.data Node.position Node.sourcePosition
         Node.targetPosition].
    now rewrite <- (initialNodes_style protoText data dockerData n Hn).
Qed.

(** ** Search and highlight *)

Lemma getNodeStyle_border (id : jsstring) (nodeType : option jsstring)
    (isHighlighted isFiltered : bool) :
  Style.border (getNodeStyle id nodeType isHighlighted isFiltered)
  = lit "3px solid #f59e0b"
  <-> isHighlighted = true.
Proof.
  destruct isHighlighted; cbn [getNodeStyle Style.border]; split; auto.
  - intros H. apply lit_inj in H. discriminate.
  - discriminate.
Qed.

(** X16. A search with a non-blank term on a built index records the results
    and shows the panel exactly when there is a result. When there is one,
    the first result becomes the highlighted node, and the nodes displayed
    with the highlight border are exactly those with its identifier; when
    there is none, the highlight of before the search stays. The selected
    node is not touched. *)
Theorem handleSearch_highlights_first
    (fuseSearch : list Node.t -> jsstring -> list Node.t) (term : jsstring)
    (st : App.t) (index : list Node.t) :
  trim term <> [] -> App.fuse st = Some index ->
  let st' := handleSearch fuseSearch term st in
  App.searchResults st' = fuseSearch index term
  /\ App.selectedNode st' = App.selectedNode st
  /\ match fuseSearch index term with
     | first :: _ =>
         App.showSearchResults st' = true
         /\ App.highlightedNode st' = Some (Node.id first)
         /\ forall n,
              In n (displayNodes (App.nodes st') (App.highlightedNode st')
                      (App.activeFilters st')) ->
              (Style.border (Node.style n) = lit "3px solid #f59e0b"
               <-> Node.id n = Node.id first)
     | [] =>
         App.showSearchResults st' = false
         /\ App.highlightedNode st' = App.highlightedNode st
     end.
Proof.
  intros Hterm Hfuse. cbn zeta. unfold handleSearch. rewrite Hfuse.
  destruct (trim term) as [|c t]; [contradiction|].
  destruct (fuseSearch index term) as [|first rest];
    cbn [App.searchResults App.selectedNode App.showSearchResults
         App.highlightedNode App.nodes App.activeFilters]; conjs; auto.
  intros n Hn. unfold displayNodes in Hn.
  apply in_map_iff in Hn as (n0 & <- & _).
  unfold restyle, withStyle. cbn [Node.style Node.id].
  rewrite getNodeStyle_border. cbn [isHighlightedNode]. apply streq_eq.
Qed.

Lemma handleSearch_highlights_first_witness :
  trim (lit "a") <> [] /\ App.fuse exampleApp = Some (App.nodes exampleApp)
  /\ App.highlightedNode (handleSearch (fun index _ => index) (lit "a") exampleApp)
     = Some (lit "a.ts").
Proof.
  assert (Ht : trim (lit "a") <> []) by (vm_compute; discriminate).
  split; [exact Ht|]. split; [reflexivity|].
  exact (proj1 (proj2 (proj2 (proj2
           (handleSearch_highlights_first (fun index _ => index) (lit "a")
              exampleApp (App.nodes exampleApp) Ht eq_refl))))).
Defined.

(** ** The statistics endpoint of the summary server *)

Lemma mapThrowing_None {A B} (f : A -> option B) (l : list A) :
  mapThrowing f l = None <-> exists x, In x l /\ f x = None.
Proof.
  induction l as [|x l IH]; cbn.
  - split; [discriminate | intros (x & [] & _)].
  - destruct (f x) as [y|] eqn:E.
    + destruct (mapThrowing f l) as [ys|].
      * split; [discriminate|]. intros (x' & [<-|Hx'] & E'); [congruence|].
        apply proj2 in IH. discriminate IH. now exists x'.
      * split; [|reflexivity]. intros _.
        destruct (proj1 IH eq_refl) as (x' & Hx' & E'). exists x'. auto.
    + split; [|reflexivity]. intros _. exists x. auto.
Qed.

Lemma mapThrowing_Some {A B} (f : A -> option B) (l : list A) (ys : list B) :
  mapThrowing f l = Some ys -> map Some ys = map f l.
Proof.
  revert ys. induction l as [|x l IH]; cbn; intros ys H.
  - now injection H as <-.
  - destruct (f x) as [y|]; [|discriminate].
    destruct (mapThrowing f l) as [ys'|]; [|discriminate].
    injection H as <-. cbn. now rewrite (IH ys' eq_refl).
Qed.

(** X17. The statistics handler throws exactly when some flagged analysis
    has no [dockerApis] list. When it answers, the integration count is the
    number of files it lists, which are the keys of the flagged analyses in
    their order; it is at most the number of analyses and equals the number
    the Docker filter bar of the page computes from the same map. *)
Theorem analysisStats_answer (summaries : Map jsstring)
    (dockerAnalysis : DockerData) :
  (analysisStats summaries dockerAnalysis = None <->
   exists file analysis,
     In (file, analysis) dockerAnalysis
     /\ DockerAnalysisResult.hasDockerIntegration analysis = true
     /\ DockerAnalysisResult.dockerApis analysis = None)
  /\ forall stats,
       analysisStats summaries dockerAnalysis = Some stats ->
       AnalysisStats.dockerIntegrationCount stats
       = List.length (AnalysisStats.dockerIntegrationFiles stats)
       /\ map AnalysisStats.file (AnalysisStats.dockerIntegrationFiles stats)
          = map fst
              (filter
                 (fun entry =>
                    DockerAnalysisResult.hasDockerIntegration (snd entry))
                 dockerAnalysis)
       /\ AnalysisStats.dockerIntegrationCount stats
          <= AnalysisStats.totalDockerAnalysis stats
       /\ AnalysisStats.dockerIntegrationCount stats
          = dockerFileCount dockerAnalysis.
Proof.
  unfold analysisStats.
  set (flagged :=
         filter
           (fun entry => DockerAnalysisResult.hasDockerIntegration (snd entry))
           dockerAnalysis).
  assert (Hcount : List.length
                     (filter DockerAnalysisResult.hasDockerIntegration
                        (mapValues dockerAnalysis))
                   = List.length flagged).
  { unfold flagged, mapValues. clear.
    induction dockerAnalysis as [|[k a] l IH]; [reflexivity|]. cbn.
    destruct (DockerAnalysisResult.hasDockerIntegration a); cbn;
      now rewrite IH. }
  split.
  - destruct (mapThrowing integrationFile flagged) as [files|] eqn:E.
    + split; [discriminate|]. intros (file & analysis & Hin & Hflag & Hapis).
      assert (Hnone : mapThrowing integrationFile flagged = None).
      { apply mapThrowing_None. exists (file, analysis). split.
        - apply filter_In. now split.
        - unfold integrationFile. cbn [snd]. now rewrite Hapis. }
      congruence.
    + split; [|reflexivity]. intros _.
      apply mapThrowing_None in E as ([file analysis] & Hin & Hf).
      apply filter_In in Hin as [Hin Hflag]. exists file, analysis.
      conjs; [assumption | assumption |].
      unfold integrationFile in Hf. cbn [snd] in Hf.
      now destruct (DockerAnalysisResult.dockerApis analysis).
  - intros stats H.
    destruct (mapThrowing integrationFile flagged) as [files|] eqn:E;
      [|discriminate].
    injection H as <-.
    cbn [AnalysisStats.dockerIntegrationCount
         AnalysisStats.dockerIntegrationFiles AnalysisStats.totalDockerAnalysis].
    apply mapThrowing_Some in E.
    assert (Hlen : List.length files = List.length flagged).
    { rewrite <- (length_map Some files), E. apply length_map. }
    conjs.
    + now rewrite Hcount, Hlen.
    + clear Hlen Hcount. revert files E.
      generalize flagged as l.
      induction l as [|[k a] l IH]; intros [|f files] E; try discriminate E.
      * reflexivity.
      * cbn in E. unfold integrationFile in E at 1. cbn [fst snd] in E.
        destruct (DockerAnalysisResult.dockerApis a); [|discriminate E].
        injection E as -> E. cbn. now rewrite (IH files E).
    + rewrite Hcount. unfold mapKeys. rewrite length_map.
      apply filter_length_le.
    + unfold dockerFileCount. reflexivity.
Qed.

(** ** Navigation to the home page *)

Lemma find_ext_in {A} (f g : A -> bool) (l : list A) :
  (forall x, In x l -> f x = g x) -> find f l = find g l.
Proof.
  induction l as [|x l IH]; intros H; [reflexivity|]. cbn.
  rewrite <- (H x (or_introl eq_refl)).
  destruct (f x); [reflexivity|]. apply IH. intros y Hy. apply H. now right.
Qed.

Lemma initialNodes_fullPath (protoText : jsstring -> jsstring)
    (data : list CytoscapeElement) (dockerData : DockerData) (n : Node.t) :
  In n (initialNodes protoText data dockerData) ->
  NodeData.fullPath (Node.data n) = Node.id n.
Proof.
  intros Hn.
  destruct (initialNodes_origin protoText data dockerData n Hn)
    as [(id & ty & l & sf & _ & ->)|(k & a & _ & Hentry)]; [reflexivity|].
  destruct Hentry as [(i & api & _ & ->)|(i & tool & _ & ->)]; reflexivity.
Qed.

(** X18. After a load, whatever its outcome, the home button selects the
    first node of the state, in node order, whose identifier contains
    [page.tsx], and does nothing when no identifier does, as after a load
    that failed and left no node: the test on [src/app/page.tsx] and the
    test on the full path never decide. *)
Theorem navigateToHomePage_loaded (protoText : jsstring -> jsstring)
    (dagreLayout : Dagre.Graph -> jsstring -> Q * Q)
    (layoutThrows : Dagre.Graph -> bool)
    (dockerFetch : option DockerData)
    (dataFetch : option (list CytoscapeElement))
    (dagreGraph : Dagre.Graph) (st : App.t) (hasInstance : bool) :
  let st' :=
    fst (loadData protoText dagreLayout layoutThrows dockerFetch dataFetch
           dagreGraph st) in
  navigateToHomePage hasInstance st'
  = match
      find (fun node => includes (lit "page.tsx") (Node.id node)) (App.nodes st')
    with
    | Some homePageNode => selectNodeAndMove hasInstance homePageNode st'
    | None => (st', None)
    end
  /\ ((dataFetch = None
       \/ exists data,
            dataFetch = Some data
            /\ layoutThrows
                 (layoutGraph dagreGraph
                    (initialNodes protoText data
                       match dockerFetch with Some d => d | None => [] end)
                    (edgeList protoText data
                       match dockerFetch with Some d => d | None => [] end))
               = true) ->
      navigateToHomePage hasInstance st' = (st', None)).
Proof.
  cbn zeta. split.
  - unfold navigateToHomePage.
    rewrite (find_ext_in isHomePage
               (fun node => includes (lit "page.tsx") (Node.id node)));
      [reflexivity|].
    intros n Hn. unfold loadData in Hn.
    destruct dataFetch as [data|]; [|destruct Hn].
    destruct (layoutThrows _); [destruct Hn|].
    cbn [fst snd getLayoutedElements App.nodes] in Hn.
    apply in_map_iff in Hn as (n0 & <- & Hn0).
    apply initialNodes_fullPath in Hn0.
    unfold isHomePage. cbn [layoutNode Node.id Node.data]. rewrite Hn0.
    destruct (includes (lit "page.tsx") (Node.id n0)) eqn:E; [reflexivity|].
    now rewrite (includes_weaken (lit "page.tsx") (lit "src/app/page.tsx")
                   (Node.id n0) eq_refl E).
  - intros [->|(data & -> & Et)]; unfold loadData; [reflexivity|].
    now rewrite Et.
Qed.

Lemma navigateToHomePage_loaded_witness :
  (Some emptyNameData = None
   \/ exists data,
        Some emptyNameData = Some data
        /\ emptyNameThrows
             (layoutGraph Dagre.empty (initialNodes v8ProtoText data [])
                (edgeList v8ProtoText data [])) = true)
  /\ snd (navigateToHomePage true
            (fst (loadData v8ProtoText columnLayout emptyNameThrows None
                    (Some emptyNameData) Dagre.empty exampleApp)))
     = None.
Proof.
  assert (H : exists data,
             Some emptyNameData = Some data
             /\ emptyNameThrows
                  (layoutGraph Dagre.empty (initialNodes v8ProtoText data [])
                     (edgeList v8ProtoText data [])) = true)
    by (exists emptyNameData; split; reflexivity).
  split; [now right|].
  exact (f_equal snd
           (proj2 (navigateToHomePage_loaded v8ProtoText columnLayout
                     emptyNameThrows None (Some emptyNameData) Dagre.empty
                     exampleApp true)
              (or_intror H))).
Defined.

(** ** The Docker-only filter and the keys of the analysis map *)

(** X19. When the analysis map has a flagged analysis of a declared file
    under the key the server uses for it, the file is displayed by the second
    component with the Docker-only filter on as well as off (Docker nodes
    being visible): for the [github] source always, for another source when
    the map has no entry under the [github] key of the file. *)
Theorem docker_only_shows_integrated_file (protoText : jsstring -> jsstring)
    (data : list CytoscapeElement) (dockerData : DockerData)
    (source file : jsstring) (analysis : DockerAnalysisResult.t)
    (highlightedNode : option jsstring) (activeFilters : JSSet)
    (showDockerOnly : bool) :
  NoDup (mapKeys dockerData) ->
  integrated dockerData (cacheKey source file) analysis ->
  streq source (lit "github") = true
  \/ mapGet (lit "github:" ++ file) dockerData = None ->
  declared data file ->
  In file
    (nodeIds
       (DockerView.displayNodes
          (DockerView.mkView (initialNodes protoText data dockerData)
             (edgeList protoText data dockerData) highlightedNode activeFilters
             showDockerOnly true dockerData))).
Proof.
  intros Hnd [Hin Hflag] Hsource Hdecl.
  assert (Hint : DockerView.hasDockerIntegration dockerData file = true).
  { unfold DockerView.hasDockerIntegration. unfold cacheKey in Hin.
    destruct (streq source (lit "github")) eqn:Es.
    - now rewrite (mapGet_of_pair _ _ _ Hnd Hin).
    - destruct Hsource as [Hs|Hs]; [discriminate|].
      now rewrite Hs, (mapGet_of_pair _ _ _ Hnd Hin). }
  apply (declared_in_graph protoText data dockerData) in Hdecl.
  unfold nodeIds in Hdecl. apply in_map_iff in Hdecl as (n0 & Hid & Hn0).
  unfold nodeIds. apply in_map_iff.
  exists (restyle highlightedNode activeFilters n0). split; [exact Hid|].
  apply in_displayNodes. exists n0.
  cbn [DockerView.nodes DockerView.showDockerOnly DockerView.showDockerNodes
       DockerView.dockerAnalysis DockerView.highlightedNode
       DockerView.activeFilters].
  conjs; [assumption | | reflexivity].
  unfold DockerView.keepNode. rewrite Hid, Hint.
  now rewrite !andb_false_r.
Qed.

Lemma docker_only_shows_integrated_file_witness :
  NoDup (mapKeys scenarioB_docker)
  /\ integrated scenarioB_docker (cacheKey (lit "github") (lit "a.ts"))
       scenarioB_analysis
  /\ declared scenarioB_data (lit "a.ts")
  /\ In (lit "a.ts") (nodeIds (DockerView.displayNodes (scenarioBView true true))).
Proof.
  assert (Hnd : NoDup (mapKeys scenarioB_docker))
    by (repeat constructor; intros []).
  assert (Hint : integrated scenarioB_docker
                   (cacheKey (lit "github") (lit "a.ts")) scenarioB_analysis)
    by (split; [now left | reflexivity]).
  assert (Hd : declared scenarioB_data (lit "a.ts"))
    by (exists None, None, None; now left).
  conjs; try assumption.
  exact (docker_only_shows_integrated_file v8ProtoText scenarioB_data
           scenarioB_docker (lit "github") (lit "a.ts") scenarioB_analysis
           None [] true Hnd Hint (or_introl eq_refl) Hd).
Defined.

(** ** The summary and the Docker analysis of the selected node *)

Lemma truthy_orElse (o : option jsstring) (b : jsstring) :
  truthy b = true -> truthy (orElse o b) = true.
Proof. destruct o as [[|c s]|]; cbn; auto. Qed.

Lemma truthy_apiNameOf (api : DockerAPI.t) (index : nat) :
  truthy (apiNameOf api index) = true.
Proof. unfold apiNameOf. now repeat apply truthy_orElse. Qed.

(** A key that is tried a second time never decides. *)
Lemma firstSummary_repeated (summaries : Map jsstring) (a b : jsstring)
    (rest : list jsstring) :
  firstSummary summaries (filter truthy ([a; b; a] ++ rest))
  = firstSummary summaries (filter truthy ([a; b] ++ rest)).
Proof.
  cbn [app filter].
  destruct (truthy a), (truthy b); cbn [firstSummary];
    destruct (lookupSummary summaries a) eqn:Ea; try reflexivity;
    destruct (lookupSummary summaries b); try reflexivity;
    now rewrite ?Ea.
Qed.

(** X20. For a file node of the built graph the summary panel prefers the
    Docker analysis: when the analysis stored under the [github] key of the
    node is flagged, the panel shows its summary as a Docker summary, or
    nothing when that summary is empty, whatever the summary cache holds.
    Otherwise it shows the first summary the cache has under the identifier,
    the [github] key or the source file of the node, in this order; the full
    path, which repeats the identifier, adds nothing. *)
Theorem NodeSummary_file_node (protoText : jsstring -> jsstring)
    (data : list CytoscapeElement) (dockerData : DockerData) (n : Node.t)
    (summaries : Map jsstring) (dockerAnalysis : DockerData) :
  In n (initialNodes protoText data dockerData) ->
  DockerView.isDockerNode n = false ->
  NodeSummary protoText n summaries dockerAnalysis
  = match mapGet (lit "github:" ++ Node.id n) dockerAnalysis with
    | Some analysis =>
        if DockerAnalysisResult.hasDockerIntegration analysis then
          if truthy (DockerAnalysisResult.summary analysis)
          then Some (SummaryPanel.mk
                       (OwnText (DockerAnalysisResult.summary analysis)) true)
          else None
        else
          option_map (fun summary => SummaryPanel.mk summary false)
            (firstSummary summaries
               (filter truthy
                  ([Node.id n; lit "github:" ++ Node.id n]
                   ++ match NodeData.sourceFile (Node.data n) with
                      | Some sourceFile => [sourceFile]
                      | None => []
                      end)))
    | None =>
        option_map (fun summary => SummaryPanel.mk summary false)
          (firstSummary summaries
             (filter truthy
                ([Node.id n; lit "github:" ++ Node.id n]
                 ++ match NodeData.sourceFile (Node.data n) with
                    | Some sourceFile => [sourceFile]
                    | None => []
                    end)))
    end.
Proof.
  intros Hn Hfile. unfold NodeSummary. rewrite Hfile.
  assert (Hkeys : firstSummary summaries (possibleKeys n)
                  = firstSummary summaries
                      (filter truthy
                         ([Node.id n; lit "github:" ++ Node.id n]
                          ++ match NodeData.sourceFile (Node.data n) with
                             | Some sourceFile => [sourceFile]
                             | None => []
                             end))).
  { unfold possibleKeys.
    rewrite (initialNodes_fullPath protoText data dockerData n Hn).
    apply (firstSummary_repeated summaries (Node.id n)
             (lit "github:" ++ Node.id n)). }
  rewrite Hkeys.
  destruct (mapGet (lit "github:" ++ Node.id n) dockerAnalysis) as [a|];
    [destruct (DockerAnalysisResult.hasDockerIntegration a)|];
    try reflexivity;
    now destruct (firstSummary summaries _).
Qed.

Lemma NodeSummary_file_node_witness :
  In nodeA (initialNodes v8ProtoText scenarioB_data scenarioB_docker)
  /\ DockerView.isDockerNode nodeA = false
  /\ NodeSummary v8ProtoText nodeA [(lit "a.ts", lit "cached")] scenarioB_docker
     = Some (SummaryPanel.mk (OwnText (lit "s")) true).
Proof.
  assert (Hin : In nodeA (initialNodes v8ProtoText scenarioB_data scenarioB_docker))
    by (left; reflexivity).
  conjs; [exact Hin | reflexivity |].
  exact (NodeSummary_file_node v8ProtoText scenarioB_data scenarioB_docker
           nodeA [(lit "a.ts", lit "cached")] scenarioB_docker Hin eq_refl).
Defined.

(** X21. Every synthesized API node has a summary panel, marked as a Docker
    summary: its API name is never empty. A synthesized tool node has one
    exactly when its tool name is not empty. Neither looks at the summary
    cache or at the analysis map. *)
Theorem NodeSummary_capability_node (protoText : jsstring -> jsstring)
    (fileName : jsstring) (api : DockerAPI.t) (tool : jsstring) (index : nat)
    (summaries : Map jsstring) (dockerAnalysis : DockerData) :
  (exists info,
      NodeData.dockerInfo
        (Node.data (dockerApiNode protoText fileName api index)) = Some info
      /\ NodeSummary protoText (dockerApiNode protoText fileName api index)
           summaries dockerAnalysis
         = Some (SummaryPanel.mk (OwnText (apiSummary protoText info)) true))
  /\ (exists info,
        NodeData.dockerInfo
          (Node.data (dockerToolNode protoText fileName tool index)) = Some info
        /\ NodeSummary protoText (dockerToolNode protoText fileName tool index)
             summaries dockerAnalysis
           = if truthy tool
             then Some (SummaryPanel.mk (OwnText (toolSummary protoText info))
                          true)
             else None).
Proof.
  split; eexists; (split; [reflexivity|]); unfold NodeSummary.
  - change (DockerView.isDockerNode (dockerApiNode protoText fileName api index))
      with true.
    cbn [dockerApiNode Node.data NodeData.dockerInfo DockerInfo.tool
         DockerInfo.apiName truthyOpt].
    rewrite truthy_apiNameOf. reflexivity.
  - change (DockerView.isDockerNode
              (dockerToolNode protoText fileName tool index))
      with true.
    cbn [dockerToolNode Node.data NodeData.dockerInfo DockerInfo.tool
         DockerInfo.apiName truthyOpt].
    destruct (truthy tool); reflexivity.
Qed.

(** X22. The Docker analysis panel looks the analysis up under the [github]
    key only: a file whose flagged analysis is stored under its plain path
    passes the Docker-only filter and yet has no panel. The panel reads the
    two lists of a flagged analysis without a default, so it throws exactly
    when a flagged analysis under the [github] key lacks one of them, an
    analysis from which the graph is built without complaint. *)
Theorem NodeDockerAnalysis_lookup (selectedId : jsstring)
    (dockerAnalysis : DockerData) :
  (forall analysis,
      mapGet (lit "github:" ++ selectedId) dockerAnalysis = None ->
      mapGet selectedId dockerAnalysis = Some analysis ->
      DockerAnalysisResult.hasDockerIntegration analysis = true ->
      DockerView.hasDockerIntegration dockerAnalysis selectedId = true
      /\ NodeDockerAnalysis selectedId dockerAnalysis = RenderNull)
  /\ (NodeDockerAnalysis selectedId dockerAnalysis = RenderThrows <->
      exists analysis,
        mapGet (lit "github:" ++ selectedId) dockerAnalysis = Some analysis
        /\ DockerAnalysisResult.hasDockerIntegration analysis = true
        /\ (DockerAnalysisResult.dockerTools analysis = None
            \/ DockerAnalysisResult.dockerApis analysis = None)).
Proof.
  unfold NodeDockerAnalysis, DockerView.hasDockerIntegration. split.
  - intros analysis Hg Hp Hflag. now rewrite Hg, Hp.
  - destruct (mapGet (lit "github:" ++ selectedId) dockerAnalysis) as [a|].
    + destruct (DockerAnalysisResult.hasDockerIntegration a) eqn:Ef.
      * destruct (DockerAnalysisResult.dockerTools a) as [tools|] eqn:Et.
        -- destruct (DockerAnalysisResult.dockerApis a) as [apis|] eqn:Ea.
           ++ split; [discriminate|].
              intros (a' & [= <-] & _ & [H|H]); congruence.
           ++ split; [|reflexivity]. intros _. exists a. auto.
        -- split; [|reflexivity]. intros _. exists a. auto.
      * split; [discriminate|]. intros (a' & [= <-] & H & _). congruence.
    + split; [discriminate|]. intros (a' & H & _). discriminate.
Qed.

Lemma NodeDockerAnalysis_lookup_witness :
  mapGet (lit "github:" ++ lit "a.ts")
    [unflaggedEntry; (lit "a.ts", scenarioB_analysis)]
  = None
  /\ DockerView.hasDockerIntegration
       [unflaggedEntry; (lit "a.ts", scenarioB_analysis)] (lit "a.ts") = true
  /\ NodeDockerAnalysis (lit "a.ts")
       [unflaggedEntry; (lit "a.ts", scenarioB_analysis)] = RenderNull.
Proof.
  split; [reflexivity|].
  exact (proj1 (NodeDockerAnalysis_lookup (lit "a.ts")
                  [unflaggedEntry; (lit "a.ts", scenarioB_analysis)])
           scenarioB_analysis eq_refl eq_refl eq_refl).
Defined.

(** ** The ways to select a node *)

(** X23. A click on a node selects and highlights it like
    [selectNodeAndMove] does, without a camera move; choosing a search
    result does what [selectNodeAndMove] does, camera move included, and
    closes the results panel. After either, the nodes displayed with the
    highlight border are exactly those with the identifier of the chosen
    node, and the nodes, the edges and the filters are as before. *)
Theorem selection_handlers_agree (hasInstance : bool) (node : Node.t)
    (st : App.t) :
  onNodeClick node st = fst (selectNodeAndMove hasInstance node st)
  /\ snd (selectSearchResult hasInstance node st)
     = snd (selectNodeAndMove hasInstance node st)
  /\ App.showSearchResults (fst (selectSearchResult hasInstance node st)) = false
  /\ forall st',
       st' = onNodeClick node st
       \/ st' = fst (selectSearchResult hasInstance node st) ->
       App.selectedNode st' = Some node
       /\ App.nodes st' = App.nodes st
       /\ App.edges st' = App.edges st
       /\ App.activeFilters st' = App.activeFilters st
       /\ forall n,
            In n (displayNodes (App.nodes st') (App.highlightedNode st')
                    (App.activeFilters st')) ->
            (Style.border (Node.style n) = lit "3px solid #f59e0b"
             <-> Node.id n = Node.id node).
Proof.
  conjs; try reflexivity.
  intros st' [-> | ->]; (conjs; try reflexivity);
    intros n Hn; unfold displayNodes in Hn;
    apply in_map_iff in Hn as (n0 & <- & _);
    unfold restyle, withStyle; cbn [Node.style Node.id];
    rewrite getNodeStyle_border; apply streq_eq.
Qed.

Lemma selection_handlers_agree_witness :
  App.selectedNode (onNodeClick nodeA exampleApp) = Some nodeA
  /\ App.showSearchResults (fst (selectSearchResult true nodeA exampleApp))
     = false.
Proof.
  destruct (selection_handlers_agree true nodeA exampleApp)
    as (_ & _ & Hshow & Hall).
  split; [|exact Hshow].
  exact (proj1 (Hall (onNodeClick nodeA exampleApp) (or_introl eq_refl))).
Defined.

(** ** The search of the two components *)

(** X24. After a search the two components highlight the same node: none
    for a blank term or a missing index, the first result for a hit, the one
    of before for a miss. The second component also makes a hit the selected
    node and moves the camera to it as [selectNodeAndMove] does; otherwise
    it leaves the selection alone and asks for no camera move. Both record
    the term and keep the nodes and the edges. *)
Theorem handleSearch_variants
    (fuseSearch : list Node.t -> jsstring -> list Node.t) (hasInstance : bool)
    (term : jsstring) (st : App.t) :
  let first := handleSearch fuseSearch term st in
  let second := Second.handleSearch fuseSearch hasInstance term st in
  App.highlightedNode (fst second) = App.highlightedNode first
  /\ App.searchTerm (fst second) = App.searchTerm first
  /\ App.nodes (fst second) = App.nodes first
  /\ App.edges (fst second) = App.edges first
  /\ match App.searchResults first with
     | foundNode :: _ =>
         App.selectedNode (fst second) = Some foundNode
         /\ snd second = snd (selectNodeAndMove hasInstance foundNode st)
     | [] =>
         App.selectedNode (fst second) = App.selectedNode st
         /\ snd second = None
     end.
Proof.
  cbn zeta. unfold handleSearch, Second.handleSearch.
  destruct (trim term) as [|c t]; [now conjs|].
  destruct (App.fuse st) as [index|]; [|now conjs].
  destruct (fuseSearch index term) as [|foundNode rest]; now conjs.
Qed.

(** X25. The rows of the results panel have pairwise distinct keys, one per
    result, also when the result list repeats a node. *)
Theorem searchResultKeys_distinct (searchResults : list Node.t) :
  NoDup (searchResultKeys searchResults)
  /\ List.length (searchResultKeys searchResults) = List.length searchResults.
Proof.
  unfold searchResultKeys. split; [|apply length_mapiFrom].
  apply NoDup_mapiFrom. intros j j' x x' _ _ E.
  change (lit "-") with [45%N] in E. cbn [app] in E.
  apply last_separator in E as [_ E]; try apply ofNat_no_hyphen.
  now apply ofNat_inj in E.
Qed.

(** ** Examples of the counters *)

Lemma FileTypeFilters_counts_example :
  map (fun b => (FilterButton.key b, shownCount b))
    (FileTypeFilters (stats v8ProtoText categorizedNodes) [])
  = [(lit "pages", 2); (lit "lib", 1)].
Proof. reflexivity. Qed.

Lemma analysisStats_example :
  analysisStats [] mixedAnalyses
  = Some (AnalysisStats.mk 0 2 1
            [AnalysisStats.mkFile (lit "github:a.ts") (Some [lit "compose"]) 1])
  /\ analysisStats []
       [(lit "a.ts", DockerAnalysisResult.mk true (Some []) None (lit "s"))]
     = None.
Proof. split; reflexivity. Qed.

(** ** The search index and the camera *)

Lemma initialNodes_position (protoText : jsstring -> jsstring)
    (data : list CytoscapeElement) (dockerData : DockerData) (n : Node.t) :
  In n (initialNodes protoText data dockerData) ->
  Node.position n = (0, 0)%Q.
Proof.
  intros Hn.
  destruct (initialNodes_origin protoText data dockerData n Hn)
    as [(id & ty & l & sf & _ & ->)|(k & a & _ & Hentry)]; [reflexivity|].
  destruct Hentry as [(i & api & _ & ->)|(i & tool & _ & ->)]; reflexivity.
Qed.

(** X26. When a load succeeds, the layout not having thrown, the search
    index is built from the nodes before the layout, whose position is the
    origin. So when the search returns items of its index, choosing any
    result of a search on the loaded graph moves the camera to the fixed
    point (100, 25), half a node away from the origin, wherever the layout
    has put the node; the node that becomes selected is the unpositioned
    one. *)
Theorem search_result_camera (protoText : jsstring -> jsstring)
    (dagreLayout : Dagre.Graph -> jsstring -> Q * Q)
    (layoutThrows : Dagre.Graph -> bool)
    (fuseSearch : list Node.t -> jsstring -> list Node.t)
    (dockerFetch : option DockerData) (data : list CytoscapeElement)
    (dagreGraph : Dagre.Graph) (st : App.t) (term : jsstring)
    (found : Node.t) :
  (forall index t n, In n (fuseSearch index t) -> In n index) ->
  layoutThrows
    (layoutGraph dagreGraph
       (initialNodes protoText data
          match dockerFetch with Some d => d | None => [] end)
       (edgeList protoText data
          match dockerFetch with Some d => d | None => [] end)) = false ->
  In found
    (App.searchResults
       (handleSearch fuseSearch term
          (fst (loadData protoText dagreLayout layoutThrows dockerFetch
                  (Some data) dagreGraph st)))) ->
  Node.position found = (0, 0)%Q
  /\ forall st',
       App.selectedNode (fst (selectSearchResult true found st')) = Some found
       /\ exists camera,
            snd (selectSearchResult true found st') = Some camera
            /\ (Camera.x camera == 100)%Q /\ (Camera.y camera == 25)%Q.
Proof.
  intros Hfuse Hlayout Hfound.
  assert (Hpos : Node.position found = (0, 0)%Q).
  { unfold handleSearch, loadData in Hfound. rewrite Hlayout in Hfound.
    cbn [fst snd App.fuse App.nodes App.edges App.originalNodes
         App.selectedNode App.searchTerm App.highlightedNode
         App.activeFilters App.dockerAnalysis App.searchResults
         App.showSearchResults] in Hfound.
    destruct (trim term) as [|c t]; [contradiction|].
    cbn [App.searchResults] in Hfound. apply Hfuse in Hfound.
    now apply initialNodes_position in Hfound. }
  split; [exact Hpos|]. intros st'. split; [reflexivity|].
  eexists. split; [reflexivity|].
  cbn [selectSearchResult selectNodeAndMove snd Camera.x Camera.y].
  rewrite Hpos. cbn [fst snd]. split; reflexivity.
Qed.

Lemma search_result_camera_witness :
  (forall (index : list Node.t) (t : jsstring) n, In n index -> In n index)
  /\ emptyNameThrows
       (layoutGraph Dagre.empty (initialNodes v8ProtoText scenarioA [])
          (edgeList v8ProtoText scenarioA [])) = false
  /\ In nodeA
       (App.searchResults
          (handleSearch (fun index _ => index) (lit "a")
             (fst (loadData v8ProtoText columnLayout emptyNameThrows None
                     (Some scenarioA) Dagre.empty exampleApp))))
  /\ Node.position nodeA = (0, 0)%Q.
Proof.
  assert (Hf : forall (index : list Node.t) (t : jsstring) n,
             In n index -> In n index) by auto.
  assert (Hin : In nodeA
                  (App.searchResults
                     (handleSearch (fun index _ => index) (lit "a")
                        (fst (loadData v8ProtoText columnLayout emptyNameThrows
                                None (Some scenarioA) Dagre.empty
                                exampleApp)))))
    by (left; reflexivity).
  conjs; [exact Hf | reflexivity | exact Hin |].
  exact (proj1 (search_result_camera v8ProtoText columnLayout emptyNameThrows
                  (fun index _ => index) None scenarioA Dagre.empty exampleApp
                  (lit "a") nodeA Hf eq_refl Hin)).
Defined.

(** ** The failure paths of the load *)

(** X27. A load that fails, because the fetch of the raw elements failed or
    because the layout threw, leaves no node, no edge and no original node:
    nothing is displayed and the filter bar has no button, while the search
    index stays the one of before, so that a search still answers from it; a
    fetched analysis map is stored nevertheless. After a failed fetch the
    dagre graph is untouched; after a layout that threw it holds the whole
    request of the failed load. When only the fetch of the Docker analysis
    fails and the layout returns, the graph is the one of the raw elements
    alone: every node is the laid-out node of a node descriptor, every edge
    the edge of an edge descriptor, and the analysis map of the state stays
    as it was. *)
Theorem loadData_failures (protoText : jsstring -> jsstring)
    (dagreLayout : Dagre.Graph -> jsstring -> Q * Q)
    (layoutThrows : Dagre.Graph -> bool)
    (fuseSearch : list Node.t -> jsstring -> list Node.t)
    (dockerFetch : option DockerData)
    (dataFetch : option (list CytoscapeElement))
    (dagreGraph : Dagre.Graph) (st : App.t) :
  let dockerData := match dockerFetch with Some d => d | None => [] end in
  let loaded :=
    loadData protoText dagreLayout layoutThrows dockerFetch dataFetch
      dagreGraph st in
  ((dataFetch = None
    \/ exists data,
         dataFetch = Some data
         /\ layoutThrows
              (layoutGraph dagreGraph (initialNodes protoText data dockerData)
                 (edgeList protoText data dockerData)) = true) ->
   App.nodes (fst loaded) = []
   /\ App.edges (fst loaded) = []
   /\ displayNodes (App.nodes (fst loaded)) (App.highlightedNode (fst loaded))
        (App.activeFilters (fst loaded)) = []
   /\ FileTypeFilters (stats protoText (App.originalNodes (fst loaded)))
        (App.activeFilters (fst loaded)) = []
   /\ (forall term,
         App.searchResults (handleSearch fuseSearch term (fst loaded))
         = App.searchResults (handleSearch fuseSearch term st))
   /\ App.dockerAnalysis (fst loaded)
      = match dockerFetch with
        | Some fetched => fetched
        | None => App.dockerAnalysis st
        end)
  /\ (dataFetch = None -> snd loaded = dagreGraph)
  /\ (forall data,
        dataFetch = Some data ->
        holdsRequest (snd loaded) (initialNodes protoText data dockerData)
          (edgeList protoText data dockerData))
  /\ (forall data,
        dataFetch = Some data -> dockerFetch = None ->
        layoutThrows
          (layoutGraph dagreGraph (initialNodes protoText data [])
             (edgeList protoText data [])) = false ->
        (forall n,
            In n (App.nodes (fst loaded)) ->
            isSynthesized n = false
            /\ exists n0,
                 nodeOfDescriptor data n0
                 /\ n = layoutNode dagreLayout (snd loaded) n0)
        /\ (forall e, In e (App.edges (fst loaded)) -> edgeOfDescriptor data e)
        /\ App.dockerAnalysis (fst loaded) = App.dockerAnalysis st).
Proof.
  cbn zeta. conjs.
  - intros H.
    assert (E : fst (loadData protoText dagreLayout layoutThrows dockerFetch
                       dataFetch dagreGraph st)
                = App.mk [] [] [] (App.selectedNode st) (App.searchTerm st)
                    (App.highlightedNode st) (App.activeFilters st)
                    (App.fuse st)
                    match dockerFetch with
                    | Some d => d
                    | None => App.dockerAnalysis st
                    end (App.searchResults st) (App.showSearchResults st)).
    { unfold loadData. destruct H as [->|(data & -> & Et)]; [reflexivity|].
      now rewrite Et. }
    rewrite E. conjs; try reflexivity.
    intros term. unfold handleSearch. cbn [App.fuse].
    destruct (trim term), (App.fuse st); reflexivity.
  - intros ->. reflexivity.
  - intros data ->. unfold loadData.
    destruct (layoutThrows _); cbn [snd getLayoutedElements];
      apply layoutGraph_holds.
  - intros data -> -> Et. unfold loadData. rewrite Et.
    cbn [fst snd getLayoutedElements App.nodes App.edges App.dockerAnalysis].
    conjs; [| |reflexivity].
    + intros n Hn. apply in_map_iff in Hn as (n0 & <- & Hn0).
      destruct (initialNodes_origin protoText data [] n0 Hn0)
        as [Hraw|(k & a & [[] _] & _)].
      split; [|now exists n0].
      destruct Hraw as (id & ty & l & sf & _ & ->). reflexivity.
    + intros e He.
      now destruct (edgeList_origin protoText data [] e He)
        as [Hraw|(k & a & [[] _] & _)].
Qed.

Lemma loadData_failures_witness :
  (Some emptyNameData = None
   \/ exists data,
        Some emptyNameData = Some data
        /\ emptyNameThrows
             (layoutGraph Dagre.empty (initialNodes v8ProtoText data [])
                (edgeList v8ProtoText data [])) = true)
  /\ App.nodes
       (fst (loadData v8ProtoText columnLayout emptyNameThrows None
               (Some emptyNameData) Dagre.empty exampleApp))
     = [].
Proof.
  assert (H : Some emptyNameData = None
              \/ exists data,
                   Some emptyNameData = Some data
                   /\ emptyNameThrows
                        (layoutGraph Dagre.empty
                           (initialNodes v8ProtoText data [])
                           (edgeList v8ProtoText data [])) = true)
    by (right; exists emptyNameData; split; reflexivity).
  split; [exact H|].
  exact (proj1 (proj1 (loadData_failures v8ProtoText columnLayout
                         emptyNameThrows (fun index _ => index) None
                         (Some emptyNameData) Dagre.empty exampleApp)
                  H)).
Defined.

(** ** The Docker switches of the second component *)

Lemma filter_map_swap {A B} (f : A -> B) (p : B -> bool) (l : list A) :
  filter p (map f l) = map f (filter (fun x => p (f x)) l).
Proof.
  induction l as [|x l IH]; [reflexivity|]. cbn.
  destruct (p (f x)); cbn; now rewrite IH.
Qed.

Lemma filter_filter {A} (p q : A -> bool) (l : list A) :
  filter p (filter q l) = filter (fun x => q x && p x) l.
Proof.
  induction l as [|x l IH]; [reflexivity|]. cbn.
  destruct (q x); cbn; [destruct (p x)|]; now rewrite IH.
Qed.

(** X28. Toggling a Docker switch twice gives back the same view. Switching
    the Docker nodes off removes exactly the Docker nodes from what was
    displayed, and switching the Docker-only filter on removes exactly the
    displayed nodes that are neither Docker nodes nor files with a flagged
    analysis; the rest stays displayed in the same order and style. *)
Theorem toggleDockerFilter_display (v : DockerView.View) :
  (forall type,
      DockerView.toggleDockerFilter type (DockerView.toggleDockerFilter type v)
      = v)
  /\ (DockerView.showDockerNodes v = true ->
      DockerView.displayNodes
        (DockerView.toggleDockerFilter DockerView.nodes_ v)
      = filter (fun n => negb (DockerView.isDockerNode n))
          (DockerView.displayNodes v))
  /\ (DockerView.showDockerOnly v = false ->
      DockerView.displayNodes (DockerView.toggleDockerFilter DockerView.files v)
      = filter
          (fun n =>
             DockerView.isDockerNode n
             || DockerView.hasDockerIntegration (DockerView.dockerAnalysis v)
                  (Node.id n))
          (DockerView.displayNodes v)).
Proof.
  destruct v as [nodes edges h f only shown dd]. conjs.
  - intros [|]; cbn; now rewrite negb_involutive.
  - cbn. intros ->. unfold DockerView.displayNodes. cbn.
    rewrite filter_map_swap, filter_filter. f_equal. apply filter_ext.
    intros n. rewrite isDockerNode_restyle. unfold DockerView.keepNode.
    destruct only, (DockerView.isDockerNode n),
      (DockerView.hasDockerIntegration dd (Node.id n)); reflexivity.
  - cbn. intros ->. unfold DockerView.displayNodes. cbn.
    rewrite filter_map_swap, filter_filter. f_equal. apply filter_ext.
    intros n. rewrite isDockerNode_restyle. unfold DockerView.keepNode.
    change (Node.id (restyle h f n)) with (Node.id n).
    destruct shown, (DockerView.isDockerNode n),
      (DockerView.hasDockerIntegration dd (Node.id n)); reflexivity.
Qed.

Lemma toggleDockerFilter_display_witness :
  DockerView.showDockerNodes (scenarioBView false true) = true
  /\ nodeIds
       (DockerView.displayNodes
          (DockerView.toggleDockerFilter DockerView.nodes_
             (scenarioBView false true)))
     = [lit "a.ts"].
Proof.
  split; [reflexivity|].
  exact (f_equal nodeIds
           (proj1 (proj2 (toggleDockerFilter_display (scenarioBView false true)))
              eq_refl)).
Defined.

(** ** Malformed API entries *)

(** *** The fallback node *)

Lemma friendly_fallback (s : jsstring) :
  getFriendlyDockerName (lit "api_" ++ s) = FriendlyText (lit "api_" ++ s).
Proof. reflexivity. Qed.

Lemma dockerApiNode_fallback (protoText : jsstring -> jsstring)
    (fileName : jsstring) (api : DockerAPI.t) (index : nat) :
  truthyOpt (DockerAPI.name api) = false ->
  truthyOpt (DockerAPI.apiType api) = false ->
  dockerApiNode protoText fileName api index = fallbackNode fileName api index.
Proof.
  intros Hname Htype. unfold dockerApiNode, fallbackNode, dockerApiId.
  cbv zeta. rewrite (apiNameOf_fallback api index Hname Htype).
  now rewrite friendly_fallback.
Qed.

Lemma apiNameOf_withName (name : jsstring) (api : DockerAPI.t) (index : nat) :
  truthy name = true -> apiNameOf (withName name api) index = name.
Proof. destruct name; [discriminate|reflexivity]. Qed.

(** Writing the name the code falls back on into the entry changes the node
    in its [originalApi] only, and the edge not at all. *)
Lemma named_node (protoText : jsstring -> jsstring) (fileName : jsstring)
    (api : DockerAPI.t) (index : nat) :
  withoutOriginalApi
    (dockerApiNode protoText fileName (withName (apiNameOf api index) api) index)
  = withoutOriginalApi (dockerApiNode protoText fileName api index).
Proof.
  unfold dockerApiNode, dockerApiId. cbv zeta.
  rewrite (apiNameOf_withName _ api index (truthy_apiNameOf api index)).
  reflexivity.
Qed.

Lemma named_edge (fileName : jsstring) (api : DockerAPI.t) (index : nat) :
  dockerApiEdge fileName (withName (apiNameOf api index) api) index
  = dockerApiEdge fileName api index.
Proof.
  unfold dockerApiEdge, dockerApiId. cbv zeta.
  now rewrite (apiNameOf_withName _ api index (truthy_apiNameOf api index)).
Qed.

(** *** The build up to [originalApi] *)

Lemma forget_mapSet (k : jsstring) (v : Node.t) (m : Map Node.t) :
  map (fun entry => (fst entry, withoutOriginalApi (snd entry))) (mapSet k v m)
  = mapSet k (withoutOriginalApi v)
      (map (fun entry => (fst entry, withoutOriginalApi (snd entry))) m).
Proof.
  induction m as [|[k' v'] m IH]; [reflexivity|]. cbn [mapSet map fst snd].
  destruct (streq k' k); cbn [map fst snd]; [reflexivity|]. now rewrite IH.
Qed.

Lemma forgetState_addCapability (node : Node.t) (edge : Edge.t)
    (st : BuildState) :
  forgetState (addCapability node edge st)
  = addCapability (withoutOriginalApi node) edge (forgetState st).
Proof.
  unfold forgetState, addCapability. cbn [fst snd]. now rewrite forget_mapSet.
Qed.

Lemma forgetState_values (st : BuildState) :
  mapValues (fst (forgetState st)) = map withoutOriginalApi (mapValues (fst st)).
Proof. unfold forgetState, mapValues. cbn [fst]. now rewrite !map_map. Qed.

Lemma forEachFrom_app {A St} (f : St -> A -> nat -> St) (l1 l2 : list A)
    (i : nat) (st : St) :
  forEachFrom f i (l1 ++ l2) st
  = forEachFrom f (i + List.length l1) l2 (forEachFrom f i l1 st).
Proof.
  revert i st. induction l1 as [|x l1 IH]; intros i st; cbn.
  - now rewrite Nat.add_0_r.
  - rewrite IH. now rewrite Nat.add_succ_r.
Qed.

Section UpToOriginalApi.

Variable protoText : jsstring -> jsstring.

Lemma forgetState_addDockerApi (fileName : jsstring) (st st' : BuildState)
    (api api' : DockerAPI.t) (index : nat) :
  forgetState st = forgetState st' ->
  withoutOriginalApi (dockerApiNode protoText fileName api index)
  = withoutOriginalApi (dockerApiNode protoText fileName api' index) ->
  dockerApiEdge fileName api index = dockerApiEdge fileName api' index ->
  forgetState (addDockerApi protoText fileName st api index)
  = forgetState (addDockerApi protoText fileName st' api' index).
Proof.
  intros Hst Hnode Hedge. unfold addDockerApi.
  rewrite !forgetState_addCapability. now rewrite Hst, Hnode, Hedge.
Qed.

Lemma forgetState_addDockerTool (fileName : jsstring) (st st' : BuildState)
    (tool : jsstring) (index : nat) :
  forgetState st = forgetState st' ->
  forgetState (addDockerTool protoText fileName st tool index)
  = forgetState (addDockerTool protoText fileName st' tool index).
Proof.
  intros Hst. unfold addDockerTool.
  rewrite !forgetState_addCapability. now rewrite Hst.
Qed.

Lemma forgetState_forEachFrom {A} (step : BuildState -> A -> nat -> BuildState)
    (l : list A) :
  (forall st st' x i,
      forgetState st = forgetState st' ->
      forgetState (step st x i) = forgetState (step st' x i)) ->
  forall i st st',
    forgetState st = forgetState st' ->
    forgetState (forEachFrom step i l st)
    = forgetState (forEachFrom step i l st').
Proof.
  intros Hstep. induction l as [|x l IH]; intros i st st' Hst; cbn; auto.
Qed.

Lemma forgetState_addDockerEntry (st st' : BuildState)
    (entry : jsstring * DockerAnalysisResult.t) :
  forgetState st = forgetState st' ->
  forgetState (addDockerEntry protoText st entry)
  = forgetState (addDockerEntry protoText st' entry).
Proof.
  intros Hst. destruct entry as [k a]. unfold addDockerEntry.
  destruct (DockerAnalysisResult.hasDockerIntegration a); [|assumption].
  unfold forEachIndexed. apply forgetState_forEachFrom.
  - intros. now apply forgetState_addDockerTool.
  - apply forgetState_forEachFrom; [|assumption].
    intros. now apply forgetState_addDockerApi.
Qed.

Lemma forgetState_fold (l : DockerData) (st st' : BuildState) :
  forgetState st = forgetState st' ->
  forgetState (fold_left (addDockerEntry protoText) l st)
  = forgetState (fold_left (addDockerEntry protoText) l st').
Proof.
  revert st st'. induction l as [|x l IH]; intros st st' Hst; cbn; auto.
  apply IH. now apply forgetState_addDockerEntry.
Qed.

(** The graph built from an analysis map is, up to [originalApi], the graph
    built from the map in which one API entry carries the name the code
    gives it. *)
Lemma named_graph (data : list CytoscapeElement) (before after : DockerData)
    (fileKey : jsstring) (analysis : DockerAnalysisResult.t)
    (pre post : list DockerAPI.t) (api : DockerAPI.t) :
  DockerAnalysisResult.dockerApis analysis = Some (pre ++ api :: post) ->
  forgetState
    (buildGraph protoText data (before ++ (fileKey, analysis) :: after))
  = forgetState
      (buildGraph protoText data
         (before
          ++ (fileKey,
              withApis
                (pre ++ withName (apiNameOf api (List.length pre)) api :: post)
                analysis)
          :: after)).
Proof.
  intros Hapis. unfold buildGraph. rewrite !fold_left_app.
  cbn [fold_left]. apply forgetState_fold.
  set (st := fold_left (addDockerEntry protoText) before
               (fold_left addElement data ([], []))).
  unfold addDockerEntry. cbn [withApis DockerAnalysisResult.hasDockerIntegration].
  destruct (DockerAnalysisResult.hasDockerIntegration analysis); [|reflexivity].
  unfold forEachIndexed, toolsOf, apisOf.
  cbn [withApis DockerAnalysisResult.dockerTools
         DockerAnalysisResult.dockerApis orEmpty].
  rewrite Hapis. cbn [orEmpty].
  apply forgetState_forEachFrom.
  { intros. now apply forgetState_addDockerTool. }
  rewrite !forEachFrom_app. cbn [forEachFrom].
  apply forgetState_forEachFrom.
  { intros. now apply forgetState_addDockerApi. }
  apply forgetState_addDockerApi; [reflexivity| |].
  - symmetry. apply named_node.
  - symmetry. apply named_edge.
Qed.

(** The layout request reads the identifiers of the nodes only, and the
    layout keeps what [withoutOriginalApi] keeps. *)
Lemma layoutGraph_withoutOriginalApi (g : Dagre.Graph) (nodes : list Node.t)
    (edges : list Edge.t) :
  layoutGraph g (map withoutOriginalApi nodes) edges = layoutGraph g nodes edges.
Proof.
  unfold layoutGraph. f_equal.
  generalize (Dagre.setGraph (Dagre.mkLabel (lit "LR") 30 300) g).
  induction nodes as [|n nodes IH]; intros g0; [reflexivity|]. cbn. apply IH.
Qed.

Lemma layoutGraph_same_up_to (g : Dagre.Graph) (nodes nodes' : list Node.t)
    (edges : list Edge.t) :
  map withoutOriginalApi nodes = map withoutOriginalApi nodes' ->
  layoutGraph g nodes edges = layoutGraph g nodes' edges.
Proof.
  intros E. rewrite <- (layoutGraph_withoutOriginalApi g nodes).
  rewrite E. apply layoutGraph_withoutOriginalApi.
Qed.

Lemma loadData_same_up_to (dagreLayout : Dagre.Graph -> jsstring -> Q * Q)
    (layoutThrows : Dagre.Graph -> bool) (data : list CytoscapeElement)
    (dockerData dockerData' : DockerData) (dagreGraph : Dagre.Graph)
    (st : App.t) :
  forgetState (buildGraph protoText data dockerData)
  = forgetState (buildGraph protoText data dockerData') ->
  map withoutOriginalApi
    (App.nodes
       (fst (loadData protoText dagreLayout layoutThrows (Some dockerData)
               (Some data) dagreGraph st)))
  = map withoutOriginalApi
      (App.nodes
         (fst (loadData protoText dagreLayout layoutThrows (Some dockerData')
                 (Some data) dagreGraph st)))
  /\ App.edges
       (fst (loadData protoText dagreLayout layoutThrows (Some dockerData)
               (Some data) dagreGraph st))
     = App.edges
         (fst (loadData protoText dagreLayout layoutThrows (Some dockerData')
                 (Some data) dagreGraph st))
  /\ snd (loadData protoText dagreLayout layoutThrows (Some dockerData)
            (Some data) dagreGraph st)
     = snd (loadData protoText dagreLayout layoutThrows (Some dockerData')
              (Some data) dagreGraph st).
Proof.
  intros E.
  assert (En : map withoutOriginalApi (initialNodes protoText data dockerData)
               = map withoutOriginalApi
                   (initialNodes protoText data dockerData')).
  { unfold initialNodes. rewrite <- !forgetState_values. now rewrite E. }
  assert (Ee : edgeList protoText data dockerData
               = edgeList protoText data dockerData').
  { unfold edgeList. exact (f_equal snd E). }
  unfold loadData. rewrite <- Ee.
  rewrite <- (layoutGraph_same_up_to dagreGraph _ _
                (edgeList protoText data dockerData) En).
  destruct (layoutThrows _); cbn [fst snd getLayoutedElements App.nodes
                                   App.edges]; conjs; try reflexivity.
  - rewrite !map_map.
    change (map (fun n => withoutOriginalApi (layoutNode dagreLayout ?g n)) ?l)
      with (map (fun n => layoutNode dagreLayout g (withoutOriginalApi n)) l).
    rewrite <- !(map_map withoutOriginalApi (layoutNode dagreLayout _)).
    rewrite <- (layoutGraph_same_up_to dagreGraph _ _
                  (edgeList protoText data dockerData) En).
    now rewrite En.
  - now rewrite <- (layoutGraph_same_up_to dagreGraph _ _
                      (edgeList protoText data dockerData) En).
Qed.

(** *** The node stored for an API entry *)

(** When no other API entry is given the same identifier, the node stored
    under it is the node of the entry. *)
Lemma api_node_stored (data : list CytoscapeElement) (dockerData : DockerData)
    (fileKey : jsstring) (analysis : DockerAnalysisResult.t) (index : nat)
    (api : DockerAPI.t) :
  integrated dockerData fileKey analysis ->
  nth_error (apisOf analysis) index = Some api ->
  (forall fileKey' analysis' j api',
      integrated dockerData fileKey' analysis' ->
      nth_error (apisOf analysis') j = Some api' ->
      dockerApiId (fileNameOf fileKey') api' j
      = dockerApiId (fileNameOf fileKey) api index ->
      fileNameOf fileKey' = fileNameOf fileKey /\ api' = api) ->
  mapGet (dockerApiId (fileNameOf fileKey) api index)
    (fst (buildGraph protoText data dockerData))
  = Some (dockerApiNode protoText (fileNameOf fileKey) api index).
Proof.
  intros Hint Hnth Hsole. unfold buildGraph.
  apply (dockerPass_reach_api protoText
           (fun s =>
              mapGet (dockerApiId (fileNameOf fileKey) api index) (fst s)
              = Some (dockerApiNode protoText (fileNameOf fileKey) api index))
           dockerData _ fileKey analysis index api Hint Hnth).
  - intros s. apply mapGet_mapSet_same.
  - intros s k a j api' Hka Hj Hs. unfold addDockerApi, addCapability.
    cbn [fst].
    change (Node.id (dockerApiNode protoText (fileNameOf k) api' j))
      with (dockerApiId (fileNameOf k) api' j).
    destruct (list_eq_dec N.eq_dec (dockerApiId (fileNameOf k) api' j)
                (dockerApiId (fileNameOf fileKey) api index)) as [E|Hne].
    + destruct (Hsole k a j api' Hka Hj E) as [Ef ->].
      pose proof (dockerApiId_index _ _ _ _ _ _ Ef E) as ->.
      rewrite Ef. apply mapGet_mapSet_same.
    + now rewrite mapGet_mapSet_other by congruence.
  - intros s k a j tool Hka Hj Hs. unfold addDockerTool, addCapability.
    cbn [fst].
    change (Node.id (dockerToolNode protoText (fileNameOf k) tool j))
      with (dockerToolId (fileNameOf k) tool j).
    rewrite mapGet_mapSet_other; [assumption|].
    apply dockerApiId_not_tool.
Qed.

(** *** The exceptions of the Docker pass *)

Lemma forEachThrowing_entries (fileName : jsstring) (l : list DockerAPI.t)
    (i : nat) (st : BuildState) :
  Raw.forEachThrowing (Raw.addApiEntry protoText fileName) i
    (map Raw.Entry l) st
  = Some (forEachFrom (addDockerApi protoText fileName) i l st).
Proof. revert i st. induction l as [|x l IH]; intros i st; cbn; auto. Qed.

Lemma addAnalysis_typed (st : BuildState)
    (entry : jsstring * DockerAnalysisResult.t) :
  Raw.addAnalysis protoText st
    (fst entry, Raw.AnalysisRecord (Raw.ofAnalysis (snd entry)))
  = Some (addDockerEntry protoText st entry).
Proof.
  destruct entry as [k [flag tools apis s]].
  unfold Raw.addAnalysis, addDockerEntry, forEachIndexed, apisOf, toolsOf.
  cbn. destruct flag; [|reflexivity].
  destruct apis as [apis|], tools as [tools|]; cbn;
    rewrite ?forEachThrowing_entries, ?map_id; reflexivity.
Qed.

(** On a body of the declared type the pass throws nothing, whatever fields
    its records lack, and returns the graph of [buildGraph]. *)
Lemma buildGraph_typed (data : list CytoscapeElement) (dockerData : DockerData) :
  Raw.buildGraph protoText data (Raw.ofData dockerData)
  = Some (buildGraph protoText data dockerData).
Proof.
  unfold Raw.buildGraph, buildGraph.
  generalize (fold_left addElement data ([], [])).
  induction dockerData as [|entry l IH]; intros st; [reflexivity|].
  cbn [Raw.ofData map Raw.foldThrowing fold_left].
  rewrite addAnalysis_typed. apply IH.
Qed.

Lemma forEachThrowing_null (fileName : jsstring) (items : list Raw.ApiEntry)
    (i : nat) (st : BuildState) :
  Raw.forEachThrowing (Raw.addApiEntry protoText fileName) i items st = None
  <-> existsb Raw.isNull items = true.
Proof.
  revert i st. induction items as [|[|api] items IH]; intros i st; cbn.
  - split; discriminate.
  - tauto.
  - apply IH.
Qed.

Lemma addAnalysis_throws (st : BuildState) (entry : jsstring * Raw.AnalysisValue) :
  Raw.addAnalysis protoText st entry = None <-> Raw.throwsOn (snd entry) = true.
Proof.
  destruct entry as [k [|[flag tools apis s]]]; unfold Raw.addAnalysis; cbn.
  - tauto.
  - destruct flag; cbn; [|split; discriminate].
    destruct apis as [|items|]; cbn.
    + destruct tools as [|tools|]; cbn; [split; discriminate| |tauto].
      split; [discriminate|]. intros H. exfalso.
      induction tools; cbn in H; auto. discriminate.
    + destruct (Raw.forEachThrowing _ 0 items st) as [st1|] eqn:E.
      * assert (Hn : existsb Raw.isNull items = false).
        { destruct (existsb Raw.isNull items) eqn:En; [|reflexivity].
          apply (forEachThrowing_null (fileNameOf k) items 0 st) in En.
          unfold fileNameOf in En. congruence. }
        rewrite Hn. cbn.
        destruct tools as [|tools|]; cbn; [split; discriminate| |tauto].
        split; [discriminate|]. intros H. exfalso.
        induction tools; cbn in H; auto. discriminate.
      * apply forEachThrowing_null in E. rewrite E. tauto.
    + tauto.
Qed.

(** The pass throws exactly when the body holds [null] for an analysis, or a
    flagged analysis holds [null] for an API entry or a list that is no
    array. *)
Lemma buildGraph_throws (data : list CytoscapeElement) (dockerData : Raw.Data) :
  Raw.buildGraph protoText data dockerData = None
  <-> existsb (fun entry => Raw.throwsOn (snd entry)) dockerData = true.
Proof.
  unfold Raw.buildGraph. generalize (fold_left addElement data ([], [])).
  induction dockerData as [|entry l IH]; intros st; cbn.
  - split; discriminate.
  - destruct (Raw.addAnalysis protoText st entry) as [st1|] eqn:E.
    + assert (Hn : Raw.throwsOn (snd entry) = false).
      { destruct (Raw.throwsOn (snd entry)) eqn:Et; [|reflexivity].
        apply (addAnalysis_throws st entry) in Et. congruence. }
      rewrite Hn. apply IH.
    + apply addAnalysis_throws in E. rewrite E. tauto.
Qed.

End UpToOriginalApi.

Lemma null_entry_throws (protoText : jsstring -> jsstring)
    (data : list CytoscapeElement) :
  Raw.buildGraph protoText data nullEntryBody = None.
Proof. now apply buildGraph_throws. Qed.

(** C7. An API entry at index [i] that is a record with neither [name] nor
    [apiType] (both missing, or empty) does not make the build fail: on the
    parsed body the Docker pass throws nothing and returns the graph. The
    graph has a capability node under [docker_api_<file>_api_i_i], with its
    edge from the file, and unless another API entry is given the same
    identifier the node stored under it is the fallback node, named [api_i].
    The rest is unchanged: the nodes (up to the copy [originalApi] of the
    entry) and the edges are those of the body in which the entry carries the
    name [api_i], and so are the nodes, the edges and the dagre graph
    [loadData] ends with, whether the layout throws or not. *)
Theorem missing_name_fallback (protoText : jsstring -> jsstring)
    (dagreLayout : Dagre.Graph -> jsstring -> Q * Q)
    (layoutThrows : Dagre.Graph -> bool)
    (data : list CytoscapeElement) (before after : DockerData)
    (fileKey : jsstring) (analysis : DockerAnalysisResult.t)
    (pre post : list DockerAPI.t) (api : DockerAPI.t)
    (dagreGraph : Dagre.Graph) (st : App.t) :
  DockerAnalysisResult.hasDockerIntegration analysis = true ->
  DockerAnalysisResult.dockerApis analysis = Some (pre ++ api :: post) ->
  truthyOpt (DockerAPI.name api) = false ->
  truthyOpt (DockerAPI.apiType api) = false ->
  let index := List.length pre in
  let fileName := fileNameOf fileKey in
  let id :=
    lit "docker_api_" ++ fileName ++ lit "_" ++ (lit "api_" ++ ofNat index)
    ++ lit "_" ++ ofNat index in
  let dockerData := before ++ (fileKey, analysis) :: after in
  let named :=
    before
    ++ (fileKey,
        withApis (pre ++ withName (lit "api_" ++ ofNat index) api :: post)
          analysis)
    :: after in
  let loaded := fun dockerData =>
    loadData protoText dagreLayout layoutThrows (Some dockerData) (Some data)
      dagreGraph st in
  Raw.buildGraph protoText data (Raw.ofData dockerData)
  = Some (buildGraph protoText data dockerData)
  /\ (exists n,
        In n (initialNodes protoText data dockerData)
        /\ Node.id n = id /\ isApiNode n)
  /\ ((forall fileKey' analysis' j api',
          integrated dockerData fileKey' analysis' ->
          nth_error (apisOf analysis') j = Some api' ->
          dockerApiId (fileNameOf fileKey') api' j = id ->
          fileNameOf fileKey' = fileName /\ api' = api) ->
      mapGet id (fst (buildGraph protoText data dockerData))
      = Some (fallbackNode fileName api index))
  /\ In (fileName ++ lit "->" ++ id)
       (edgeIds (edgeList protoText data dockerData))
  /\ map withoutOriginalApi (initialNodes protoText data dockerData)
     = map withoutOriginalApi (initialNodes protoText data named)
  /\ edgeList protoText data dockerData = edgeList protoText data named
  /\ map withoutOriginalApi (App.nodes (fst (loaded dockerData)))
     = map withoutOriginalApi (App.nodes (fst (loaded named)))
  /\ App.edges (fst (loaded dockerData)) = App.edges (fst (loaded named))
  /\ snd (loaded dockerData) = snd (loaded named)
  /\ (forall n fileKey' analysis',
        integrated dockerData fileKey' analysis' ->
        In n (entryNodes protoText fileKey' analysis') ->
        In (Node.id n) (nodeIds (initialNodes protoText data dockerData)))
  /\ (forall id',
        declared data id' ->
        In id' (nodeIds (initialNodes protoText data dockerData)))
  /\ (forall source target type,
        In (EdgeElement source target type) data ->
        In (source ++ lit "->" ++ target)
          (edgeIds (edgeList protoText data dockerData))).
Proof.
  intros Hflag Hapis Hname Htype index fileName id dockerData named loaded.
  pose proof (apiNameOf_fallback api index Hname Htype) as Efall.
  assert (Hint : integrated dockerData fileKey analysis)
    by (split; [apply in_elt | exact Hflag]).
  assert (Hnth : nth_error (apisOf analysis) index = Some api).
  { unfold apisOf. rewrite Hapis. cbn [orEmpty]. unfold index.
    now rewrite nth_error_app2, Nat.sub_diag by lia. }
  assert (Eid : dockerApiId fileName api index = id)
    by (unfold dockerApiId, id; now rewrite Efall).
  assert (Egraph : forgetState (buildGraph protoText data dockerData)
                   = forgetState (buildGraph protoText data named)).
  { unfold dockerData, named. rewrite <- Efall.
    now apply named_graph. }
  conjs.
  - apply buildGraph_typed.
  - destruct (api_node_in_graph protoText data dockerData fileKey analysis
                index api Hint Hnth) as (n & Hin & Hid & Hkind).
    exists n. conjs; [assumption | now rewrite Hid | assumption].
  - intros Hsole.
    rewrite <- (dockerApiNode_fallback protoText fileName api index Hname Htype).
    rewrite <- Eid.
    apply (api_node_stored protoText data dockerData fileKey analysis index api
             Hint Hnth).
    intros k a j api' Hka Hj E. apply (Hsole k a j api' Hka Hj).
    now rewrite E.
  - pose proof (api_edge_in_graph protoText data dockerData fileKey analysis
                  index api Hint Hnth) as H.
    cbn [dockerApiEdge Edge.id] in H. fold fileName in H.
    now rewrite Eid in H.
  - unfold initialNodes. rewrite <- !forgetState_values. now rewrite Egraph.
  - unfold edgeList. exact (f_equal snd Egraph).
  - apply (loadData_same_up_to protoText dagreLayout layoutThrows data
             dockerData named dagreGraph st Egraph).
  - apply (loadData_same_up_to protoText dagreLayout layoutThrows data
             dockerData named dagreGraph st Egraph).
  - apply (loadData_same_up_to protoText dagreLayout layoutThrows data
             dockerData named dagreGraph st Egraph).
  - intros n k a Hka Hn. apply in_entryNodes in Hn.
    destruct Hn as [(j & x & Hj & ->)|(j & x & Hj & ->)].
    + destruct (api_node_in_graph protoText data dockerData k a j x Hka Hj)
        as (n' & Hin' & Hid' & _).
      cbn. rewrite <- Hid'. now apply in_map.
    + destruct (tool_node_in_graph protoText data dockerData k a j x Hka Hj)
        as (n' & Hin' & Hid' & _).
      cbn. rewrite <- Hid'. now apply in_map.
  - intros id'. apply declared_in_graph.
  - intros s t ty. apply descriptor_edge_in_graph.
Qed.

Lemma missing_name_fallback_witness :
  DockerAnalysisResult.hasDockerIntegration threeApis = true
  /\ DockerAnalysisResult.dockerApis threeApis
     = Some ([namedApi (lit "dockerReadFile")]
             ++ namelessApi :: [namedApi (lit "dockerWriteFile")])
  /\ truthyOpt (DockerAPI.name namelessApi) = false
  /\ truthyOpt (DockerAPI.apiType namelessApi) = false
  /\ Raw.buildGraph v8ProtoText scenarioB_data (Raw.ofData threeEntries)
     = Some (buildGraph v8ProtoText scenarioB_data threeEntries)
  /\ mapGet (lit "docker_api_a.ts_api_1_1")
       (fst (buildGraph v8ProtoText scenarioB_data threeEntries))
     = Some (fallbackNode (lit "a.ts") namelessApi 1)
  /\ In (lit "a.ts->docker_api_a.ts_api_1_1")
       (edgeIds (edgeList v8ProtoText scenarioB_data threeEntries)).
Proof.
  pose proof (missing_name_fallback v8ProtoText columnLayout emptyNameThrows
                scenarioB_data
                [(lit "b.ts",
                  exampleAnalysis true [namedApi (lit "dockerFindFiles")] [])]
                [unflaggedEntry] (lit "github:a.ts") threeApis
                [namedApi (lit "dockerReadFile")]
                [namedApi (lit "dockerWriteFile")] namelessApi Dagre.empty
                exampleApp eq_refl eq_refl eq_refl eq_refl) as H.
  cbv zeta in H. destruct H as (Hraw & _ & Hnode & Hedge & _).
  do 4 (split; [reflexivity|]). split; [exact Hraw|]. split; [|exact Hedge].
  - apply Hnode. intros k a j api' [Hin Hflag] Hj E.
    destruct Hin as [H|[H|[H|[]]]]; injection H as <- <-;
      try discriminate Hflag;
      destruct j as [|[|[|j]]]; cbn in Hj;
      try discriminate Hj; try (destruct j; discriminate Hj);
      injection Hj as <-;
      try (split; reflexivity); vm_compute in E; discriminate E.
Defined.
